(** * Shortener service: a shallow embedding of [src/api/index.js]

    The service keeps one JSON file, [database.json], mapping a short name
    to a record, and serves three routes: [POST /shorten], [GET /:name]
    and [GET /api/stats/:name].  This development embeds

    - the JavaScript values that flow through the handlers (the result of
      [JSON.parse], records built by the handlers, values inherited from
      [Object.prototype]);
    - [JSON.stringify(data, null, 2)] and [JSON.parse] on those values;
    - the file system calls [fs.readFile] / [fs.writeFile] on the one file,
      as a state and exception monad over a [world];
    - [readDatabase], [writeDatabase], [isValidUrl] and the three handlers.

    Conventions of the model.

    - A JavaScript string is a Rocq [string]; each [ascii] is one code unit
      in the range 0..255.  The content of the file is the string that
      [fs.readFile(dbPath, 'utf8')] returns.
    - A JavaScript number is modelled on the integers of absolute value at
      most 2^53, where binary64 arithmetic is written out exactly, plus
      [NaN].  A file whose number literals have a fraction, an exponent or
      a larger magnitude, or whose string escapes denote a code unit above
      255, is accepted by [JSON_parse] as syntactically valid but reported
      as [Unsupported]: the handlers then end in [Unmodelled], and no
      theorem speaks about such a run.  [-0] is read as [0]: the program
      can not tell them apart (truthiness, [+ 1], [JSON.stringify] and
      string conversion agree on both).
    - The store is what [JSON.parse] returns for the file: the handlers
      are modelled on an object and on [null]; a file whose text is an
      array, a string, a number or a boolean ends in [Unmodelled] too.
    - [new URL(s)] (the WHATWG URL parser) and the clock are outside the
      repository: the first is a section variable, the second an input of
      each request, as is the client address put on the request by the
      [request-ip] middleware.  The fields [url] and [name] of the request
      body are missing or any value of the model ([post_shorten]);
      [shorten] is the handler on a body whose fields are missing or
      strings.
    - [res.redirect(target)] converts its argument with [String]; sending
      the answer is otherwise outside the repository.
    - Each request is run to completion: the interleaving of concurrent
      requests is not modelled.  A write that fails leaves the file as it
      was.
    - Resource limits of the engine (maximal string and array length,
      stack depth, heap) are not modelled. *)

From Stdlib Require Import String Ascii List ZArith NArith Bool Lia.
From Stdlib Require Import DecimalString.
From Stdlib Require DecimalFacts DecimalPos DecimalN.
Import ListNotations.
Set Warnings "-register-all".
Local Open Scope string_scope.
Local Open Scope Z_scope.

(** ** JavaScript values *)

Module JS.

(** Numbers: an integer [z] with [|z| <= 2^53] stands for the binary64
    number of that value. *)
Inductive number : Type :=
| NInt (z : Z)
| NaN.

(** The values [JSON.parse] builds.  An object is the list of its own
    properties in the engine's enumeration order. *)
Inductive value : Type :=
| VNull
| VBool (b : bool)
| VNum (n : number)
| VStr (s : string)
| VArr (elems : list value)
| VObj (props : list (string * value)).

(** What a property read [o[k]] can give: nothing, a data value, or a value
    inherited from [Object.prototype] (a built-in function, or the
    prototype object itself for [__proto__]), named by the property. *)
Inductive jsval : Type :=
| Undefined
| Data (v : value)
| Inherited (prop : string).

Definition MAX_SAFE : Z := 2 ^ 53.

(** ToBoolean. *)
Definition truthy_value (v : value) : bool :=
  match v with
  | VNull => false
  | VBool b => b
  | VNum (NInt z) => negb (z =? 0)
  | VNum NaN => false
  | VStr s => negb (s =? EmptyString)%string
  | VArr _ => true
  | VObj _ => true
  end.

Definition truthy (x : jsval) : bool :=
  match x with
  | Undefined => false
  | Data v => truthy_value v
  | Inherited _ => true
  end.

(** The own and inherited properties of [Object.prototype] in Node. *)
Definition Object_prototype_props : list string :=
  [ "constructor"; "__defineGetter__"; "__defineSetter__"; "hasOwnProperty";
    "__lookupGetter__"; "__lookupSetter__"; "isPrototypeOf";
    "propertyIsEnumerable"; "toString"; "valueOf"; "__proto__";
    "toLocaleString" ].

Definition inherited_prop (k : string) : bool :=
  existsb (String.eqb k) Object_prototype_props.

(** Own property lookup. *)
Fixpoint own (props : list (string * value)) (k : string) : option value :=
  match props with
  | [] => None
  | (k', v) :: rest => if (k' =? k)%string then Some v else own rest k
  end.

(** [o[k]] on an ordinary object whose prototype is [Object.prototype]. *)
Definition get_prop (props : list (string * value)) (k : string) : jsval :=
  match own props k with
  | Some v => Data v
  | None => if inherited_prop k then Inherited k else Undefined
  end.

(** *** Property order

    Own properties are enumerated with the array indices first, in
    ascending numeric order, then the other string keys in creation
    order.  An array index is the canonical decimal form of an integer in
    [0, 2^32 - 2]. *)

Definition is_digit (c : ascii) : bool :=
  let n := N_of_ascii c in ((48 <=? n) && (n <=? 57))%N.

(** The number a string of decimal digits denotes. *)
Definition digits_val (s : string) : N :=
  match NilEmpty.uint_of_string s with
  | Some d => N.of_uint d
  | None => 0%N
  end.

Fixpoint all_digits (s : string) : bool :=
  match s with
  | EmptyString => true
  | String c s' => is_digit c && all_digits s'
  end.

Definition array_index (k : string) : option N :=
  match k with
  | EmptyString => None
  | String c rest =>
      if all_digits k
         && (negb (Ascii.eqb c "0") || (rest =? EmptyString)%string)
         && (Nat.leb (String.length k) 10)
      then let n := digits_val k in
           if (n <=? 4294967294)%N then Some n else None
      else None
  end.

(** Replace the value of an own property, keeping its place. *)
Fixpoint replace_prop (props : list (string * value)) (k : string) (v : value)
  : list (string * value) :=
  match props with
  | [] => []
  | (k', v') :: rest =>
      if (k' =? k)%string then (k', v) :: rest
      else (k', v') :: replace_prop rest k v
  end.

(** Create an array-index property: before the first property that is not
    an index or is a larger index. *)
Fixpoint insert_index (props : list (string * value)) (i : N) (k : string)
  (v : value) : list (string * value) :=
  match props with
  | [] => [(k, v)]
  | (k', v') :: rest =>
      match array_index k' with
      | Some j => if (j <? i)%N then (k', v') :: insert_index rest i k v
                  else (k, v) :: props
      | None => (k, v) :: props
      end
  end.

(** [o[k] = v] on an ordinary object. *)
Definition set_prop (props : list (string * value)) (k : string) (v : value)
  : list (string * value) :=
  match own props k with
  | Some _ => replace_prop props k v
  | None =>
      match array_index k with
      | Some i => insert_index props i k v
      | None => props ++ [(k, v)]
      end
  end.

End JS.
Import JS.

(** ** JSON text *)

Module JSON.

Definition DQ : ascii := "034"%char.  (* the double quote *)
Definition BS : ascii := "092"%char.  (* the backslash *)
Definition LF : ascii := "010"%char.

(** *** [JSON.stringify(value, null, 2)] *)

Definition hex_digit (n : N) : ascii :=
  if (n <? 10)%N then ascii_of_N (48 + n) else ascii_of_N (87 + n).

(** QuoteJSONString on one code unit. *)
Definition escape_char (c : ascii) : string :=
  let n := N_of_ascii c in
  if (n =? 34)%N then String BS (String DQ EmptyString)
  else if (n =? 92)%N then String BS (String BS EmptyString)
  else if (n =? 8)%N then String BS "b"
  else if (n =? 12)%N then String BS "f"
  else if (n =? 10)%N then String BS "n"
  else if (n =? 13)%N then String BS "r"
  else if (n =? 9)%N then String BS "t"
  else if (n <? 32)%N then
    String BS (String "u" (String "0" (String "0"
      (String (hex_digit (n / 16))
         (String (hex_digit (n mod 16)) EmptyString)))))
  else String c EmptyString.

Fixpoint escape (s : string) : string :=
  match s with
  | EmptyString => EmptyString
  | String c s' => escape_char c ++ escape s'
  end.

Definition quote (s : string) : string :=
  String DQ (escape s ++ String DQ EmptyString).

(** Number::toString on the modelled range; [NaN] is written [null]. *)
Definition number_text (n : number) : string :=
  match n with
  | NInt z => NilZero.string_of_int (Z.to_int z)
  | NaN => "null"
  end.

Fixpoint join (sep : string) (parts : list string) : string :=
  match parts with
  | [] => EmptyString
  | [p] => p
  | p :: rest => p ++ sep ++ join sep rest
  end.

Definition newline : string := String LF EmptyString.

(** SerializeJSONProperty with a gap of two spaces; [indent] is the
    current indentation. *)
Fixpoint serialize (indent : string) (v : value) : string :=
  match v with
  | VNull => "null"
  | VBool true => "true"
  | VBool false => "false"
  | VNum n => number_text n
  | VStr s => quote s
  | VArr [] => "[]"
  | VArr elems =>
      let inner := indent ++ "  " in
      let sep := "," ++ newline ++ inner in
      "[" ++ newline ++ inner
          ++ join sep (map (serialize inner) elems)
          ++ newline ++ indent ++ "]"
  | VObj [] => "{}"
  | VObj props =>
      let inner := indent ++ "  " in
      let sep := "," ++ newline ++ inner in
      "{" ++ newline ++ inner
          ++ join sep (map (fun kv => quote (fst kv) ++ ": "
                                        ++ serialize inner (snd kv)) props)
          ++ newline ++ indent ++ "}"
  end.

Definition JSON_stringify (v : value) : string := serialize EmptyString v.

(** *** [JSON.parse] *)

Inductive parse_result : Type :=
| Parsed (v : value)
| SyntaxError
| Unsupported.

Definition is_ws (c : ascii) : bool :=
  let n := N_of_ascii c in
  ((n =? 32) || (n =? 9) || (n =? 10) || (n =? 13))%N.

Fixpoint skip_ws (s : string) : string :=
  match s with
  | EmptyString => EmptyString
  | String c s' => if is_ws c then skip_ws s' else s
  end.

Definition hex_val (c : ascii) : option N :=
  let n := N_of_ascii c in
  if ((48 <=? n) && (n <=? 57))%N then Some (n - 48)%N
  else if ((97 <=? n) && (n <=? 102))%N then Some (n - 87)%N
  else if ((65 <=? n) && (n <=? 70))%N then Some (n - 55)%N
  else None.

Definition hex4 (a b c d : ascii) : option N :=
  match hex_val a, hex_val b, hex_val c, hex_val d with
  | Some x, Some y, Some z, Some w => Some (((x * 16 + y) * 16 + z) * 16 + w)%N
  | _, _, _, _ => None
  end.

(** The code unit of a two-character escape. *)
Definition simple_escape (e : ascii) : option ascii :=
  let n := N_of_ascii e in
  if (n =? 34)%N then Some DQ
  else if (n =? 92)%N then Some BS
  else if (n =? 47)%N then Some "/"%char
  else if (n =? 98)%N then Some "008"%char
  else if (n =? 102)%N then Some "012"%char
  else if (n =? 110)%N then Some "010"%char
  else if (n =? 114)%N then Some "013"%char
  else if (n =? 116)%N then Some "009"%char
  else None.

Definition push_char (c : ascii) (e : bool)
  (r : option (string * bool * string)) : option (string * bool * string) :=
  match r with
  | Some (s, e', rest) => Some (String c s, e && e', rest)
  | None => None
  end.

(** The characters of a string literal, after its opening quote.  The
    result carries the decoded string, whether every code unit is within
    the modelled range, and the text after the closing quote. *)
Fixpoint parse_chars (s : string) : option (string * bool * string) :=
  match s with
  | EmptyString => None
  | String c s1 =>
      if Ascii.eqb c DQ then Some (EmptyString, true, s1)
      else if Ascii.eqb c BS then
        match s1 with
        | EmptyString => None
        | String e s2 =>
            match simple_escape e with
            | Some d => push_char d true (parse_chars s2)
            | None =>
                if Ascii.eqb e "u" then
                  match s2 with
                  | String h1 (String h2 (String h3 (String h4 s3))) =>
                      match hex4 h1 h2 h3 h4 with
                      | Some n =>
                          if (n <? 256)%N
                          then push_char (ascii_of_N n) true (parse_chars s3)
                          else push_char "?"%char false (parse_chars s3)
                      | None => None
                      end
                  | _ => None
                  end
                else None
            end
        end
      else if (N_of_ascii c <? 32)%N then None
      else push_char c true (parse_chars s1)
  end.

(** The longest prefix of decimal digits. *)
Fixpoint span_digits (s : string) : string * string :=
  match s with
  | EmptyString => (EmptyString, EmptyString)
  | String c s' =>
      if is_digit c
      then let (ds, rest) := span_digits s' in (String c ds, rest)
      else (EmptyString, s)
  end.

Definition starts_with (c : ascii) (s : string) : option string :=
  match s with
  | String c' s' => if Ascii.eqb c c' then Some s' else None
  | EmptyString => None
  end.

(** The fraction of a number literal: [None] is a syntax error, otherwise
    whether a fraction is present and the text after it. *)
Definition parse_frac (s : string) : option (bool * string) :=
  match starts_with "." s with
  | Some s1 =>
      match span_digits s1 with
      | (EmptyString, _) => None
      | (_, rest) => Some (true, rest)
      end
  | None => Some (false, s)
  end.

Definition parse_exp (s : string) : option (bool * string) :=
  match s with
  | String c s1 =>
      if Ascii.eqb c "e" || Ascii.eqb c "E" then
        let s2 := match s1 with
                  | String sg s' =>
                      if Ascii.eqb sg "+" || Ascii.eqb sg "-" then s' else s1
                  | EmptyString => s1
                  end in
        match span_digits s2 with
        | (EmptyString, _) => None
        | (_, rest) => Some (true, rest)
        end
      else Some (false, s)
  | EmptyString => Some (false, s)
  end.

(** A number literal [-? int frac? exp?].  The literal is within the model
    when it has no fraction, no exponent and magnitude at most 2^53. *)
Definition parse_number (s : string) : option (number * bool * string) :=
  let (neg, s1) := match starts_with "-" s with
                   | Some s' => (true, s')
                   | None => (false, s)
                   end in
  match span_digits s1 with
  | (EmptyString, _) => None
  | (String d ds as int_part, s2) =>
      if Ascii.eqb d "0" && negb (ds =? EmptyString)%string then None
      else
        match parse_frac s2 with
        | None => None
        | Some (has_frac, s3) =>
            match parse_exp s3 with
            | None => None
            | Some (has_exp, s4) =>
                let z := Z.of_N (digits_val int_part) in
                if negb has_frac && negb has_exp && (z <=? MAX_SAFE)
                then Some (NInt (if neg then - z else z), true, s4)
                else Some (NInt 0, false, s4)
            end
        end
  end.

Fixpoint strip_prefix (p s : string) : option string :=
  match p with
  | EmptyString => Some s
  | String c p' =>
      match s with
      | String c' s' => if Ascii.eqb c c' then strip_prefix p' s' else None
      | EmptyString => None
      end
  end.

Definition parse_literal (s : string) : option (value * bool * string) :=
  match strip_prefix "true" s with
  | Some r => Some (VBool true, true, r)
  | None =>
      match strip_prefix "false" s with
      | Some r => Some (VBool false, true, r)
      | None =>
          match strip_prefix "null" s with
          | Some r => Some (VNull, true, r)
          | None => None
          end
      end
  end.

(** Recursive descent; [fuel] bounds the number of nested and successive
    calls.  [JSON_parse] gives it twice the length of the text, which is
    always enough: more fuel never changes the result
    ([parse_value_fuel]).
    Object members are created in source order with [set_prop], so a
    repeated key keeps its first place and its last value. *)
Fixpoint parse_value (fuel : nat) (s : string)
  : option (value * bool * string) :=
  match fuel with
  | O => None
  | S f =>
      match skip_ws s with
      | EmptyString => None
      | String c s1 =>
          if Ascii.eqb c "{" then
            match starts_with "}" (skip_ws s1) with
            | Some s2 => Some (VObj [], true, s2)
            | None => parse_members f [] true s1
            end
          else if Ascii.eqb c "[" then
            match starts_with "]" (skip_ws s1) with
            | Some s2 => Some (VArr [], true, s2)
            | None =>
                match parse_elements f s1 with
                | Some (l, e, r) => Some (VArr l, e, r)
                | None => None
                end
            end
          else if Ascii.eqb c DQ then
            match parse_chars s1 with
            | Some (str, e, r) => Some (VStr str, e, r)
            | None => None
            end
          else if Ascii.eqb c "-" || is_digit c then
            match parse_number (String c s1) with
            | Some (n, e, r) => Some (VNum n, e, r)
            | None => None
            end
          else parse_literal (String c s1)
      end
  end

with parse_elements (fuel : nat) (s : string)
  : option (list value * bool * string) :=
  match fuel with
  | O => None
  | S f =>
      match parse_value f s with
      | Some (v, e, r) =>
          match starts_with "," (skip_ws r) with
          | Some r' =>
              match parse_elements f r' with
              | Some (l, e', r'') => Some (v :: l, e && e', r'')
              | None => None
              end
          | None =>
              match starts_with "]" (skip_ws r) with
              | Some r' => Some ([v], e, r')
              | None => None
              end
          end
      | None => None
      end
  end

with parse_members (fuel : nat) (acc : list (string * value)) (ok : bool)
  (s : string) : option (value * bool * string) :=
  match fuel with
  | O => None
  | S f =>
      match starts_with DQ (skip_ws s) with
      | Some s1 =>
          match parse_chars s1 with
          | Some (k, e1, r1) =>
              match starts_with ":" (skip_ws r1) with
              | Some r2 =>
                  match parse_value f r2 with
                  | Some (v, e2, r3) =>
                      let acc' := set_prop acc k v in
                      let ok' := ok && e1 && e2 in
                      match starts_with "," (skip_ws r3) with
                      | Some r4 => parse_members f acc' ok' r4
                      | None =>
                          match starts_with "}" (skip_ws r3) with
                          | Some r4 => Some (VObj acc', ok', r4)
                          | None => None
                          end
                      end
                  | None => None
                  end
              | None => None
              end
          | None => None
          end
      | None => None
      end
  end.

Definition JSON_parse (text : string) : parse_result :=
  match parse_value (2 * String.length text + 2)%nat text with
  | Some (v, exact, rest) =>
      match skip_ws rest with
      | EmptyString => if exact then Parsed v else Unsupported
      | String _ _ => SyntaxError
      end
  | None => SyntaxError
  end.

End JSON.
Import JSON.

(** ** Conversions used by the handlers *)

Module Coerce.

(** ToString of a parsed value, as [+], [Array.prototype.join],
    [String], a property key and a template literal apply it; [None] is a
    [TypeError].  A parsed object has no callable own
    property: with an own [toString] no conversion method is left, without
    one [Object.prototype.toString] answers. *)
Fixpoint to_string (v : value) : option string :=
  match v with
  | VNull => Some "null"
  | VBool true => Some "true"
  | VBool false => Some "false"
  | VNum (NInt z) => Some (NilZero.string_of_int (Z.to_int z))
  | VNum NaN => Some "NaN"
  | VStr s => Some s
  | VArr elems =>
      (fix joined (l : list value) : option string :=
         match l with
         | [] => Some EmptyString
         | e :: rest =>
             let part := match e with
                         | VNull => Some EmptyString
                         | _ => to_string e
                         end in
             match part, joined rest with
             | Some p, Some q =>
                 Some (match rest with [] => p | _ :: _ => p ++ "," ++ q end)
             | _, _ => None
             end
         end) elems
  | VObj props =>
      match own props "toString" with
      | Some _ => None
      | None => Some "[object Object]"
      end
  end.

(** binary64 [z + 1] on the integers up to 2^53: exact, except that
    2^53 + 1 rounds back to 2^53. *)
Definition succ_double (z : Z) : Z :=
  if z =? MAX_SAFE then MAX_SAFE else z + 1.

End Coerce.
Import Coerce.

(** ** The file system and the handler monad *)

Module IO.

(** The one file [database.json]: missing, present but failing to read
    with an error other than [ENOENT], or present with its content. *)
Inductive file : Type :=
| Absent
| Unreadable
| Content (data : string).

(** [writable] tells whether [fs.writeFile] succeeds; [writes] logs the
    data of every [fs.writeFile] call, newest first. *)
Record world : Type := mkWorld {
  disk : file;
  writable : bool;
  writes : list string
}.

Inductive exn : Type :=
| E_NOENT        (* error.code === 'ENOENT' *)
| E_IO           (* any other file system error *)
| E_Syntax       (* SyntaxError of JSON.parse *)
| E_Type.        (* TypeError *)

Inductive result (A : Type) : Type :=
| Ret (a : A)
| Throw (e : exn)
| Unmodelled.
Arguments Ret {A} a.
Arguments Throw {A} e.
Arguments Unmodelled {A}.

Definition M (A : Type) : Type := world -> result A * world.

Definition ret {A} (a : A) : M A := fun w => (Ret a, w).
Definition throw {A} (e : exn) : M A := fun w => (Throw e, w).
Definition unmodelled {A} : M A := fun w => (Unmodelled, w).

Definition bind {A B} (m : M A) (k : A -> M B) : M B :=
  fun w =>
    match m w with
    | (Ret a, w') => k a w'
    | (Throw e, w') => (Throw e, w')
    | (Unmodelled, w') => (Unmodelled, w')
    end.

(** [try { m } catch (error) { h error }] *)
Definition try_catch {A} (m : M A) (h : exn -> M A) : M A :=
  fun w =>
    match m w with
    | (Throw e, w') => h e w'
    | r => r
    end.

Definition fs_readFile : M string :=
  fun w =>
    match disk w with
    | Absent => (Throw E_NOENT, w)
    | Unreadable => (Throw E_IO, w)
    | Content data => (Ret data, w)
    end.

Definition fs_writeFile (data : string) : M unit :=
  fun w =>
    if writable w
    then (Ret tt, mkWorld (Content data) true (data :: writes w))
    else (Throw E_IO, mkWorld (disk w) false (data :: writes w)).

End IO.
Import IO.

Declare Scope js_scope.
Delimit Scope js_scope with js.
Notation "x <- m ;; k" := (bind m (fun x => k))
  (at level 61, m at next level, right associativity) : js_scope.
Notation "m ;; k" := (bind m (fun _ => k))
  (at level 61, right associativity) : js_scope.

(** ** The service *)

Module Service.
Local Open Scope js_scope.

Definition baseUrl : string := "shortmyurl.us.kg".

Definition MSG_EMPTY : string := "URL dan nama tidak boleh kosong!".
Definition MSG_URL : string := "Format URL tidak valid!".
Definition MSG_NAME : string :=
  "Nama hanya boleh mengandung huruf, angka, dan dash (-)!".
Definition MSG_TAKEN : string :=
  "Nama URL pendek sudah digunakan! Silakan pilih nama lain.".
Definition MSG_CREATED : string := "URL pendek berhasil dibuat!".
Definition MSG_NOT_FOUND : string := "URL tidak ditemukan".
Definition MSG_SERVER : string := "Terjadi kesalahan server".

(** What a handler sends: [res.status(s).json({success: false, message,
    alertType: 'danger'})], the two [res.json({success: true, ...})] of
    status 200 with their [data], and [res.redirect(target)] of status
    302. *)
Inductive response : Type :=
| Failure (status : nat) (message : string)
| Created (message : string) (data : jsval)
| Stats (data : jsval)
| Redirect (target : jsval).

Definition status_of (r : response) : nat :=
  match r with
  | Failure s _ => s
  | Created _ _ => 200
  | Stats _ => 200
  | Redirect _ => 302
  end.

(** [readDatabase] *)
Definition JSON_parse_M (text : string) : M value :=
  match JSON_parse text with
  | Parsed v => ret v
  | SyntaxError => throw E_Syntax
  | Unsupported => unmodelled
  end.

Definition readDatabase : M value :=
  try_catch
    (data <- fs_readFile ;;
     JSON_parse_M (match data with EmptyString => "{}" | _ => data end))
    (fun error =>
       match error with
       | E_NOENT => fs_writeFile "{}" ;; ret (VObj [])
       | _ => throw error
       end).

(** [writeDatabase] *)
Definition writeDatabase (data : value) : M unit :=
  fs_writeFile (JSON_stringify data).

(** [db[name]] and [db[name] = v] on what [readDatabase] returned.  A
    parsed text that is an array, a string, a number or a boolean is
    outside the model. *)
Definition index (db : value) (name : string) : M jsval :=
  match db with
  | VObj props => ret (get_prop props name)
  | VNull => throw E_Type
  | _ => unmodelled
  end.

Definition assign (db : value) (name : string) (v : value) : M value :=
  match db with
  | VObj props => ret (VObj (set_prop props name v))
  | VNull => throw E_Type
  | _ => unmodelled
  end.

(** [/^[a-zA-Z0-9-]+$/.test(name)] *)
Definition name_char (c : ascii) : bool :=
  let n := N_of_ascii c in
  (((97 <=? n) && (n <=? 122)) || ((65 <=? n) && (n <=? 90))
   || ((48 <=? n) && (n <=? 57)) || (n =? 45))%N.

Fixpoint all_name_chars (s : string) : bool :=
  match s with
  | EmptyString => true
  | String c s' => name_char c && all_name_chars s'
  end.

Definition name_pattern (s : string) : bool :=
  match s with
  | EmptyString => false
  | String _ _ => all_name_chars s
  end.

(** [!field] on a field of [req.body] that is missing or a string. *)
Definition blank (field : option string) : bool :=
  match field with
  | None => true
  | Some EmptyString => true
  | Some (String _ _) => false
  end.

Definition text_of (field : option string) : string :=
  match field with
  | Some s => s
  | None => EmptyString
  end.

(** The object literal of lines 95-103: the fields [name] and [url] of the
    body go into the record as they came; [key] is [name] as the template
    literal and [db[name]] convert it. *)
Definition record_of (name url : value) (key clientIP timestamp : string)
  : value :=
  VObj [ ("name", name);
         ("web_target", url);
         ("web_url", VStr (baseUrl ++ "/" ++ key));
         ("created_at", VStr timestamp);
         ("created_by_ip", VStr clientIP);
         ("visits", VNum (NInt 0));
         ("visit_history", VArr []) ].

(** The record of a request whose [name] and [url] are strings. *)
Definition new_record (name url clientIP timestamp : string) : value :=
  record_of (VStr name) (VStr url) name clientIP timestamp.

Definition visit_entry (clientIP visitTimestamp : string) : value :=
  VObj [ ("ip", VStr clientIP); ("timestamp", VStr visitTimestamp) ].

(** [x + 1] *)
Definition add_one (x : jsval) : M value :=
  match x with
  | Undefined => ret (VNum NaN)
  | Data VNull => ret (VNum (NInt 1))
  | Data (VBool b) => ret (VNum (NInt (if b then 2 else 1)))
  | Data (VNum (NInt z)) => ret (VNum (NInt (succ_double z)))
  | Data (VNum NaN) => ret (VNum NaN)
  | Data (VStr s) => ret (VStr (s ++ "1"))
  | Data v =>
      match to_string v with
      | Some s => ret (VStr (s ++ "1"))
      | None => throw E_Type
      end
  | Inherited _ => unmodelled
  end.

(** [urlData.visits += 1; urlData.visit_history.push({ip, timestamp})] on a
    truthy [urlData]; the result is the record after both updates.  On
    anything but an object read from the store (an array, a primitive, a
    value inherited from [Object.prototype]) [visits] reads [undefined],
    the assignment changes nothing that is written back, and
    [visit_history] is [undefined]: the second statement throws.  The
    [visits] left on an inherited value stays in the engine; the handlers
    can not observe it ([NaN] is falsy and [NaN + 1] is [NaN], as for
    [undefined]), and the model keeps no engine state between requests. *)
Definition record_visit (urlData : jsval) (clientIP visitTimestamp : string)
  : M (list (string * value)) :=
  match urlData with
  | Data (VObj rec) =>
      visits <- add_one (get_prop rec "visits") ;;
      let rec1 := set_prop rec "visits" visits in
      match get_prop rec1 "visit_history" with
      | Data (VArr history) =>
          ret (set_prop rec1 "visit_history"
                 (VArr (history ++ [visit_entry clientIP visitTimestamp])))
      | _ => throw E_Type
      end
  | _ => throw E_Type
  end.

(** The store after the record reached through [db[name]] was updated in
    place: [urlData] and [db[name]] are the same object. *)
Definition update_in_place (db : value) (name : string)
  (rec : list (string * value)) : value :=
  match db with
  | VObj props => VObj (replace_prop props name (VObj rec))
  | _ => db
  end.

Section Handlers.

(** Whether [new URL(s)] returns. *)
Variable URL_parses : string -> bool.

(** [isValidUrl]: [new URL(string)] converts its argument to a string
    first; a conversion that throws is caught like a parse error. *)
Definition isValidUrl (u : value) : bool :=
  match to_string u with
  | Some s => URL_parses s
  | None => false
  end.

Definition server_error : exn -> M response :=
  fun _ => ret (Failure 500 MSG_SERVER).

(** [app.post('/shorten', ...)].  The fields [url] and [name] of
    [req.body] are missing or any value the body parser builds.  The
    pattern test, the property key and the template literal convert
    [name] to the same string; the conversion of the pattern test can
    throw. *)
Definition post_shorten (url name : option value)
  (clientIP timestamp : string) : M response :=
  try_catch
    (match url, name with
     | Some u, Some n =>
         if negb (truthy_value u) || negb (truthy_value n)
         then ret (Failure 400 MSG_EMPTY)
         else if negb (isValidUrl u) then ret (Failure 400 MSG_URL)
         else
           match to_string n with
           | None => throw E_Type
           | Some key =>
               if negb (name_pattern key) then ret (Failure 400 MSG_NAME)
               else
                 db <- readDatabase ;;
                 existing <- index db key ;;
                 if truthy existing then ret (Failure 400 MSG_TAKEN)
                 else
                   db' <- assign db key
                            (record_of n u key clientIP timestamp) ;;
                   writeDatabase db' ;;
                   data <- index db' key ;;
                   ret (Created MSG_CREATED data)
           end
     | _, _ => ret (Failure 400 MSG_EMPTY)
     end)
    server_error.

(** The same handler on a body whose fields are missing or strings. *)
Definition shorten (url name : option string) (clientIP timestamp : string)
  : M response :=
  post_shorten (option_map VStr url) (option_map VStr name)
    clientIP timestamp.

(** [res.redirect(target)] puts the target into the [Location] header as
    a string: the conversion can throw, after the store was written. *)
Definition res_redirect (target : jsval) : M response :=
  match target with
  | Undefined => ret (Redirect Undefined)
  | Data v =>
      match to_string v with
      | Some _ => ret (Redirect (Data v))
      | None => throw E_Type
      end
  | Inherited _ => unmodelled
  end.

(** [app.get('/:name', ...)] *)
Definition redirect (name clientIP visitTimestamp : string) : M response :=
  try_catch
    (db <- readDatabase ;;
     urlData <- index db name ;;
     if negb (truthy urlData) then ret (Failure 404 MSG_NOT_FOUND)
     else
       rec <- record_visit urlData clientIP visitTimestamp ;;
       writeDatabase (update_in_place db name rec) ;;
       res_redirect (get_prop rec "web_target"))
    server_error.

(** [app.get('/api/stats/:name', ...)] *)
Definition stats (name : string) : M response :=
  try_catch
    (db <- readDatabase ;;
     urlData <- index db name ;;
     if negb (truthy urlData) then ret (Failure 404 MSG_NOT_FOUND)
     else ret (Stats urlData))
    server_error.

End Handlers.

End Service.
Import Service.

(** ** Shapes of values *)

Module Shape.

Definition is_index (k : string) : bool :=
  match array_index k with
  | Some _ => true
  | None => false
  end.

(** The keys of an object as the engine enumerates them: array indices in
    ascending order from [lo] on, then keys that are not indices. *)
Fixpoint ordered_keys (lo : N) (ks : list string) : bool :=
  match ks with
  | [] => true
  | k :: rest =>
      match array_index k with
      | Some i => (lo <=? i)%N && ordered_keys (i + 1) rest
      | None => forallb (fun k' => negb (is_index k')) rest
      end
  end.

Fixpoint distinct (ks : list string) : bool :=
  match ks with
  | [] => true
  | k :: rest => negb (existsb (String.eqb k) rest) && distinct rest
  end.

Definition props_ok (props : list (string * value)) : bool :=
  distinct (map fst props) && ordered_keys 0 (map fst props).

(** Values that can live in the engine within the model: numbers in range
    and objects in enumeration order. *)
Fixpoint storable (v : value) : bool :=
  match v with
  | VNum (NInt z) => Z.abs z <=? MAX_SAFE
  | VArr elems => forallb storable elems
  | VObj props =>
      props_ok props && forallb (fun kv => storable (snd kv)) props
  | _ => true
  end.

(** Values that [JSON.parse] can build: storable and without [NaN]. *)
Fixpoint json_ok (v : value) : bool :=
  match v with
  | VNum (NInt z) => Z.abs z <=? MAX_SAFE
  | VNum NaN => false
  | VArr elems => forallb json_ok elems
  | VObj props =>
      props_ok props && forallb (fun kv => json_ok (snd kv)) props
  | _ => true
  end.

(** What is left of a value once written and read again: [NaN] becomes
    [null]. *)
Fixpoint scrub (v : value) : value :=
  match v with
  | VNum NaN => VNull
  | VArr elems => VArr (map scrub elems)
  | VObj props => VObj (map (fun kv => (fst kv, scrub (snd kv))) props)
  | _ => v
  end.

(** The calls a parse of the serialized value makes. *)
Fixpoint size (v : value) : nat :=
  match v with
  | VArr elems => S (fold_right (fun e n => S (size e + n)%nat) O elems)
  | VObj props =>
      S (fold_right (fun kv n => S (size (snd kv) + n)%nat) O props)
  | _ => 1%nat
  end.

Fixpoint all_ws (s : string) : bool :=
  match s with
  | EmptyString => true
  | String c s' => is_ws c && all_ws s'
  end.

(** What may follow a serialized value: nothing, a comma or a line feed. *)
Definition ends_value (rest : string) : bool :=
  match rest with
  | EmptyString => true
  | String c _ => Ascii.eqb c "," || Ascii.eqb c LF
  end.

End Shape.
Import Shape.

(** ** Notions used in the statements *)

Definition value_start (c : ascii) : bool :=
  Ascii.eqb c "{" || Ascii.eqb c "[" || Ascii.eqb c DQ || Ascii.eqb c "-"
  || is_digit c || Ascii.eqb c "t" || Ascii.eqb c "f" || Ascii.eqb c "n".

Definition separator (inner : string) : string :=
  String "," (String LF inner).

Definition elements_text (inner : string) (l : list value) : string :=
  join (separator inner) (map (serialize inner) l).

Definition member_text (inner : string) (kv : string * value) : string :=
  quote (fst kv) ++ ": " ++ serialize inner (snd kv).

Definition members_text (inner : string) (l : list (string * value))
  : string :=
  join (separator inner) (map (member_text inner) l).

Definition elements_size (l : list value) : nat :=
  fold_right (fun e n => S (size e + n)%nat) O l.

Definition members_size (l : list (string * value)) : nat :=
  fold_right (fun kv n => S (size (snd kv) + n)%nat) O l.

(** Creating the properties of [l] in order on top of [acc]. *)
Definition create_all (acc l : list (string * value))
  : list (string * value) :=
  fold_left (fun a kv => set_prop a (fst kv) (snd kv)) l acc.

Definition scrub_prop (kv : string * value) : string * value :=
  (fst kv, scrub (snd kv)).

Definition reparses (v : value) : Prop :=
  storable v = true ->
  forall indent rest fuel,
    all_ws indent = true ->
    ends_value rest = true ->
    (size v <= fuel)%nat ->
    parse_value fuel (serialize indent v ++ rest) = Some (scrub v, true, rest).

Definition values_all (P : value -> bool) (props : list (string * value))
  : bool :=
  forallb (fun kv => P (snd kv)) props.

Definition values_ok : list (string * value) -> bool := values_all json_ok.

Definition parser_ok (f : nat) : Prop :=
  (forall s v e r, parse_value f s = Some (v, e, r) -> json_ok v = true)
  /\ (forall s l e r,
        parse_elements f s = Some (l, e, r) -> forallb json_ok l = true)
  /\ (forall acc ok s v e r,
        props_ok acc = true -> values_ok acc = true ->
        parse_members f acc ok s = Some (v, e, r) -> json_ok v = true).

(** The record after one visit from [clientIP] at [visitTimestamp]. *)
Definition visited (rec : list (string * value)) (count : Z)
  (history : list value) (clientIP visitTimestamp : string)
  : list (string * value) :=
  replace_prop
    (replace_prop rec "visits" (VNum (NInt (count + 1))))
    "visit_history"
    (VArr (history ++ [visit_entry clientIP visitTimestamp])).

(** The world holds the store [props]: the file is there and parses to the
    object of these properties. *)
Definition holds (w : world) (props : list (string * value)) : Prop :=
  exists text, disk w = Content text /\ JSON_parse text = Parsed (VObj props).

(** The world after [writeDatabase db] succeeded in [w]. *)
Definition wrote (w : world) (db : value) : world :=
  mkWorld (Content (JSON_stringify db)) true (JSON_stringify db :: writes w).

(** [GET /:name] once for each request of the list, in order. *)
Fixpoint redirect_all (name : string) (reqs : list (string * string))
  (w : world) : list (result response) * world :=
  match reqs with
  | [] => ([], w)
  | (clientIP, visitTimestamp) :: rest =>
      let (r, w1) := redirect name clientIP visitTimestamp w in
      let (rs, w2) := redirect_all name rest w1 in
      (r :: rs, w2)
  end.

Definition entries (reqs : list (string * string)) : list value :=
  map (fun req => visit_entry (fst req) (snd req)) reqs.

(** A stand-in for [new URL] in the examples: it accepts the texts that
    start with [https://] and go on. *)
Definition sample_URL_parses (s : string) : bool :=
  match strip_prefix "https://" s with
  | Some (String _ _) => true
  | _ => false
  end.

Definition sample_fields : list (string * value) :=
  [ ("name", VStr "ex1");
    ("web_target", VStr "https://example.com");
    ("web_url", VStr "shortmyurl.us.kg/ex1");
    ("created_at", VStr "2024-05-01T10:00:00.000Z");
    ("created_by_ip", VStr "203.0.113.7");
    ("visits", VNum (NInt 0));
    ("visit_history", VArr []) ].

Definition sample_store : list (string * value) :=
  [ ("ex1", VObj sample_fields) ].

Definition sample_world : world :=
  mkWorld (Content (JSON_stringify (VObj sample_store))) true [].

Definition sample_requests : list (string * string) :=
  [ ("198.51.100.2", "2024-05-01T10:01:00.000Z");
    ("198.51.100.3", "2024-05-01T10:02:00.000Z");
    ("198.51.100.2", "2024-05-01T10:03:00.000Z") ].

(** The store a world denotes: what [readDatabase] would return. *)
Definition view (w : world) : option value :=
  match disk w with
  | Absent => Some (VObj [])
  | Unreadable => None
  | Content EmptyString => Some (VObj [])
  | Content text =>
      match JSON_parse text with
      | Parsed v => Some v
      | _ => None
      end
  end.

(** Every key holds a record whose [name] is the key. *)
Definition names_match (props : list (string * value)) : Prop :=
  forall k v,
    own props k = Some v ->
    exists fields, v = VObj fields /\ own fields "name" = Some (VStr k).

Definition store_invariant (w : world) : Prop :=
  forall props, view w = Some (VObj props) -> names_match props.

Definition parser_consumes (f : nat) : Prop :=
  (forall s v e r,
     parse_value f s = Some (v, e, r) ->
     (String.length r < String.length s)%nat)
  /\ (forall s l e r,
        parse_elements f s = Some (l, e, r) ->
        (String.length r < String.length s)%nat)
  /\ (forall acc ok s v e r,
        parse_members f acc ok s = Some (v, e, r) ->
        (String.length r < String.length s)%nat).

Definition fuel_free (f : nat) : Prop :=
  (forall s f',
     (2 * String.length s + 1 <= f)%nat -> (f <= f')%nat ->
     parse_value f' s = parse_value f s)
  /\ (forall s f',
        (2 * String.length s + 2 <= f)%nat -> (f <= f')%nat ->
        parse_elements f' s = parse_elements f s)
  /\ (forall acc ok s f',
        (2 * String.length s + 1 <= f)%nat -> (f <= f')%nat ->
        parse_members f' acc ok s = parse_members f acc ok s).

(** The visit history of a stored value, when it is a record that has
    one. *)
Definition history_of (v : value) : option (list value) :=
  match v with
  | VObj rec =>
      match own rec "visit_history" with
      | Some (VArr history) => Some history
      | _ => None
      end
  | _ => None
  end.

(** The record after [urlData.visits += 1] left [visits] in [visits] and
    the visit was pushed on [history]. *)
Definition visited_with (rec : list (string * value)) (visits : value)
  (history : list value) (clientIP visitTimestamp : string)
  : list (string * value) :=
  set_prop (set_prop rec "visits" visits) "visit_history"
    (VArr (history ++ [visit_entry clientIP visitTimestamp])).

(** The world after [fs.writeFile] failed in [w]. *)
Definition write_failed (w : world) (db : value) : world :=
  mkWorld (disk w) false (JSON_stringify db :: writes w).

(** The names that match the pattern of [POST /shorten] and are
    properties of [Object.prototype]. *)
Definition reserved_names : list string :=
  [ "constructor"; "hasOwnProperty"; "isPrototypeOf";
    "propertyIsEnumerable"; "toString"; "valueOf"; "toLocaleString" ].

(** A store whose values are not all records, for the examples. *)
Definition odd_store : list (string * value) :=
  [ ("7", VNull);
    ("plain", VStr "https://example.com");
    ("text-count",
     VObj [ ("web_target", VStr "https://example.com");
            ("visits", VStr "5");
            ("visit_history", VArr []) ]);
    ("no-count",
     VObj [ ("web_target", VStr "https://example.com");
            ("visit_history", VArr []) ]);
    ("full",
     VObj [ ("web_target", VStr "https://example.com");
            ("visits", VNum (NInt 9007199254740992));
            ("visit_history", VArr []) ]) ].

Definition odd_world : world :=
  mkWorld (Content (JSON_stringify (VObj odd_store))) true [].

(** The requests of the three routes, and the server answering a
    sequence of them one after the other. *)
Inductive request : Type :=
| PostShorten (url name : option string) (clientIP timestamp : string)
| GetName (name clientIP visitTimestamp : string)
| GetStats (name : string).

Definition serve (URL_parses : string -> bool) (q : request) : M response :=
  match q with
  | PostShorten url name clientIP timestamp =>
      shorten URL_parses url name clientIP timestamp
  | GetName name clientIP visitTimestamp =>
      redirect name clientIP visitTimestamp
  | GetStats name => stats name
  end.

Fixpoint serve_all (URL_parses : string -> bool) (qs : list request)
  (w : world) : list (result response) * world :=
  match qs with
  | [] => ([], w)
  | q :: rest =>
      let (r, w1) := serve URL_parses q w in
      let (rs, w2) := serve_all URL_parses rest w1 in
      (r :: rs, w2)
  end.

(** The key of the store a request assigns to or updates, if any. *)
Definition target_key (q : request) : option string :=
  match q with
  | PostShorten _ name _ _ => Some (text_of name)
  | GetName name _ _ => Some name
  | GetStats _ => None
  end.

(** [props'] has the keys of [props] or more, and the values of [props]
    at the keys other than [key]. *)
Definition extends (key : option string) (props props' : list (string * value))
  : Prop :=
  (forall k, key <> Some k -> own props' k = own props k)
  /\ (forall k, own props k <> None -> own props' k <> None).

(** A text that [readDatabase] reads as an object. *)
Definition loadable (text : string) : Prop :=
  exists props, JSON_parse text = Parsed (VObj props).

(** A store with a record whose [web_target] can not be converted to a
    string. *)
Definition stuck_store : list (string * value) :=
  [ ("loop",
     VObj [ ("web_target", VObj [ ("toString", VNum (NInt 1)) ]);
            ("visits", VNum (NInt 0));
            ("visit_history", VArr []) ]) ].

Definition stuck_world : world :=
  mkWorld (Content (JSON_stringify (VObj stuck_store))) true [].

(** ** Induction on values *)

Section ValueInduction.

Variable P : value -> Prop.
Hypothesis P_null : P VNull.
Hypothesis P_bool : forall b, P (VBool b).
Hypothesis P_num : forall n, P (VNum n).
Hypothesis P_str : forall s, P (VStr s).
Hypothesis P_arr : forall elems, Forall P elems -> P (VArr elems).
Hypothesis P_obj :
  forall props, Forall (fun kv => P (snd kv)) props -> P (VObj props).

Fixpoint value_induction (v : value) : P v :=
  match v with
  | VNull => P_null
  | VBool b => P_bool b
  | VNum n => P_num n
  | VStr s => P_str s
  | VArr elems =>
      P_arr elems
        ((fix all (l : list value) : Forall P l :=
            match l with
            | [] => Forall_nil P
            | e :: l' => Forall_cons e (value_induction e) (all l')
            end) elems)
  | VObj props =>
      P_obj props
        ((fix all (l : list (string * value))
            : Forall (fun kv => P (snd kv)) l :=
            match l with
            | [] => Forall_nil _
            | kv :: l' =>
                Forall_cons kv (value_induction (snd kv)) (all l')
            end) props)
  end.

End ValueInduction.

(** ** Strings *)

Lemma append_nil_r (s : string) : s ++ EmptyString = s.
Proof. induction s; simpl; congruence. Qed.

Lemma append_assoc (a b c : string) : (a ++ b) ++ c = a ++ (b ++ c).
Proof. induction a; simpl; congruence. Qed.

Lemma length_append (a b : string) :
  String.length (a ++ b) = (String.length a + String.length b)%nat.
Proof. induction a; simpl; congruence. Qed.

Lemma all_ws_append (a b : string) :
  all_ws (a ++ b) = all_ws a && all_ws b.
Proof.
  induction a as [|c a IH]; simpl; [reflexivity|].
  rewrite IH. now rewrite andb_assoc.
Qed.

Lemma skip_ws_append (ws s : string) :
  all_ws ws = true -> skip_ws (ws ++ s) = skip_ws s.
Proof.
  induction ws as [|c ws IH]; simpl; [reflexivity|].
  intros H. apply andb_true_iff in H as [Hc Hws].
  rewrite Hc. auto.
Qed.

Lemma skip_ws_stop (c : ascii) (s : string) :
  is_ws c = false -> skip_ws (String c s) = String c s.
Proof. intros H. simpl. now rewrite H. Qed.

(** ** String literals *)

Lemma parse_chars_escape_char (c : ascii) (t : string) :
  parse_chars (escape_char c ++ t) = push_char c true (parse_chars t).
Proof. destruct c as [[] [] [] [] [] [] [] []]; reflexivity. Qed.

Lemma parse_chars_escape (s rest : string) :
  parse_chars (escape s ++ String DQ rest) = Some (s, true, rest).
Proof.
  induction s as [|c s IH]; [reflexivity|].
  cbn [escape]. rewrite append_assoc, parse_chars_escape_char, IH.
  reflexivity.
Qed.

Lemma quote_append (s rest : string) :
  quote s ++ rest = String DQ (escape s ++ String DQ rest).
Proof. unfold quote. simpl. now rewrite append_assoc. Qed.

(** ** Number literals *)

Lemma ends_value_cases (rest : string) :
  ends_value rest = true ->
  rest = EmptyString
  \/ (exists r, rest = String "," r) \/ (exists r, rest = String LF r).
Proof.
  destruct rest as [|c r]; [now left|]. simpl. intros H.
  apply orb_true_iff in H as [H|H]; apply Ascii.eqb_eq in H; subst; eauto.
Qed.

Lemma span_digits_uint (d : Decimal.uint) (rest : string) :
  ends_value rest = true ->
  span_digits (NilEmpty.string_of_uint d ++ rest)
  = (NilEmpty.string_of_uint d, rest).
Proof.
  intros H. induction d; simpl; rewrite ?IHd; try reflexivity.
  destruct (ends_value_cases rest H) as [->|[[r ->]|[r ->]]]; reflexivity.
Qed.

Lemma pos_to_uint_normal (p : positive) :
  Decimal.unorm (Pos.to_uint p) = Pos.to_uint p.
Proof.
  pose proof (DecimalPos.Unsigned.to_of (Pos.to_uint p)) as H.
  rewrite DecimalPos.Unsigned.of_to in H. symmetry. exact H.
Qed.

Lemma pos_digits (p : positive) :
  exists c ds,
    NilEmpty.string_of_uint (Pos.to_uint p) = String c ds
    /\ is_digit c = true /\ Ascii.eqb c "0" = false
    /\ Ascii.eqb "-" c = false.
Proof.
  pose proof (pos_to_uint_normal p) as Hn.
  pose proof (DecimalPos.Unsigned.to_uint_nonzero p) as Hz.
  assert (Hh : Decimal.nzhead (Pos.to_uint p) = Pos.to_uint p).
  { unfold Decimal.unorm in Hn.
    destruct (Decimal.nzhead (Pos.to_uint p)) eqn:E; auto.
    congruence. }
  destruct (Pos.to_uint p) as [|u|u|u|u|u|u|u|u|u|u] eqn:E;
    try (eexists; eexists; simpl; repeat split; reflexivity).
  - exfalso. apply (DecimalPos.Unsigned.to_uint_nonnil p E).
  - exfalso. apply (DecimalFacts.nzhead_nonzero _ _ Hh).
Qed.

Lemma digits_val_pos (p : positive) :
  digits_val (NilEmpty.string_of_uint (Pos.to_uint p)) = Npos p.
Proof.
  unfold digits_val. rewrite NilEmpty.usu.
  apply DecimalPos.Unsigned.of_to.
Qed.

Lemma parse_tail_plain (rest : string) :
  ends_value rest = true ->
  parse_frac rest = Some (false, rest) /\ parse_exp rest = Some (false, rest).
Proof.
  intros H.
  destruct (ends_value_cases rest H) as [->|[[r ->]|[r ->]]]; split;
    reflexivity.
Qed.

Lemma parse_number_core (neg : bool) (c : ascii) (ds rest : string) :
  span_digits (String c ds ++ rest) = (String c ds, rest) ->
  Ascii.eqb c "0" && negb (ds =? EmptyString)%string = false ->
  Ascii.eqb "-" c = false ->
  ends_value rest = true ->
  Z.of_N (digits_val (String c ds)) <= MAX_SAFE ->
  parse_number ((if neg then "-" else EmptyString) ++ String c ds ++ rest)
  = Some (NInt (if neg then - Z.of_N (digits_val (String c ds))
                else Z.of_N (digits_val (String c ds))), true, rest).
Proof.
  intros Hspan H0 Hm Hr Hle.
  destruct (parse_tail_plain rest Hr) as [Hf He].
  apply Z.leb_le in Hle.
  unfold parse_number.
  destruct neg; cbn [append starts_with]; rewrite ?Ascii.eqb_refl, ?Hm;
    change (String c (ds ++ rest)) with (String c ds ++ rest);
    rewrite Hspan, H0, Hf, He; cbn [negb andb]; rewrite Hle; reflexivity.
Qed.

Lemma parse_number_digits (neg : bool) (p : positive) (rest : string) :
  Z.pos p <= MAX_SAFE ->
  ends_value rest = true ->
  parse_number ((if neg then "-" else EmptyString)
                  ++ NilEmpty.string_of_uint (Pos.to_uint p) ++ rest)
  = Some (NInt (if neg then Z.neg p else Z.pos p), true, rest).
Proof.
  intros Hp Hr.
  destruct (pos_digits p) as (c & ds & E & Hd & H0 & Hm).
  pose proof (digits_val_pos p) as Hv.
  pose proof (span_digits_uint (Pos.to_uint p) rest Hr) as Hs.
  rewrite E in *.
  rewrite (parse_number_core neg c ds rest); auto.
  - rewrite Hv. destruct neg; reflexivity.
  - now rewrite H0.
  - rewrite Hv. exact Hp.
Qed.

Lemma parse_number_text (z : Z) (rest : string) :
  Z.abs z <= MAX_SAFE ->
  ends_value rest = true ->
  parse_number (number_text (NInt z) ++ rest) = Some (NInt z, true, rest).
Proof.
  intros Hz Hr. destruct z as [|p|p].
  - apply (parse_number_core false "0" EmptyString rest); auto;
      try exact (span_digits_uint (Decimal.D0 Decimal.Nil) rest Hr); now compute.
  - assert (E : number_text (NInt (Z.pos p))
                = NilEmpty.string_of_uint (Pos.to_uint p)).
    { unfold number_text. simpl.
      pose proof (DecimalPos.Unsigned.to_uint_nonnil p).
      destruct (Pos.to_uint p); try reflexivity; congruence. }
    rewrite E. apply (parse_number_digits false); assumption.
  - assert (E : number_text (NInt (Z.neg p))
                = String "-" (NilEmpty.string_of_uint (Pos.to_uint p))).
    { unfold number_text. simpl.
      pose proof (DecimalPos.Unsigned.to_uint_nonnil p).
      destruct (Pos.to_uint p); try reflexivity; congruence. }
    rewrite E. apply (parse_number_digits true); assumption.
Qed.

(** ** The first character of a serialized value *)

Lemma number_text_head (n : number) :
  exists c t, number_text n = String c t /\ value_start c = true
              /\ (Ascii.eqb c "-" || is_digit c || Ascii.eqb c "n") = true.
Proof.
  destruct n as [[|p|p]|]; try (eexists; eexists; repeat split; reflexivity).
  destruct (pos_digits p) as (c & ds & E & Hd & _).
  exists c, ds. unfold number_text. cbn [Z.to_int NilZero.string_of_int].
  unfold NilZero.string_of_uint.
  pose proof (DecimalPos.Unsigned.to_uint_nonnil p).
  unfold value_start. rewrite Hd, !orb_true_r.
  destruct (Pos.to_uint p); try congruence; now rewrite <- E.
Qed.

Lemma serialize_head (indent : string) (v : value) :
  exists c t, serialize indent v = String c t /\ value_start c = true.
Proof.
  destruct v as [|[]|n|s|[|e l]|[|kv l]];
    try (eexists; eexists; split; reflexivity).
  destruct (number_text_head n) as (c & t & E & H & _).
  exists c, t. now split.
Qed.

Lemma value_start_not_ws (c : ascii) :
  value_start c = true -> is_ws c = false.
Proof.
  destruct c as [[] [] [] [] [] [] [] []]; try discriminate; reflexivity.
Qed.

Lemma value_start_not_close (c : ascii) (t : string) :
  value_start c = true ->
  starts_with "]" (String c t) = None /\ starts_with "}" (String c t) = None.
Proof.
  destruct c as [[] [] [] [] [] [] [] []]; try discriminate; split;
    reflexivity.
Qed.

(** ** One step of the parser *)

Lemma parse_value_skip (fuel : nat) (ws s : string) :
  all_ws ws = true -> parse_value fuel (ws ++ s) = parse_value fuel s.
Proof.
  intros H. destruct fuel; [reflexivity|].
  cbn [parse_value]. now rewrite skip_ws_append.
Qed.

Lemma parse_members_skip (fuel : nat) acc ok (ws s : string) :
  all_ws ws = true ->
  parse_members fuel acc ok (ws ++ s) = parse_members fuel acc ok s.
Proof.
  intros H. destruct fuel; [reflexivity|].
  cbn [parse_members]. now rewrite skip_ws_append.
Qed.

Lemma parse_elements_skip (fuel : nat) (ws s : string) :
  all_ws ws = true ->
  parse_elements fuel (ws ++ s) = parse_elements fuel s.
Proof.
  intros H. destruct fuel; [reflexivity|].
  cbn [parse_elements]. now rewrite parse_value_skip.
Qed.

Lemma parse_value_number (f : nat) (c : ascii) (s : string) :
  (Ascii.eqb c "-" || is_digit c) = true ->
  parse_value (S f) (String c s)
  = match parse_number (String c s) with
    | Some (n, e, r) => Some (VNum n, e, r)
    | None => None
    end.
Proof.
  destruct c as [[] [] [] [] [] [] [] []]; try discriminate; reflexivity.
Qed.

Lemma parse_value_string (f : nat) (s : string) :
  parse_value (S f) (String DQ s)
  = match parse_chars s with
    | Some (str, e, r) => Some (VStr str, e, r)
    | None => None
    end.
Proof. reflexivity. Qed.

Lemma parse_value_array (f : nat) (s : string) :
  parse_value (S f) (String "[" s)
  = match starts_with "]" (skip_ws s) with
    | Some s2 => Some (VArr [], true, s2)
    | None =>
        match parse_elements f s with
        | Some (l, e, r) => Some (VArr l, e, r)
        | None => None
        end
    end.
Proof. reflexivity. Qed.

Lemma parse_value_object (f : nat) (s : string) :
  parse_value (S f) (String "{" s)
  = match starts_with "}" (skip_ws s) with
    | Some s2 => Some (VObj [], true, s2)
    | None => parse_members f [] true s
    end.
Proof. reflexivity. Qed.

Lemma parse_elements_step (f : nat) (s : string) :
  parse_elements (S f) s
  = match parse_value f s with
    | Some (v, e, r) =>
        match starts_with "," (skip_ws r) with
        | Some r' =>
            match parse_elements f r' with
            | Some (l, e', r'') => Some (v :: l, e && e', r'')
            | None => None
            end
        | None =>
            match starts_with "]" (skip_ws r) with
            | Some r' => Some ([v], e, r')
            | None => None
            end
        end
    | None => None
    end.
Proof. reflexivity. Qed.

Lemma parse_members_step (f : nat) acc ok (s : string) :
  parse_members (S f) acc ok (String DQ s)
  = match parse_chars s with
    | Some (k, e1, r1) =>
        match starts_with ":" (skip_ws r1) with
        | Some r2 =>
            match parse_value f r2 with
            | Some (v, e2, r3) =>
                match starts_with "," (skip_ws r3) with
                | Some r4 =>
                    parse_members f (set_prop acc k v) (ok && e1 && e2) r4
                | None =>
                    match starts_with "}" (skip_ws r3) with
                    | Some r4 =>
                        Some (VObj (set_prop acc k v), ok && e1 && e2, r4)
                    | None => None
                    end
                end
            | None => None
            end
        | None => None
        end
    | None => None
    end.
Proof. reflexivity. Qed.

(** ** Reading back a serialized value *)

Lemma serialize_array (indent : string) (e : value) (l : list value) :
  serialize indent (VArr (e :: l))
  = String "[" (String LF ((indent ++ "  ")
      ++ elements_text (indent ++ "  ") (e :: l)
      ++ String LF (indent ++ "]"))).
Proof. reflexivity. Qed.

Lemma serialize_object (indent : string) kv (l : list (string * value)) :
  serialize indent (VObj (kv :: l))
  = String "{" (String LF ((indent ++ "  ")
      ++ members_text (indent ++ "  ") (kv :: l)
      ++ String LF (indent ++ "}"))).
Proof. reflexivity. Qed.

Lemma starts_with_same (c : ascii) (s : string) :
  starts_with c (String c s) = Some s.
Proof. cbn. now rewrite Ascii.eqb_refl. Qed.

Lemma skip_ws_closing (indent : string) (c : ascii) (rest : string) :
  all_ws indent = true -> is_ws c = false ->
  skip_ws (String LF (indent ++ String c rest)) = String c rest.
Proof.
  intros Hi Hc. cbn [skip_ws]. change (is_ws LF) with true. cbv iota.
  rewrite skip_ws_append by assumption. now apply skip_ws_stop.
Qed.

Lemma parse_elements_text (inner indent rest : string) (l : list value) :
  all_ws inner = true -> all_ws indent = true ->
  l <> [] ->
  Forall reparses l ->
  forallb storable l = true ->
  forall fuel, (elements_size l <= fuel)%nat ->
  parse_elements fuel
    (elements_text inner l ++ String LF (indent ++ String "]" rest))
  = Some (map scrub l, true, rest).
Proof.
  intros Hin Hind Hne Hall Hst.
  induction l as [|e l IH]; [congruence|].
  inversion Hall as [|? ? He Hl]; subst.
  cbn [forallb] in Hst. apply andb_true_iff in Hst as [Hse Hsl].
  intros [|f] Hf; cbn [elements_size fold_right] in Hf; [lia|].
  fold (elements_size l) in Hf.
  assert (Hfe : (size e <= f)%nat) by lia.
  rewrite parse_elements_step.
  destruct l as [|e2 l'].
  - change (elements_text inner [e]) with (serialize inner e).
    rewrite (He Hse inner _ f Hin) by (reflexivity || exact Hfe).
    rewrite skip_ws_closing by (assumption || reflexivity).
    reflexivity.
  - change (elements_text inner (e :: e2 :: l'))
      with (serialize inner e
              ++ separator inner ++ elements_text inner (e2 :: l')).
    rewrite !append_assoc.
    change (separator inner ++ ?x) with (String "," (String LF inner ++ x)).
    unfold separator. cbn [append].
    rewrite (He Hse inner _ f Hin) by (reflexivity || exact Hfe).
    cbn [skip_ws]. change (is_ws ",") with false. cbv iota.
    rewrite starts_with_same.
    change (String LF (inner ++ ?x)) with (String LF inner ++ x).
    rewrite parse_elements_skip by (cbn [all_ws]; now rewrite Hin).
    rewrite IH; try assumption; try congruence; [reflexivity|lia].
Qed.

Lemma member_text_append (inner : string) (kv : string * value) (x : string) :
  member_text inner kv ++ x
  = String DQ (escape (fst kv)
      ++ String DQ (String ":" (" " ++ serialize inner (snd kv) ++ x))).
Proof.
  unfold member_text. rewrite !append_assoc, quote_append. reflexivity.
Qed.

Lemma parse_members_text (inner indent rest : string)
  (l : list (string * value)) :
  all_ws inner = true -> all_ws indent = true ->
  l <> [] ->
  Forall (fun kv => reparses (snd kv)) l ->
  forallb (fun kv => storable (snd kv)) l = true ->
  forall acc fuel, (members_size l <= fuel)%nat ->
  parse_members fuel acc true
    (members_text inner l ++ String LF (indent ++ String "}" rest))
  = Some (VObj (create_all acc (map scrub_prop l)), true, rest).
Proof.
  intros Hin Hind Hne Hall Hst.
  induction l as [|kv l IH]; [congruence|].
  inversion Hall as [|? ? He Hl]; subst.
  cbn [forallb] in Hst. apply andb_true_iff in Hst as [Hse Hsl].
  intros acc [|f] Hf; cbn [members_size fold_right] in Hf; [lia|].
  fold (members_size l) in Hf.
  assert (Hfe : (size (snd kv) <= f)%nat) by lia.
  destruct l as [|kv2 l'].
  - change (members_text inner [kv]) with (member_text inner kv).
    rewrite member_text_append, parse_members_step, parse_chars_escape.
    cbn [skip_ws]. change (is_ws ":") with false. cbv iota.
    rewrite starts_with_same.
    rewrite parse_value_skip by reflexivity.
    rewrite (He Hse inner _ f Hin) by (reflexivity || exact Hfe).
    rewrite skip_ws_closing by (assumption || reflexivity).
    reflexivity.
  - change (members_text inner (kv :: kv2 :: l'))
      with (member_text inner kv
              ++ separator inner ++ members_text inner (kv2 :: l')).
    rewrite !append_assoc.
    rewrite member_text_append, parse_members_step, parse_chars_escape.
    cbn [skip_ws]. change (is_ws ":") with false. cbv iota.
    rewrite starts_with_same.
    rewrite parse_value_skip by reflexivity.
    unfold separator. cbn [append].
    rewrite (He Hse inner _ f Hin) by (reflexivity || exact Hfe).
    cbn [skip_ws]. change (is_ws ",") with false. cbv iota.
    rewrite starts_with_same.
    change (String LF (inner ++ ?x)) with (String LF inner ++ x).
    rewrite parse_members_skip by (cbn [all_ws]; now rewrite Hin).
    rewrite IH; try assumption; try congruence; [reflexivity|lia].
Qed.

Lemma serialize_array_append (indent : string) e (l : list value)
  (rest : string) :
  serialize indent (VArr (e :: l)) ++ rest
  = String "[" (String LF (indent ++ "  ")
      ++ elements_text (indent ++ "  ") (e :: l)
      ++ String LF (indent ++ String "]" rest)).
Proof.
  rewrite serialize_array. generalize (indent ++ "  "). intros inner.
  cbn [append]. rewrite !append_assoc. cbn [append].
  rewrite !append_assoc. reflexivity.
Qed.

Lemma serialize_object_append (indent : string) kv
  (l : list (string * value)) (rest : string) :
  serialize indent (VObj (kv :: l)) ++ rest
  = String "{" (String LF (indent ++ "  ")
      ++ members_text (indent ++ "  ") (kv :: l)
      ++ String LF (indent ++ String "}" rest)).
Proof.
  rewrite serialize_object. generalize (indent ++ "  "). intros inner.
  cbn [append]. rewrite !append_assoc. cbn [append].
  rewrite !append_assoc. reflexivity.
Qed.

Lemma elements_text_head (inner : string) e (l : list value) (x : string) :
  exists c t,
    elements_text inner (e :: l) ++ x = String c t /\ value_start c = true.
Proof.
  destruct (serialize_head inner e) as (c & t & E & Hc).
  unfold elements_text. cbn [map join].
  destruct l; cbn [map]; rewrite E; cbn [append]; eauto.
Qed.

Lemma members_text_head (inner : string) kv (l : list (string * value))
  (x : string) :
  exists t, members_text inner (kv :: l) ++ x = String DQ t.
Proof.
  unfold members_text. cbn [map join].
  destruct l; cbn [map]; unfold member_text, quote; cbn [append]; eauto.
Qed.

Lemma reparses_array (l : list value) :
  Forall reparses l -> reparses (VArr l).
Proof.
  intros Hall Hst indent rest [|f] Hi Hr Hf; cbn [size] in Hf; [lia|].
  destruct l as [|e l].
  - destruct (ends_value_cases rest Hr) as [->|[[r ->]|[r ->]]];
      reflexivity.
  - assert (Hinner : all_ws (indent ++ "  ") = true)
      by (rewrite all_ws_append, Hi; reflexivity).
    rewrite serialize_array_append, parse_value_array.
    rewrite parse_elements_skip, skip_ws_append
      by (cbn [all_ws]; now rewrite Hinner).
    destruct (elements_text_head (indent ++ "  ") e l
                (String LF (indent ++ String "]" rest)))
      as (c & t & E & Hc).
    rewrite E at 1. rewrite skip_ws_stop by now apply value_start_not_ws.
    rewrite (proj1 (value_start_not_close c t Hc)).
    rewrite (parse_elements_text (indent ++ "  ") indent rest (e :: l));
      try assumption; try congruence; try reflexivity.
    fold (elements_size (e :: l)) in Hf. lia.
Qed.

Lemma reparses_object (l : list (string * value)) :
  Forall (fun kv => reparses (snd kv)) l ->
  storable (VObj l) = true ->
  forall indent rest fuel,
    all_ws indent = true ->
    ends_value rest = true ->
    (size (VObj l) <= fuel)%nat ->
    parse_value fuel (serialize indent (VObj l) ++ rest)
    = Some (VObj (create_all [] (map scrub_prop l)), true, rest).
Proof.
  intros Hall Hst indent rest [|f] Hi Hr Hf; cbn [size] in Hf; [lia|].
  destruct l as [|kv l].
  - destruct (ends_value_cases rest Hr) as [->|[[r ->]|[r ->]]];
      reflexivity.
  - assert (Hinner : all_ws (indent ++ "  ") = true)
      by (rewrite all_ws_append, Hi; reflexivity).
    cbn [storable] in Hst. apply andb_true_iff in Hst as [_ Hst].
    rewrite serialize_object_append, parse_value_object.
    rewrite parse_members_skip, skip_ws_append
      by (cbn [all_ws]; now rewrite Hinner).
    destruct (members_text_head (indent ++ "  ") kv l
                (String LF (indent ++ String "}" rest))) as (t & E).
    rewrite E at 1. cbn [skip_ws]. change (is_ws DQ) with false. cbv iota.
    rewrite (parse_members_text (indent ++ "  ") indent rest (kv :: l));
      try assumption; try congruence; try reflexivity.
    fold (members_size (kv :: l)) in Hf. lia.
Qed.

(** ** Property order *)

Lemma own_none (props : list (string * value)) (k : string) :
  own props k = None <-> existsb (String.eqb k) (map fst props) = false.
Proof.
  induction props as [|[k' v] props IH]; cbn [own map existsb fst].
  - tauto.
  - rewrite (String.eqb_sym k k'). destruct (k' =? k)%string; cbn [orb].
    + split; discriminate.
    + exact IH.
Qed.

Lemma distinct_middle (a : list string) (k : string) (b : list string) :
  distinct (a ++ k :: b)%list = true -> existsb (String.eqb k) a = false.
Proof.
  induction a as [|x a IH]; cbn [app distinct existsb]; [reflexivity|].
  intros H. apply andb_true_iff in H as [Hx Ha].
  rewrite (IH Ha), orb_false_r.
  apply negb_true_iff in Hx. rewrite existsb_app in Hx.
  apply orb_false_iff in Hx as [_ Hx]. cbn [existsb] in Hx.
  apply orb_false_iff in Hx as [Hx _]. now rewrite String.eqb_sym.
Qed.

Lemma ordered_keys_bound (lo : N) (a : list string) (k : string)
  (b : list string) (i : N) :
  ordered_keys lo (a ++ k :: b)%list = true -> array_index k = Some i ->
  (lo <= i)%N.
Proof.
  revert lo. induction a as [|x a IH]; intros lo H Hk;
    cbn [app ordered_keys] in H.
  - rewrite Hk in H. apply andb_true_iff in H as [H _].
    now apply N.leb_le.
  - destruct (array_index x) as [j|].
    + apply andb_true_iff in H as [Hj H]. apply N.leb_le in Hj.
      specialize (IH _ H Hk). lia.
    + rewrite forallb_app in H. apply andb_true_iff in H as [_ H].
      cbn [forallb] in H. unfold is_index in H. rewrite Hk in H.
      discriminate.
Qed.

Lemma insert_index_last (props : list (string * value)) (lo i : N)
  (k : string) (v : value) (b : list string) :
  ordered_keys lo (map fst props ++ k :: b)%list = true ->
  array_index k = Some i ->
  insert_index props i k v = (props ++ [(k, v)])%list.
Proof.
  revert lo. induction props as [|[k' v'] props IH]; intros lo H Hk;
    [reflexivity|].
  cbn [map fst List.app ordered_keys] in H. cbn [insert_index app].
  destruct (array_index k') as [j|].
  - apply andb_true_iff in H as [_ H].
    pose proof (ordered_keys_bound _ _ _ _ _ H Hk) as Hb.
    replace (j <? i)%N with true by (symmetry; apply N.ltb_lt; lia).
    now rewrite (IH _ H Hk).
  - rewrite forallb_app in H. apply andb_true_iff in H as [_ H].
    cbn [forallb] in H. unfold is_index in H. rewrite Hk in H.
    discriminate.
Qed.

Lemma create_all_ordered (l acc : list (string * value)) :
  props_ok (acc ++ l)%list = true -> create_all acc l = (acc ++ l)%list.
Proof.
  revert acc. induction l as [|[k v] l IH]; intros acc H.
  - now rewrite app_nil_r.
  - unfold create_all. cbn [fold_left fst snd].
    fold (create_all (set_prop acc k v) l).
    assert (Hset : set_prop acc k v = (acc ++ [(k, v)])%list).
    { unfold props_ok in H. rewrite map_app in H. cbn [map fst] in H.
      apply andb_true_iff in H as [Hd Ho].
      unfold set_prop.
      replace (own acc k) with (@None value)
        by (symmetry; apply own_none; eapply distinct_middle; exact Hd).
      destruct (array_index k) as [i|] eqn:Hk; [|reflexivity].
      eapply insert_index_last; eassumption. }
    rewrite Hset, IH; rewrite <- app_assoc; [reflexivity|exact H].
Qed.

Lemma map_fst_scrub (l : list (string * value)) :
  map fst (map scrub_prop l) = map fst l.
Proof. rewrite map_map. reflexivity. Qed.

Lemma props_ok_scrub (l : list (string * value)) :
  props_ok (map scrub_prop l) = props_ok l.
Proof. unfold props_ok. now rewrite map_fst_scrub. Qed.

(** Every storable value reads back as itself, up to [NaN]. *)
Lemma reparses_all (v : value) : reparses v.
Proof.
  induction v using value_induction.
  - intros _ indent rest [|f] Hi Hr Hf; cbn [size] in Hf; [lia|].
    destruct (ends_value_cases rest Hr) as [->|[[r ->]|[r ->]]];
      reflexivity.
  - intros _ indent rest [|f] Hi Hr Hf; cbn [size] in Hf; [lia|].
    destruct b;
      destruct (ends_value_cases rest Hr) as [->|[[r ->]|[r ->]]];
      reflexivity.
  - intros Hst indent rest [|f] Hi Hr Hf; cbn [size] in Hf; [lia|].
    destruct n as [z|].
    + cbn [storable] in Hst. apply Z.leb_le in Hst.
      pose proof (parse_number_text z rest Hst Hr) as Hp.
      destruct (number_text_head (NInt z)) as (c & t & E & _ & Hc).
      cbn [serialize scrub]. rewrite E in *. cbn [append] in *.
      assert (Hc' : (Ascii.eqb c "-" || is_digit c) = true).
      { apply orb_true_iff in Hc as [Hc|Hc]; [exact Hc|].
        apply Ascii.eqb_eq in Hc. subst c.
        destruct z as [|p|p]; cbn in E; try discriminate.
        all: destruct (pos_digits p) as (c & ds & E' & Hd & _).
        all: unfold NilZero.string_of_uint in E.
        all: destruct (Pos.to_uint p); cbn in E, E'; congruence. }
      rewrite parse_value_number by exact Hc'. now rewrite Hp.
    + destruct (ends_value_cases rest Hr) as [->|[[r ->]|[r ->]]];
        reflexivity.
  - intros _ indent rest [|f] Hi Hr Hf; cbn [size] in Hf; [lia|].
    cbn [serialize scrub].
    rewrite quote_append, parse_value_string, parse_chars_escape.
    reflexivity.
  - now apply reparses_array.
  - intros Hst indent rest fuel Hi Hr Hf.
    rewrite (reparses_object props H Hst indent rest fuel Hi Hr Hf).
    cbn [storable] in Hst. apply andb_true_iff in Hst as [Hok _].
    rewrite create_all_ordered by (cbn [app]; now rewrite props_ok_scrub).
    reflexivity.
Qed.

(** ** The text is long enough to serve as fuel *)

Lemma elements_size_length (inner : string) (l : list value) :
  Forall (fun e => forall indent,
            (size e <= String.length (serialize indent e))%nat) l ->
  (elements_size l <= String.length (elements_text inner l) + 1)%nat.
Proof.
  induction 1 as [|e l He Hl IH]; [cbn; lia|].
  cbn [elements_size fold_right]. fold (elements_size l).
  specialize (He inner). destruct l as [|e2 l'].
  - change (elements_text inner [e]) with (serialize inner e).
    cbn [elements_size fold_right]. lia.
  - change (elements_text inner (e :: e2 :: l'))
      with (serialize inner e
              ++ separator inner ++ elements_text inner (e2 :: l')).
    rewrite !length_append. unfold separator at 1. cbn [String.length].
    lia.
Qed.

Lemma members_size_length (inner : string) (l : list (string * value)) :
  Forall (fun kv => forall indent,
            (size (snd kv) <= String.length (serialize indent (snd kv)))%nat)
    l ->
  (members_size l <= String.length (members_text inner l) + 1)%nat.
Proof.
  induction 1 as [|kv l He Hl IH]; [cbn; lia|].
  cbn [members_size fold_right]. fold (members_size l).
  specialize (He inner). cbv beta in He.
  assert (Hm : (size (snd kv) <= String.length (member_text inner kv))%nat).
  { unfold member_text. rewrite !length_append. lia. }
  destruct l as [|kv2 l'].
  - change (members_text inner [kv]) with (member_text inner kv).
    cbn [members_size fold_right]. lia.
  - change (members_text inner (kv :: kv2 :: l'))
      with (member_text inner kv
              ++ separator inner ++ members_text inner (kv2 :: l')).
    rewrite !length_append. unfold separator at 1. cbn [String.length].
    lia.
Qed.

Lemma size_length (v : value) (indent : string) :
  (size v <= String.length (serialize indent v))%nat.
Proof.
  revert indent. induction v using value_induction; intros indent.
  - cbn. lia.
  - destruct b; cbn; lia.
  - destruct (serialize_head indent (VNum n)) as (c & t & E & _).
    rewrite E. cbn. lia.
  - cbn. lia.
  - destruct elems as [|e l]; [cbn; lia|].
    rewrite serialize_array. cbn [size String.length].
    fold (elements_size (e :: l)).
    pose proof (elements_size_length (indent ++ "  ") (e :: l) H).
    rewrite !length_append. cbn [String.length]. lia.
  - destruct props as [|kv l]; [cbn; lia|].
    rewrite serialize_object. cbn [size String.length].
    fold (members_size (kv :: l)).
    pose proof (members_size_length (indent ++ "  ") (kv :: l) H).
    rewrite !length_append. cbn [String.length]. lia.
Qed.

(** [JSON.parse(JSON.stringify(v, null, 2))] *)
Lemma JSON_parse_stringify (v : value) :
  storable v = true -> JSON_parse (JSON_stringify v) = Parsed (scrub v).
Proof.
  intros Hst. unfold JSON_parse, JSON_stringify.
  pose proof (reparses_all v Hst EmptyString EmptyString
                (2 * String.length (serialize EmptyString v) + 2)%nat
                eq_refl eq_refl) as H.
  rewrite append_nil_r in H. rewrite H; [reflexivity|].
  pose proof (size_length v EmptyString). lia.
Qed.

(** ** Array indices name one key each *)

Lemma all_digits_parse (k : string) :
  all_digits k = true -> exists d, NilEmpty.uint_of_string k = Some d.
Proof.
  induction k as [|c k IH]; cbn [all_digits NilEmpty.uint_of_string].
  - eauto.
  - intros H. apply andb_true_iff in H as [Hc Hk].
    destruct (IH Hk) as [d ->].
    destruct c as [[] [] [] [] [] [] [] []]; try discriminate; cbn; eauto.
Qed.

Lemma array_index_spec (k : string) (i : N) :
  array_index k = Some i ->
  exists d, NilEmpty.uint_of_string k = Some d
            /\ N.of_uint d = i /\ Decimal.unorm d = d.
Proof.
  unfold array_index. destruct k as [|c rest]; [discriminate|].
  destruct (all_digits (String c rest)) eqn:Hd; [|discriminate].
  cbn [andb].
  destruct (negb (Ascii.eqb c "0") || (rest =? EmptyString)%string) eqn:Hz;
    [|discriminate].
  cbn [andb].
  destruct (Nat.leb (String.length (String c rest)) 10); [|discriminate].
  destruct (digits_val (String c rest) <=? 4294967294)%N; [|discriminate].
  intros [= <-].
  destruct (all_digits_parse _ Hd) as [d Hu].
  exists d. split; [exact Hu|]. split.
  - unfold digits_val. now rewrite Hu.
  - cbn [NilEmpty.uint_of_string] in Hu.
    destruct (NilEmpty.uint_of_string rest) as [d'|] eqn:Hr;
      [|discriminate].
    apply orb_true_iff in Hz as [Hz|Hz].
    + apply uint_of_char_spec in Hu.
      apply negb_true_iff, Ascii.eqb_neq in Hz.
      intuition (subst; try congruence; reflexivity).
    + apply String.eqb_eq in Hz. subst rest. cbn in Hr.
      injection Hr as <-.
      apply uint_of_char_spec in Hu. intuition (subst; reflexivity).
Qed.

Lemma array_index_inj (k k' : string) (i : N) :
  array_index k = Some i -> array_index k' = Some i -> k = k'.
Proof.
  intros H H'.
  destruct (array_index_spec _ _ H) as (d & Hu & Hi & Hn).
  destruct (array_index_spec _ _ H') as (d' & Hu' & Hi' & Hn').
  assert (E : d = d').
  { rewrite <- Hn, <- Hn'. apply DecimalN.Unsigned.of_inj. congruence. }
  subst d'. apply NilEmpty.sus in Hu, Hu'. congruence.
Qed.

(** ** Setting a property keeps the enumeration order *)

Lemma replace_prop_keys (props : list (string * value)) (k : string)
  (v : value) :
  map fst (replace_prop props k v) = map fst props.
Proof.
  induction props as [|[k' v'] props IH]; [reflexivity|].
  cbn [replace_prop]. destruct (k' =? k)%string; cbn [map fst]; congruence.
Qed.

Lemma ordered_keys_append (lo : N) (ks : list string) (k : string) :
  array_index k = None ->
  ordered_keys lo ks = true -> ordered_keys lo (ks ++ [k])%list = true.
Proof.
  intros Hk. revert lo.
  induction ks as [|x ks IH]; intros lo H; cbn [app ordered_keys] in *.
  - now rewrite Hk.
  - destruct (array_index x).
    + apply andb_true_iff in H as [H1 H2]. rewrite H1. cbn [andb]. auto.
    + rewrite forallb_app, H. cbn. unfold is_index. now rewrite Hk.
Qed.

Lemma distinct_append (ks : list string) (k : string) :
  existsb (String.eqb k) ks = false ->
  distinct ks = true -> distinct (ks ++ [k])%list = true.
Proof.
  induction ks as [|x ks IH]; cbn [app distinct existsb];
    [reflexivity|].
  intros Hk H. apply orb_false_iff in Hk as [Hx Hk].
  apply andb_true_iff in H as [H1 H2].
  rewrite IH by assumption. rewrite andb_true_r.
  rewrite existsb_app. cbn [existsb].
  apply negb_true_iff in H1. rewrite H1, String.eqb_sym, Hx. reflexivity.
Qed.

Lemma insert_index_keys (props : list (string * value)) (i : N) (k : string)
  (v : value) (x : string) :
  existsb (String.eqb x) (map fst (insert_index props i k v))
  = (x =? k)%string || existsb (String.eqb x) (map fst props).
Proof.
  induction props as [|[k' v'] props IH]; cbn [insert_index map fst existsb].
  - reflexivity.
  - destruct (array_index k') as [j|]; [destruct (j <? i)%N|];
      cbn [map fst existsb]; rewrite ?IH; try reflexivity.
    destruct (x =? k)%string, (x =? k')%string; reflexivity.
Qed.

Lemma insert_index_distinct (props : list (string * value)) (i : N)
  (k : string) (v : value) :
  existsb (String.eqb k) (map fst props) = false ->
  distinct (map fst props) = true ->
  distinct (map fst (insert_index props i k v)) = true.
Proof.
  induction props as [|[k' v'] props IH];
    cbn [insert_index map fst existsb distinct]; [reflexivity|].
  intros Hk H. apply orb_false_iff in Hk as [Hx Hk].
  apply andb_true_iff in H as [H1 H2].
  assert (Hnew : distinct (k :: k' :: map fst props) = true).
  { cbn [distinct existsb]. now rewrite Hx, Hk, H1, H2. }
  destruct (array_index k') as [j|]; [destruct (j <? i)%N|];
    try exact Hnew.
  cbn [map fst distinct]. rewrite IH by assumption.
  rewrite insert_index_keys. apply negb_true_iff in H1.
  rewrite H1, String.eqb_sym, Hx. reflexivity.
Qed.

Lemma insert_index_ordered (props : list (string * value)) (lo i : N)
  (k : string) (v : value) :
  array_index k = Some i -> (lo <= i)%N ->
  existsb (String.eqb k) (map fst props) = false ->
  ordered_keys lo (map fst props) = true ->
  ordered_keys lo (map fst (insert_index props i k v)) = true.
Proof.
  intros Hk. revert lo.
  induction props as [|[k' v'] props IH]; intros lo Hlo Hin H;
    cbn [insert_index map fst existsb ordered_keys] in *.
  - rewrite Hk. rewrite andb_true_r. now apply N.leb_le.
  - apply orb_false_iff in Hin as [Hx Hin].
    destruct (array_index k') as [j|] eqn:Hk'.
    + apply andb_true_iff in H as [H1 H2].
      destruct (j <? i)%N eqn:Hji; cbn [map fst ordered_keys].
      * rewrite Hk', H1. cbn [andb].
        apply IH; try assumption. apply N.ltb_lt in Hji. lia.
      * rewrite Hk, Hk'.
        assert (i <> j).
        { intros ->. apply String.eqb_neq in Hx. apply Hx.
          eapply array_index_inj; eassumption. }
        apply N.ltb_ge in Hji.
        replace (lo <=? i)%N with true by (symmetry; apply N.leb_le; lia).
        replace (i + 1 <=? j)%N with true
          by (symmetry; apply N.leb_le; lia).
        exact H2.
    + cbn [map fst ordered_keys]. rewrite Hk, Hk'.
      replace (lo <=? i)%N with true by (symmetry; apply N.leb_le; lia).
      exact H.
Qed.

Lemma set_prop_ok (props : list (string * value)) (k : string) (v : value) :
  props_ok props = true -> props_ok (set_prop props k v) = true.
Proof.
  unfold props_ok, set_prop. intros H.
  apply andb_true_iff in H as [Hd Ho].
  destruct (own props k) eqn:Hown.
  - rewrite replace_prop_keys. now rewrite Hd, Ho.
  - apply own_none in Hown.
    destruct (array_index k) as [i|] eqn:Hk.
    + rewrite insert_index_distinct by assumption.
      rewrite (insert_index_ordered props 0 i k v); auto. lia.
    + rewrite map_app. cbn [map fst].
      rewrite distinct_append, ordered_keys_append by assumption.
      reflexivity.
Qed.

(** ** What the parser builds *)

Section SetPropValues.

Variable P : value -> bool.

Lemma replace_prop_values (props : list (string * value)) (k : string)
  (v : value) :
  values_all P props = true -> P v = true ->
  values_all P (replace_prop props k v) = true.
Proof.
  unfold values_all. intros H Hv.
  induction props as [|[k' v'] props IH]; [reflexivity|].
  cbn [forallb snd] in H. apply andb_true_iff in H as [H1 H2].
  cbn [replace_prop]. destruct (k' =? k)%string; cbn [forallb snd].
  - now rewrite Hv, H2.
  - now rewrite H1, IH.
Qed.

Lemma insert_index_values (props : list (string * value)) (i : N)
  (k : string) (v : value) :
  values_all P props = true -> P v = true ->
  values_all P (insert_index props i k v) = true.
Proof.
  unfold values_all. intros H Hv.
  induction props as [|[k' v'] props IH]; cbn [insert_index].
  - cbn. now rewrite Hv.
  - pose proof H as H'. cbn [forallb snd] in H.
    apply andb_true_iff in H as [H1 H2].
    destruct (array_index k') as [j|]; [destruct (j <? i)%N|];
      cbn [forallb snd]; rewrite ?Hv, ?H1, ?H2, ?IH; auto.
Qed.

Lemma set_prop_values (props : list (string * value)) (k : string)
  (v : value) :
  values_all P props = true -> P v = true ->
  values_all P (set_prop props k v) = true.
Proof.
  intros H Hv. unfold set_prop.
  destruct (own props k); [now apply replace_prop_values|].
  destruct (array_index k); [now apply insert_index_values|].
  unfold values_all. rewrite forallb_app. cbn [forallb snd].
  unfold values_all in H. now rewrite H, Hv.
Qed.

Lemma own_values (props : list (string * value)) (k : string) (v : value) :
  values_all P props = true -> own props k = Some v -> P v = true.
Proof.
  unfold values_all.
  induction props as [|[k' v'] props IH]; cbn [own forallb snd];
    [discriminate|].
  intros H. apply andb_true_iff in H as [H1 H2].
  destruct (k' =? k)%string; [now intros [= <-]|auto].
Qed.

End SetPropValues.

Lemma parse_number_ok (s : string) n e r :
  parse_number s = Some (n, e, r) -> json_ok (VNum n) = true.
Proof.
  unfold parse_number.
  destruct (starts_with "-" s) as [s'|];
    match goal with
    | |- context [span_digits ?x] => destruct (span_digits x) as [[|d ds] s2]
    end; try discriminate;
    (destruct (Ascii.eqb d "0" && negb (ds =? EmptyString)%string);
     [discriminate|]);
    (destruct (parse_frac s2) as [[hf s3]|]; [|discriminate]);
    (destruct (parse_exp s3) as [[he s4]|]; [|discriminate]);
    (destruct (negb hf && negb he
               && (Z.of_N (digits_val (String d ds)) <=? MAX_SAFE)) eqn:E;
     intros [= <- <- <-]; [|reflexivity]);
    apply andb_true_iff in E as [_ E]; apply Z.leb_le in E;
    cbn [json_ok]; apply Z.leb_le; lia.
Qed.

Lemma parse_literal_ok (s : string) v e r :
  parse_literal s = Some (v, e, r) -> json_ok v = true.
Proof.
  unfold parse_literal.
  destruct (strip_prefix "true" s); [now intros [= <- <- <-]|].
  destruct (strip_prefix "false" s); [now intros [= <- <- <-]|].
  destruct (strip_prefix "null" s); [now intros [= <- <- <-]|discriminate].
Qed.

Lemma parse_value_unfold (f : nat) (s : string) :
  parse_value (S f) s
  = match skip_ws s with
    | EmptyString => None
    | String c s1 =>
        if Ascii.eqb c "{" then
          match starts_with "}" (skip_ws s1) with
          | Some s2 => Some (VObj [], true, s2)
          | None => parse_members f [] true s1
          end
        else if Ascii.eqb c "[" then
          match starts_with "]" (skip_ws s1) with
          | Some s2 => Some (VArr [], true, s2)
          | None =>
              match parse_elements f s1 with
              | Some (l, e, r) => Some (VArr l, e, r)
              | None => None
              end
          end
        else if Ascii.eqb c DQ then
          match parse_chars s1 with
          | Some (str, e, r) => Some (VStr str, e, r)
          | None => None
          end
        else if Ascii.eqb c "-" || is_digit c then
          match parse_number (String c s1) with
          | Some (n, e, r) => Some (VNum n, e, r)
          | None => None
          end
        else parse_literal (String c s1)
    end.
Proof. reflexivity. Qed.

Lemma parse_members_unfold (f : nat) acc ok (s : string) :
  parse_members (S f) acc ok s
  = match starts_with DQ (skip_ws s) with
    | Some s1 =>
        match parse_chars s1 with
        | Some (k, e1, r1) =>
            match starts_with ":" (skip_ws r1) with
            | Some r2 =>
                match parse_value f r2 with
                | Some (v, e2, r3) =>
                    match starts_with "," (skip_ws r3) with
                    | Some r4 =>
                        parse_members f (set_prop acc k v)
                          (ok && e1 && e2) r4
                    | None =>
                        match starts_with "}" (skip_ws r3) with
                        | Some r4 =>
                            Some (VObj (set_prop acc k v),
                                  ok && e1 && e2, r4)
                        | None => None
                        end
                    end
                | None => None
                end
            | None => None
            end
        | None => None
        end
    | None => None
    end.
Proof. reflexivity. Qed.

Lemma parser_ok_all (f : nat) : parser_ok f.
Proof.
  induction f as [|f (IHv & IHe & IHm)];
    [repeat split; intros; discriminate|].
  repeat split.
  - intros s v e r. rewrite parse_value_unfold.
    destruct (skip_ws s) as [|c s1]; [discriminate|].
    destruct (Ascii.eqb c "{").
    { destruct (starts_with "}" (skip_ws s1));
        [now intros [= <- <- <-]|].
      now apply IHm. }
    destruct (Ascii.eqb c "[").
    { destruct (starts_with "]" (skip_ws s1));
        [now intros [= <- <- <-]|].
      destruct (parse_elements f s1) as [[[l e'] r']|] eqn:E;
        [|discriminate].
      intros [= <- <- <-]. cbn [json_ok]. eapply IHe; eassumption. }
    destruct (Ascii.eqb c DQ).
    { destruct (parse_chars s1) as [[[str e'] r']|]; [|discriminate].
      now intros [= <- <- <-]. }
    destruct (Ascii.eqb c "-" || is_digit c).
    { destruct (parse_number (String c s1)) as [[[n e'] r']|] eqn:E;
        [|discriminate].
      intros [= <- <- <-]. eapply parse_number_ok; eassumption. }
    apply parse_literal_ok.
  - intros s l e r. rewrite parse_elements_step.
    destruct (parse_value f s) as [[[v e1] r1]|] eqn:Ev; [|discriminate].
    pose proof (IHv _ _ _ _ Ev) as Hv.
    destruct (starts_with "," (skip_ws r1)) as [r'|].
    + destruct (parse_elements f r') as [[[l' e'] r'']|] eqn:El;
        [|discriminate].
      intros [= <- <- <-]. cbn [forallb]. rewrite Hv.
      eapply IHe; eassumption.
    + destruct (starts_with "]" (skip_ws r1)); [|discriminate].
      intros [= <- <- <-]. cbn [forallb]. now rewrite Hv.
  - intros acc ok s v e r Hok Hvals. rewrite parse_members_unfold.
    destruct (starts_with DQ (skip_ws s)) as [s1|]; [|discriminate].
    destruct (parse_chars s1) as [[[k e1] r1]|]; [|discriminate].
    destruct (starts_with ":" (skip_ws r1)) as [r2|]; [|discriminate].
    destruct (parse_value f r2) as [[[v' e2] r3]|] eqn:Ev; [|discriminate].
    pose proof (IHv _ _ _ _ Ev) as Hv.
    pose proof (set_prop_ok acc k v' Hok) as Hok'.
    pose proof (set_prop_values json_ok acc k v' Hvals Hv) as Hvals'.
    destruct (starts_with "," (skip_ws r3)) as [r4|].
    + now apply IHm.
    + destruct (starts_with "}" (skip_ws r3)); [|discriminate].
      intros [= <- <- <-]. cbn [json_ok].
      unfold values_ok, values_all in Hvals'. now rewrite Hok', Hvals'.
Qed.

(** Every parsed value is in the engine's canonical form. *)
Lemma JSON_parse_ok (text : string) (v : value) :
  JSON_parse text = Parsed v -> json_ok v = true.
Proof.
  unfold JSON_parse.
  destruct (parse_value (2 * String.length text + 2)%nat text)
    as [[[v' e] r]|] eqn:E; [|discriminate].
  destruct (skip_ws r); [|discriminate].
  destruct e; [|discriminate].
  intros [= <-]. eapply (proj1 (parser_ok_all _)); eassumption.
Qed.

Lemma json_ok_storable (v : value) :
  json_ok v = true -> storable v = true /\ scrub v = v.
Proof.
  induction v using value_induction; cbn [json_ok storable scrub];
    try (now split).
  - destruct n; [now split|discriminate].
  - intros Hall.
    assert (forallb storable elems = true /\ map scrub elems = elems)
      as [-> ->]; [|now split].
    induction H as [|e l He Hl IH]; [now split|].
    cbn [forallb] in Hall. apply andb_true_iff in Hall as [H1 H2].
    destruct (He H1) as [Hs Hc]. destruct (IH H2) as [Hs' Hc'].
    cbn [forallb map]. rewrite Hs, Hs', Hc, Hc'. now split.
  - intros Hall. apply andb_true_iff in Hall as [Hok Hall]. rewrite Hok.
    assert (forallb (fun kv => storable (snd kv)) props = true
            /\ map (fun kv => (fst kv, scrub (snd kv))) props = props)
      as [-> ->]; [|now split].
    clear Hok. induction H as [|[k e] l He Hl IH]; [now split|].
    cbn [forallb snd] in Hall. apply andb_true_iff in Hall as [H1 H2].
    destruct (He H1) as [Hs Hc]. destruct (IH H2) as [Hs' Hc'].
    cbn [forallb map fst snd] in *. rewrite Hs, Hs', Hc, Hc'. now split.
Qed.

(** ** Own properties after an update *)

Lemma own_replace (props : list (string * value)) (k k' : string)
  (v : value) :
  own (replace_prop props k v) k'
  = if (k =? k')%string
    then match own props k with Some _ => Some v | None => None end
    else own props k'.
Proof.
  induction props as [|[x y] props IH]; cbn [replace_prop own].
  - now destruct (k =? k')%string.
  - destruct (x =? k)%string eqn:Exk.
    + apply String.eqb_eq in Exk. subst x. cbn [own].
      destruct (k =? k')%string; reflexivity.
    + cbn [own]. rewrite IH.
      destruct (k =? k')%string eqn:Ekk'.
      * apply String.eqb_eq in Ekk'. subst k'. now rewrite Exk.
      * reflexivity.
Qed.

Lemma set_prop_existing (props : list (string * value)) (k : string)
  (v0 v : value) :
  own props k = Some v0 -> set_prop props k v = replace_prop props k v.
Proof. intros H. unfold set_prop. now rewrite H. Qed.

Lemma own_insert_index (props : list (string * value)) (i : N)
  (k k' : string) (v : value) :
  own props k = None ->
  own (insert_index props i k v) k'
  = if (k =? k')%string then Some v else own props k'.
Proof.
  induction props as [|[x y] props IH]; intros Hk;
    cbn [insert_index own] in *; [reflexivity|].
  destruct (x =? k)%string eqn:Exk; [discriminate|].
  destruct (array_index x) as [j|]; [destruct (j <? i)%N|];
    cbn [own]; rewrite ?IH by assumption;
    destruct (k =? k')%string eqn:Ekk'; try reflexivity.
  apply String.eqb_eq in Ekk'. subst k'. now rewrite Exk.
Qed.

Lemma own_append (props : list (string * value)) (k k' : string)
  (v : value) :
  own props k = None ->
  own (props ++ [(k, v)]) k'
  = if (k =? k')%string then Some v else own props k'.
Proof.
  induction props as [|[x y] props IH]; intros Hk; cbn [app own] in *;
    [now destruct (k =? k')%string|].
  destruct (x =? k)%string eqn:Exk; [discriminate|].
  rewrite IH by assumption.
  destruct (k =? k')%string eqn:Ekk'; [|reflexivity].
  apply String.eqb_eq in Ekk'. subst k'. now rewrite Exk.
Qed.

(** Reading a property back after [o[k] = v]. *)
Lemma own_set_prop (props : list (string * value)) (k k' : string)
  (v : value) :
  own (set_prop props k v) k'
  = if (k =? k')%string then Some v else own props k'.
Proof.
  unfold set_prop. destruct (own props k) eqn:Hk.
  - rewrite own_replace, Hk. reflexivity.
  - destruct (array_index k).
    + now apply own_insert_index.
    + now apply own_append.
Qed.

(** ** Running the storage operations *)

Lemma JSON_parse_empty : JSON_parse EmptyString = SyntaxError.
Proof. reflexivity. Qed.

Lemma readDatabase_content (w : world) (text : string) (db : value) :
  disk w = Content text -> JSON_parse text = Parsed db ->
  readDatabase w = (Ret db, w).
Proof.
  intros Hd Hp. unfold readDatabase, try_catch, bind, fs_readFile.
  rewrite Hd. unfold JSON_parse_M.
  destruct text as [|c t]; [rewrite JSON_parse_empty in Hp; discriminate|].
  now rewrite Hp.
Qed.

Lemma writeDatabase_run (w : world) (db : value) :
  writable w = true ->
  writeDatabase db w
  = (Ret tt, mkWorld (Content (JSON_stringify db)) true
               (JSON_stringify db :: writes w)).
Proof. intros H. unfold writeDatabase, fs_writeFile. now rewrite H. Qed.

Lemma readDatabase_written (db : value) (log : list string) :
  storable db = true ->
  readDatabase (mkWorld (Content (JSON_stringify db)) true log)
  = (Ret (scrub db), mkWorld (Content (JSON_stringify db)) true log).
Proof.
  intros H. apply (readDatabase_content _ (JSON_stringify db));
    [reflexivity|]. now apply JSON_parse_stringify.
Qed.

(** ** Stored values stay storable under the handlers' updates *)

Lemma json_ok_object (props : list (string * value)) :
  json_ok (VObj props) = props_ok props && values_all json_ok props.
Proof. reflexivity. Qed.

Lemma storable_object (props : list (string * value)) :
  storable (VObj props) = props_ok props && values_all storable props.
Proof. reflexivity. Qed.

Lemma json_ok_replace (props : list (string * value)) (k : string)
  (v : value) :
  json_ok (VObj props) = true -> json_ok v = true ->
  json_ok (VObj (replace_prop props k v)) = true.
Proof.
  rewrite !json_ok_object. intros H Hv.
  apply andb_true_iff in H as [H1 H2].
  unfold props_ok in *. rewrite replace_prop_keys, H1.
  now rewrite replace_prop_values.
Qed.

Lemma json_ok_set (props : list (string * value)) (k : string) (v : value) :
  json_ok (VObj props) = true -> json_ok v = true ->
  json_ok (VObj (set_prop props k v)) = true.
Proof.
  rewrite !json_ok_object. intros H Hv.
  apply andb_true_iff in H as [H1 H2].
  now rewrite set_prop_ok, set_prop_values.
Qed.

Lemma storable_replace (props : list (string * value)) (k : string)
  (v : value) :
  storable (VObj props) = true -> storable v = true ->
  storable (VObj (replace_prop props k v)) = true.
Proof.
  rewrite !storable_object. intros H Hv.
  apply andb_true_iff in H as [H1 H2].
  unfold props_ok in *. rewrite replace_prop_keys, H1.
  now rewrite replace_prop_values.
Qed.

Lemma storable_set (props : list (string * value)) (k : string) (v : value) :
  storable (VObj props) = true -> storable v = true ->
  storable (VObj (set_prop props k v)) = true.
Proof.
  rewrite !storable_object. intros H Hv.
  apply andb_true_iff in H as [H1 H2].
  now rewrite set_prop_ok, set_prop_values.
Qed.

Lemma json_ok_own (props : list (string * value)) (k : string) (v : value) :
  json_ok (VObj props) = true -> own props k = Some v -> json_ok v = true.
Proof.
  rewrite json_ok_object. intros H. apply andb_true_iff in H as [_ H].
  now apply own_values.
Qed.

Lemma json_ok_push (history : list value) (e : value) :
  json_ok (VArr history) = true -> json_ok e = true ->
  json_ok (VArr (history ++ [e])) = true.
Proof.
  cbn [json_ok]. intros H He. rewrite forallb_app, H. cbn. now rewrite He.
Qed.

(** ** One redirect on a well-formed record *)

Lemma succ_double_safe (z : Z) : z < MAX_SAFE -> succ_double z = z + 1.
Proof.
  intros H. unfold succ_double.
  destruct (z =? MAX_SAFE) eqn:E; [|reflexivity].
  apply Z.eqb_eq in E. lia.
Qed.

Lemma record_visit_record (rec : list (string * value)) (count : Z)
  (history : list value) (clientIP visitTimestamp : string) (w : world) :
  own rec "visits" = Some (VNum (NInt count)) ->
  count < MAX_SAFE ->
  own rec "visit_history" = Some (VArr history) ->
  record_visit (Data (VObj rec)) clientIP visitTimestamp w
  = (Ret (visited rec count history clientIP visitTimestamp), w).
Proof.
  intros Hv Hc Hh. unfold record_visit, bind, get_prop.
  rewrite Hv. cbn [add_one ret]. rewrite succ_double_safe by assumption.
  rewrite (set_prop_existing rec "visits" _ _ Hv).
  rewrite own_replace. cbn [String.eqb Ascii.eqb Bool.eqb]. rewrite Hh.
  erewrite set_prop_existing; [reflexivity|].
  rewrite own_replace. cbn [String.eqb Ascii.eqb Bool.eqb]. exact Hh.
Qed.

Lemma visited_own (rec : list (string * value)) (count : Z)
  (history : list value) (clientIP visitTimestamp : string) :
  own rec "visits" = Some (VNum (NInt count)) ->
  own rec "visit_history" = Some (VArr history) ->
  let rec' := visited rec count history clientIP visitTimestamp in
  own rec' "visits" = Some (VNum (NInt (count + 1)))
  /\ own rec' "visit_history"
     = Some (VArr (history ++ [visit_entry clientIP visitTimestamp]))
  /\ (forall k, k <> "visits" -> k <> "visit_history" ->
               own rec' k = own rec k).
Proof.
  intros Hv Hh. unfold visited. cbv zeta. repeat split.
  - rewrite !own_replace. cbn [String.eqb Ascii.eqb Bool.eqb].
    now rewrite Hv.
  - rewrite !own_replace. cbn [String.eqb Ascii.eqb Bool.eqb].
    now rewrite Hh.
  - intros k H1 H2. rewrite !own_replace.
    apply String.eqb_neq in H1, H2.
    rewrite (String.eqb_sym "visits" k), (String.eqb_sym "visit_history" k).
    now rewrite H1, H2.
Qed.

Lemma visited_json_ok (rec : list (string * value)) (count : Z)
  (history : list value) (clientIP visitTimestamp : string) :
  json_ok (VObj rec) = true ->
  own rec "visits" = Some (VNum (NInt count)) ->
  count < MAX_SAFE ->
  own rec "visit_history" = Some (VArr history) ->
  json_ok (VObj (visited rec count history clientIP visitTimestamp)) = true.
Proof.
  intros Hok Hv Hc Hh. unfold visited.
  pose proof (json_ok_own _ _ _ Hok Hv) as Hcount.
  pose proof (json_ok_own _ _ _ Hok Hh) as Hhist.
  cbn [json_ok] in Hcount. apply Z.leb_le in Hcount.
  apply json_ok_replace; [apply json_ok_replace|].
  - exact Hok.
  - cbn [json_ok]. apply Z.leb_le. unfold MAX_SAFE in *. lia.
  - now apply json_ok_push.
Qed.

Lemma holds_json_ok (w : world) (props : list (string * value)) :
  holds w props -> json_ok (VObj props) = true.
Proof. intros (text & _ & Hp). eapply JSON_parse_ok; eassumption. Qed.

Lemma holds_read (w : world) (props : list (string * value)) :
  holds w props -> readDatabase w = (Ret (VObj props), w).
Proof. intros (text & Hd & Hp). eapply readDatabase_content; eassumption. Qed.

Lemma wrote_holds (w : world) (props : list (string * value)) :
  json_ok (VObj props) = true -> holds (wrote w (VObj props)) props.
Proof.
  intros H. exists (JSON_stringify (VObj props)). split; [reflexivity|].
  destruct (json_ok_storable _ H) as [Hs Hc].
  rewrite JSON_parse_stringify by assumption. now rewrite Hc.
Qed.

Lemma res_redirect_world (target : jsval) (w : world) :
  snd (res_redirect target w) = w.
Proof.
  unfold res_redirect, ret, throw, unmodelled.
  destruct target as [|v|p]; try reflexivity.
  now destruct (to_string v).
Qed.

Lemma res_redirect_answer (target : jsval) (w : world) :
  res_redirect target w = (Ret (Redirect target), w)
  \/ res_redirect target w = (Throw E_Type, w)
  \/ res_redirect target w = (Unmodelled, w).
Proof.
  unfold res_redirect, ret, throw, unmodelled.
  destruct target as [|v|p]; auto.
  destruct (to_string v); auto.
Qed.

Ltac redirect_sent :=
  match goal with
  | |- context [res_redirect ?t ?w0] =>
      let E := fresh "E" in
      destruct (res_redirect_answer t w0) as [E|[E|E]]; rewrite E;
      cbn [fst snd server_error ret]
  end.

Ltac redirect_sent_in H :=
  match type of H with
  | context [res_redirect ?t ?w0] =>
      let E := fresh "E" in
      destruct (res_redirect_answer t w0) as [E|[E|E]]; rewrite E in H;
      cbn in H
  end.

Lemma redirect_step (w : world) (props rec : list (string * value))
  (name clientIP visitTimestamp : string) (count : Z) (history : list value)
  (target : string) :
  holds w props -> writable w = true ->
  own props name = Some (VObj rec) ->
  own rec "web_target" = Some (VStr target) ->
  own rec "visits" = Some (VNum (NInt count)) -> count < MAX_SAFE ->
  own rec "visit_history" = Some (VArr history) ->
  let rec' := visited rec count history clientIP visitTimestamp in
  let props' := replace_prop props name (VObj rec') in
  redirect name clientIP visitTimestamp w
  = (Ret (Redirect (Data (VStr target))), wrote w (VObj props'))
  /\ holds (wrote w (VObj props')) props'
  /\ own props' name = Some (VObj rec').
Proof.
  intros Hw Hwr Hn Ht Hv Hc Hh rec' props'.
  pose proof (holds_json_ok _ _ Hw) as Hok.
  assert (Hrec : json_ok (VObj rec') = true).
  { apply visited_json_ok; try assumption. eapply json_ok_own; eassumption. }
  repeat split.
  - unfold redirect, try_catch, bind.
    rewrite (holds_read _ _ Hw). cbn [index ret].
    replace (get_prop props name) with (Data (VObj rec))
      by (unfold get_prop; now rewrite Hn).
    cbn [truthy truthy_value negb].
    rewrite (record_visit_record rec count history) by assumption.
    cbn [update_in_place]. fold rec'. fold props'.
    rewrite writeDatabase_run by assumption. cbn [ret].
    unfold get_prop.
    destruct (visited_own rec count history clientIP visitTimestamp Hv Hh)
      as (_ & _ & Hother).
    fold rec' in Hother. rewrite Hother by discriminate.
    rewrite Ht. reflexivity.
  - apply wrote_holds. now apply json_ok_replace.
  - unfold props'. rewrite own_replace, String.eqb_refl. now rewrite Hn.
Qed.

Lemma stats_present (w : world) (props : list (string * value))
  (name : string) (v : value) :
  holds w props -> own props name = Some v -> truthy_value v = true ->
  stats name w = (Ret (Stats (Data v)), w).
Proof.
  intros Hw Hn Ht. unfold stats, try_catch, bind.
  rewrite (holds_read _ _ Hw). cbn [index ret]. unfold get_prop.
  rewrite Hn. cbn [truthy]. now rewrite Ht.
Qed.

Lemma redirect_all_counts (reqs : list (string * string)) :
  forall (w : world) (props rec : list (string * value))
    (name : string) (count : Z) (history : list value) (target : string),
    holds w props -> writable w = true ->
    own props name = Some (VObj rec) ->
    own rec "web_target" = Some (VStr target) ->
    own rec "visits" = Some (VNum (NInt count)) ->
    count + Z.of_nat (length reqs) <= MAX_SAFE ->
    own rec "visit_history" = Some (VArr history) ->
    exists props' rec',
      fst (redirect_all name reqs w)
      = map (fun _ => Ret (Redirect (Data (VStr target)))) reqs
      /\ holds (snd (redirect_all name reqs w)) props'
      /\ writable (snd (redirect_all name reqs w)) = true
      /\ own props' name = Some (VObj rec')
      /\ own rec' "web_target" = Some (VStr target)
      /\ own rec' "visits"
         = Some (VNum (NInt (count + Z.of_nat (length reqs))))
      /\ own rec' "visit_history" = Some (VArr (history ++ entries reqs)).
Proof.
  induction reqs as [|[ip ts] reqs IH];
    intros w props rec name count history target Hw Hwr Hn Ht Hv Hc Hh.
  - exists props, rec. cbn [redirect_all fst snd map length entries].
    rewrite Z.add_0_r, app_nil_r. auto 10.
  - cbn [length] in Hc. rewrite Nat2Z.inj_succ in Hc.
    destruct (redirect_step w props rec name ip ts count history target)
      as (Hrun & Hw' & Hn'); try assumption; try lia.
    destruct (visited_own rec count history ip ts Hv Hh)
      as (Hv' & Hh' & Hother).
    cbv zeta in Hv', Hh', Hother.
    set (rec1 := visited rec count history ip ts) in *.
    set (props1 := replace_prop props name (VObj rec1)) in *.
    destruct (IH (wrote w (VObj props1)) props1 rec1 name (count + 1)
                (history ++ [visit_entry ip ts])%list target)
      as (props' & rec' & Hr & Hw2 & Hwr2 & Hn2 & Ht2 & Hv2 & Hh2);
      try assumption; try reflexivity; try lia.
    { rewrite Hother by discriminate. exact Ht. }
    exists props', rec'. cbn [redirect_all]. rewrite Hrun.
    destruct (redirect_all name reqs (wrote w (VObj props1))) as [rs w2].
    cbn [fst snd] in *. cbn [map length entries].
    rewrite Hr. repeat split; try assumption.
    + rewrite Hv2. do 3 f_equal. lia.
    + rewrite Hh2. unfold entries. rewrite <- app_assoc. reflexivity.
Qed.

(** ** The parser consumes its input, and fuel beyond twice its length is
    never used *)

Lemma skip_ws_length (s : string) :
  (String.length (skip_ws s) <= String.length s)%nat.
Proof.
  induction s as [|c s IH]; cbn [skip_ws]; [lia|].
  destruct (is_ws c); cbn [String.length]; lia.
Qed.

Lemma starts_with_length (c : ascii) (s r : string) :
  starts_with c s = Some r -> String.length s = S (String.length r).
Proof.
  destruct s as [|c' s]; cbn [starts_with]; [discriminate|].
  destruct (Ascii.eqb c c'); [|discriminate]. now intros [= <-].
Qed.

Lemma starts_with_skip_length (c : ascii) (s r : string) :
  starts_with c (skip_ws s) = Some r ->
  (String.length r < String.length s)%nat.
Proof.
  intros H. apply starts_with_length in H.
  pose proof (skip_ws_length s). lia.
Qed.

Lemma parse_chars_length (n : nat) :
  forall s str e r,
    (String.length s <= n)%nat ->
    parse_chars s = Some (str, e, r) ->
    (String.length r < String.length s)%nat.
Proof.
  induction n as [|n IH]; intros s str e r Hn;
    destruct s as [|c s1]; cbn [String.length] in Hn;
    try discriminate; try lia.
  cbn [parse_chars].
  assert (Hpush : forall d b t,
            (String.length t <= n)%nat ->
            push_char d b (parse_chars t) = Some (str, e, r) ->
            (String.length r < String.length t)%nat).
  { intros d b t Ht. unfold push_char.
    destruct (parse_chars t) as [[[s' e'] r']|] eqn:E; [|discriminate].
    intros [= <- <- <-]. eapply IH; eassumption. }
  destruct (Ascii.eqb c DQ); [intros [= <- <- <-]; cbn; lia|].
  destruct (Ascii.eqb c BS).
  - destruct s1 as [|e0 s2]; [discriminate|].
    destruct (simple_escape e0).
    + intros H. apply Hpush in H; cbn [String.length] in *; lia.
    + destruct (Ascii.eqb e0 "u"); [|discriminate].
      destruct s2 as [|h1 [|h2 [|h3 [|h4 s3]]]]; try discriminate.
      destruct (hex4 h1 h2 h3 h4); [|discriminate].
      destruct (_ <? 256)%N; intros H; apply Hpush in H;
        cbn [String.length] in *; lia.
  - destruct (N_of_ascii c <? 32)%N; [discriminate|].
    intros H. apply Hpush in H; cbn [String.length] in *; lia.
Qed.

Lemma span_digits_length (s ds r : string) :
  span_digits s = (ds, r) ->
  (String.length ds + String.length r = String.length s)%nat.
Proof.
  revert ds r. induction s as [|c s IH]; intros ds r; cbn [span_digits].
  - now intros [= <- <-].
  - destruct (is_digit c).
    + destruct (span_digits s) as [ds' r'].
      intros [= <- <-]. specialize (IH _ _ eq_refl).
      cbn [String.length]. lia.
    + intros [= <- <-]. cbn [String.length]. lia.
Qed.

Lemma parse_frac_length (s r : string) (b : bool) :
  parse_frac s = Some (b, r) -> (String.length r <= String.length s)%nat.
Proof.
  unfold parse_frac.
  destruct (starts_with "." s) as [s1|] eqn:E.
  - apply starts_with_length in E.
    destruct (span_digits s1) as [[|d ds] r'] eqn:Es; [discriminate|].
    intros [= <- <-]. apply span_digits_length in Es. lia.
  - intros [= <- <-]. lia.
Qed.

Lemma parse_exp_length (s r : string) (b : bool) :
  parse_exp s = Some (b, r) -> (String.length r <= String.length s)%nat.
Proof.
  unfold parse_exp. destruct s as [|c s1]; [intros [= <- <-]; lia|].
  destruct (Ascii.eqb c "e" || Ascii.eqb c "E");
    [|intros [= <- <-]; lia].
  match goal with
  | |- context [span_digits ?x] =>
      assert (Hx : (String.length x <= String.length s1)%nat);
      [|destruct (span_digits x) as [[|d ds] r'] eqn:Es;
        [discriminate|]]
  end.
  { destruct s1 as [|sg s']; [lia|].
    destruct (Ascii.eqb sg "+" || Ascii.eqb sg "-");
      cbn [String.length]; lia. }
  intros [= <- <-]. apply span_digits_length in Es.
  cbn [String.length] in *. lia.
Qed.

Lemma parse_number_length (s r : string) (n : number) (e : bool) :
  parse_number s = Some (n, e, r) ->
  (String.length r < String.length s)%nat.
Proof.
  unfold parse_number.
  assert (Hs1 : (String.length
                   (snd (match starts_with "-" s with
                         | Some s' => (true, s')
                         | None => (false, s)
                         end)) <= String.length s)%nat).
  { destruct (starts_with "-" s) eqn:E; cbn [snd]; [|lia].
    apply starts_with_length in E. lia. }
  destruct (match starts_with "-" s with
            | Some s' => (true, s')
            | None => (false, s)
            end) as [neg s1].
  cbn [snd] in Hs1.
  destruct (span_digits s1) as [[|d ds] s2] eqn:Es; [discriminate|].
  apply span_digits_length in Es. cbn [String.length] in Es.
  destruct (Ascii.eqb d "0" && negb (ds =? EmptyString)%string);
    [discriminate|].
  destruct (parse_frac s2) as [[hf s3]|] eqn:Ef; [|discriminate].
  apply parse_frac_length in Ef.
  destruct (parse_exp s3) as [[he s4]|] eqn:Ee; [|discriminate].
  apply parse_exp_length in Ee.
  destruct (negb hf && negb he && _); intros [= <- <- <-]; lia.
Qed.

Lemma strip_prefix_length (p s r : string) :
  strip_prefix p s = Some r ->
  (String.length r + String.length p = String.length s)%nat.
Proof.
  revert s. induction p as [|c p IH]; intros s; cbn [strip_prefix].
  - intros [= <-]. cbn. lia.
  - destruct s as [|c' s]; [discriminate|].
    destruct (Ascii.eqb c c'); [|discriminate].
    intros H. apply IH in H. cbn [String.length]. lia.
Qed.

Lemma parse_literal_length (s r : string) (v : value) (e : bool) :
  parse_literal s = Some (v, e, r) ->
  (String.length r < String.length s)%nat.
Proof.
  unfold parse_literal.
  destruct (strip_prefix "true" s) eqn:E1;
    [apply strip_prefix_length in E1; intros [= <- <- <-]; cbn in E1; lia|].
  destruct (strip_prefix "false" s) eqn:E2;
    [apply strip_prefix_length in E2; intros [= <- <- <-]; cbn in E2; lia|].
  destruct (strip_prefix "null" s) eqn:E3; [|discriminate].
  apply strip_prefix_length in E3. intros [= <- <- <-]. cbn in E3. lia.
Qed.

Lemma parser_consumes_all (f : nat) : parser_consumes f.
Proof.
  induction f as [|f (IHv & IHe & IHm)];
    [repeat split; intros; discriminate|].
  repeat split.
  - intros s v e r. rewrite parse_value_unfold.
    pose proof (skip_ws_length s) as Hs.
    destruct (skip_ws s) as [|c s1]; [discriminate|].
    cbn [String.length] in Hs.
    destruct (Ascii.eqb c "{").
    { destruct (starts_with "}" (skip_ws s1)) as [s2|] eqn:E.
      - apply starts_with_skip_length in E. intros [= <- <- <-]. lia.
      - intros H. apply IHm in H. lia. }
    destruct (Ascii.eqb c "[").
    { destruct (starts_with "]" (skip_ws s1)) as [s2|] eqn:E.
      - apply starts_with_skip_length in E. intros [= <- <- <-]. lia.
      - destruct (parse_elements f s1) as [[[l e'] r']|] eqn:El;
          [|discriminate].
        apply IHe in El. intros [= <- <- <-]. lia. }
    destruct (Ascii.eqb c DQ).
    { destruct (parse_chars s1) as [[[str e'] r']|] eqn:Ec; [|discriminate].
      apply (parse_chars_length _ _ _ _ _ (le_n _)) in Ec.
      intros [= <- <- <-]. lia. }
    destruct (Ascii.eqb c "-" || is_digit c).
    { destruct (parse_number (String c s1)) as [[[n e'] r']|] eqn:En;
        [|discriminate].
      apply parse_number_length in En. cbn [String.length] in En.
      intros [= <- <- <-]. lia. }
    intros H. apply parse_literal_length in H.
    cbn [String.length] in H. lia.
  - intros s l e r. rewrite parse_elements_step.
    destruct (parse_value f s) as [[[v e1] r1]|] eqn:Ev; [|discriminate].
    apply IHv in Ev.
    destruct (starts_with "," (skip_ws r1)) as [r'|] eqn:E1.
    + apply starts_with_skip_length in E1.
      destruct (parse_elements f r') as [[[l' e'] r'']|] eqn:El;
        [|discriminate].
      apply IHe in El. intros [= <- <- <-]. lia.
    + destruct (starts_with "]" (skip_ws r1)) as [r'|] eqn:E2;
        [|discriminate].
      apply starts_with_skip_length in E2. intros [= <- <- <-]. lia.
  - intros acc ok s v e r. rewrite parse_members_unfold.
    destruct (starts_with DQ (skip_ws s)) as [s1|] eqn:E0; [|discriminate].
    apply starts_with_skip_length in E0.
    destruct (parse_chars s1) as [[[k e1] r1]|] eqn:Ec; [|discriminate].
    apply (parse_chars_length _ _ _ _ _ (le_n _)) in Ec.
    destruct (starts_with ":" (skip_ws r1)) as [r2|] eqn:E1; [|discriminate].
    apply starts_with_skip_length in E1.
    destruct (parse_value f r2) as [[[v' e2] r3]|] eqn:Ev; [|discriminate].
    apply IHv in Ev.
    destruct (starts_with "," (skip_ws r3)) as [r4|] eqn:E2.
    + apply starts_with_skip_length in E2. intros H. apply IHm in H. lia.
    + destruct (starts_with "}" (skip_ws r3)) as [r4|] eqn:E3;
        [|discriminate].
      apply starts_with_skip_length in E3. intros [= <- <- <-]. lia.
Qed.

Lemma fuel_free_all (f : nat) : fuel_free f.
Proof.
  induction f as [|f (IHv & IHe & IHm)];
    [repeat split; intros; lia|].
  repeat split.
  - intros s [|f'] Hs Hf; [lia|]. rewrite !parse_value_unfold.
    pose proof (skip_ws_length s) as Hk.
    destruct (skip_ws s) as [|c s1]; [reflexivity|].
    cbn [String.length] in Hk.
    rewrite (IHm [] true s1 f') by lia.
    rewrite (IHe s1 f') by lia. reflexivity.
  - intros s [|f'] Hs Hf; [lia|]. rewrite !parse_elements_step.
    rewrite (IHv s f') by lia.
    destruct (parse_value f s) as [[[v e1] r1]|] eqn:Ev; [|reflexivity].
    apply (proj1 (parser_consumes_all f)) in Ev.
    destruct (starts_with "," (skip_ws r1)) as [r'|] eqn:E1;
      [|reflexivity].
    apply starts_with_skip_length in E1.
    rewrite (IHe r' f') by lia. reflexivity.
  - intros acc ok s [|f'] Hs Hf; [lia|]. rewrite !parse_members_unfold.
    destruct (starts_with DQ (skip_ws s)) as [s1|] eqn:E0; [|reflexivity].
    apply starts_with_skip_length in E0.
    destruct (parse_chars s1) as [[[k e1] r1]|] eqn:Ec; [|reflexivity].
    apply (parse_chars_length _ _ _ _ _ (le_n _)) in Ec.
    destruct (starts_with ":" (skip_ws r1)) as [r2|] eqn:E1; [|reflexivity].
    apply starts_with_skip_length in E1.
    rewrite (IHv r2 f') by lia.
    destruct (parse_value f r2) as [[[v' e2] r3]|] eqn:Ev; [|reflexivity].
    apply (proj1 (parser_consumes_all f)) in Ev.
    destruct (starts_with "," (skip_ws r3)) as [r4|] eqn:E2;
      [|reflexivity].
    apply starts_with_skip_length in E2.
    rewrite (IHm _ _ r4 f') by lia. reflexivity.
Qed.

(** [JSON_parse] does not depend on its fuel: every larger amount gives
    the same result. *)
Lemma parse_value_fuel (text : string) (fuel : nat) :
  (2 * String.length text + 2 <= fuel)%nat ->
  parse_value fuel text
  = parse_value (2 * String.length text + 2)%nat text.
Proof.
  intros H. apply (proj1 (fuel_free_all _)); lia.
Qed.

(** ** Running [POST /shorten] *)

Section Shorten.

Variable URL_parses : string -> bool.

(** The handler on string fields, check by check. *)
Lemma shorten_unfold (url name : option string) (clientIP timestamp : string)
  (w : world) :
  shorten URL_parses url name clientIP timestamp w
  = try_catch
      (if blank url || blank name then ret (Failure 400 MSG_EMPTY)
       else if negb (URL_parses (text_of url))
       then ret (Failure 400 MSG_URL)
       else if negb (name_pattern (text_of name))
       then ret (Failure 400 MSG_NAME)
       else
         bind readDatabase (fun db =>
         bind (index db (text_of name)) (fun existing =>
         if truthy existing then ret (Failure 400 MSG_TAKEN)
         else
           bind (assign db (text_of name)
                   (new_record (text_of name) (text_of url)
                      clientIP timestamp)) (fun db' =>
           bind (writeDatabase db') (fun _ =>
           bind (index db' (text_of name)) (fun data =>
           ret (Created MSG_CREATED data)))))))
      server_error w.
Proof.
  unfold shorten, post_shorten, isValidUrl, try_catch.
  destruct url as [[|c u]|]; destruct name as [[|c' n]|]; reflexivity.
Qed.

Lemma name_pattern_nonempty (name : string) :
  name_pattern name = true -> blank (Some name) = false.
Proof. destruct name; [discriminate|reflexivity]. Qed.

Lemma blank_some (s : string) :
  s <> EmptyString -> blank (Some s) = false.
Proof. destruct s; [congruence|reflexivity]. Qed.

(** The checks of the handler, in the order of the source. *)
Lemma shorten_checks (url name : option string) (clientIP timestamp : string)
  (w : world) :
  let run := shorten URL_parses url name clientIP timestamp w in
  (blank url = true \/ blank name = true ->
   run = (Ret (Failure 400 MSG_EMPTY), w))
  /\ (blank url = false -> blank name = false ->
      URL_parses (text_of url) = false ->
      run = (Ret (Failure 400 MSG_URL), w))
  /\ (blank url = false -> blank name = false ->
      URL_parses (text_of url) = true ->
      name_pattern (text_of name) = false ->
      run = (Ret (Failure 400 MSG_NAME), w))
  /\ (blank url = false -> blank name = false ->
      URL_parses (text_of url) = true ->
      name_pattern (text_of name) = true ->
      forall props,
        holds w props -> truthy (get_prop props (text_of name)) = true ->
        run = (Ret (Failure 400 MSG_TAKEN), w)).
Proof.
  intros run. unfold run. rewrite shorten_unfold.
  split; [|split; [|split]].
  - intros [H|H]; rewrite H; [|rewrite orb_true_r]; reflexivity.
  - intros Hu Hn Hv. now rewrite Hu, Hn, Hv.
  - intros Hu Hn Hv Hp. now rewrite Hu, Hn, Hv, Hp.
  - intros Hu Hn Hv Hp props Hw Ht.
    rewrite Hu, Hn, Hv, Hp. cbn [orb negb].
    unfold try_catch, bind. rewrite (holds_read _ _ Hw). cbn [index ret].
    now rewrite Ht.
Qed.

(** Past the three input checks the handler reads the store. *)
Lemma shorten_validated (url name clientIP timestamp : string) (w : world) :
  url <> EmptyString -> URL_parses url = true -> name_pattern name = true ->
  shorten URL_parses (Some url) (Some name) clientIP timestamp w
  = try_catch
      (bind readDatabase (fun db =>
       bind (index db name) (fun existing =>
       if truthy existing then ret (Failure 400 MSG_TAKEN)
       else
         bind (assign db name (new_record name url clientIP timestamp))
           (fun db' =>
         bind (writeDatabase db') (fun _ =>
         bind (index db' name) (fun data =>
         ret (Created MSG_CREATED data)))))))
      server_error w.
Proof.
  intros Hu Hv Hn. rewrite shorten_unfold. cbn [text_of].
  rewrite (blank_some url Hu), (name_pattern_nonempty name Hn), Hv, Hn.
  reflexivity.
Qed.

Lemma shorten_taken (url name clientIP timestamp : string) (w : world)
  (props : list (string * value)) :
  url <> EmptyString -> URL_parses url = true -> name_pattern name = true ->
  holds w props -> truthy (get_prop props name) = true ->
  shorten URL_parses (Some url) (Some name) clientIP timestamp w
  = (Ret (Failure 400 MSG_TAKEN), w).
Proof.
  intros Hu Hv Hn Hw Ht. rewrite shorten_validated by assumption.
  unfold try_catch, bind. rewrite (holds_read _ _ Hw). cbn [index ret].
  now rewrite Ht.
Qed.

Lemma shorten_creates (url name clientIP timestamp : string) (w : world)
  (props : list (string * value)) :
  url <> EmptyString -> URL_parses url = true -> name_pattern name = true ->
  holds w props -> writable w = true ->
  truthy (get_prop props name) = false ->
  let rec := new_record name url clientIP timestamp in
  let props' := set_prop props name rec in
  shorten URL_parses (Some url) (Some name) clientIP timestamp w
  = (Ret (Created MSG_CREATED (Data rec)), wrote w (VObj props'))
  /\ holds (wrote w (VObj props')) props'
  /\ own props' name = Some rec
  /\ stats name (wrote w (VObj props'))
     = (Ret (Stats (Data rec)), wrote w (VObj props')).
Proof.
  intros Hu Hv Hn Hw Hwr Ht rec props'.
  assert (Hown : own props' name = Some rec).
  { unfold props'. now rewrite own_set_prop, String.eqb_refl. }
  assert (Hholds : holds (wrote w (VObj props')) props').
  { apply wrote_holds, json_ok_set;
      [eapply holds_json_ok; eassumption|reflexivity]. }
  repeat split; try assumption.
  - rewrite shorten_validated by assumption.
    unfold try_catch, bind. rewrite (holds_read _ _ Hw). cbn [index ret].
    rewrite Ht. cbn [assign ret]. fold rec. fold props'.
    rewrite writeDatabase_run by assumption. cbn [index ret].
    unfold get_prop. now rewrite Hown.
  - eapply stats_present; try eassumption. reflexivity.
Qed.

(** The same on a missing file: [readDatabase] first creates it. *)
Lemma shorten_creates_absent (url name clientIP timestamp : string)
  (w : world) :
  url <> EmptyString -> URL_parses url = true -> name_pattern name = true ->
  disk w = Absent -> writable w = true ->
  inherited_prop name = false ->
  let rec := new_record name url clientIP timestamp in
  shorten URL_parses (Some url) (Some name) clientIP timestamp w
  = (Ret (Created MSG_CREATED (Data rec)),
     wrote (wrote w (VObj [])) (VObj (set_prop [] name rec))).
Proof.
  intros Hu Hv Hn Hd Hwr Hi rec.
  rewrite shorten_validated by assumption.
  unfold try_catch, bind, readDatabase, try_catch, bind, fs_readFile.
  rewrite Hd. unfold fs_writeFile. rewrite Hwr. cbn [ret index].
  unfold get_prop at 1. cbn [own]. rewrite Hi. cbn [truthy assign ret].
  fold rec. unfold writeDatabase, fs_writeFile. cbn [writable ret index].
  unfold get_prop. rewrite own_set_prop, String.eqb_refl. reflexivity.
Qed.

End Shorten.

(** ** The store invariant *)

Lemma view_content (text : string) (b : bool) (log : list string)
  (v : value) :
  JSON_parse text = Parsed v -> view (mkWorld (Content text) b log) = Some v.
Proof.
  intros H. unfold view. cbn [disk].
  destruct text; [rewrite JSON_parse_empty in H; discriminate|].
  now rewrite H.
Qed.

Lemma view_written (db : value) (b : bool) (log : list string) :
  storable db = true ->
  view (mkWorld (Content (JSON_stringify db)) b log) = Some (scrub db).
Proof. intros H. apply view_content. now apply JSON_parse_stringify. Qed.

Lemma readDatabase_view (w w1 : world) (r : result value) :
  readDatabase w = (r, w1) ->
  view w1 = view w
  /\ (forall db, r = Ret db -> view w = Some db /\ json_ok db = true).
Proof.
  unfold readDatabase, try_catch, bind, fs_readFile.
  destruct (disk w) as [| |text] eqn:Hd.
  - unfold fs_writeFile. destruct (writable w); intros [= <- <-].
    + split.
      * unfold view. now rewrite Hd.
      * intros db [= <-]. unfold view. rewrite Hd. now split.
    + split; [|discriminate].
      unfold view. cbn [disk]. now rewrite Hd.
  - intros [= <- <-]. split; [reflexivity|discriminate].
  - unfold JSON_parse_M.
    destruct text as [|c t].
    + cbn. intros [= <- <-]. split; [reflexivity|].
      intros db [= <-]. unfold view. rewrite Hd. now split.
    + destruct (JSON_parse (String c t)) as [v| |] eqn:Hp;
        intros [= <- <-]; (split; [reflexivity|]); try discriminate.
      intros db [= <-]. unfold view. rewrite Hd, Hp.
      split; [reflexivity|]. eapply JSON_parse_ok; eassumption.
Qed.

Lemma own_scrub (props : list (string * value)) (k : string) :
  own (map scrub_prop props) k = option_map scrub (own props k).
Proof.
  induction props as [|[k' v] props IH]; [reflexivity|].
  cbn [map scrub_prop fst snd own]. now destruct (k' =? k)%string.
Qed.

Lemma names_match_scrub (props : list (string * value)) :
  names_match props -> names_match (map scrub_prop props).
Proof.
  intros H k v. rewrite own_scrub.
  destruct (own props k) as [v0|] eqn:E; [|discriminate].
  intros [= <-]. destruct (H k v0 E) as (fields & -> & Hn).
  exists (map scrub_prop fields). split; [reflexivity|].
  rewrite own_scrub, Hn. reflexivity.
Qed.

Lemma names_match_create (props : list (string * value))
  (name url clientIP timestamp : string) :
  names_match props ->
  names_match (set_prop props name (new_record name url clientIP timestamp)).
Proof.
  intros H k v. rewrite own_set_prop.
  destruct (name =? k)%string eqn:E; [|apply H].
  apply String.eqb_eq in E. subst k. intros [= <-].
  eexists. split; reflexivity.
Qed.

Lemma names_match_update (props rec rec' : list (string * value))
  (name : string) :
  names_match props ->
  own props name = Some (VObj rec) ->
  own rec' "name" = own rec "name" ->
  names_match (replace_prop props name (VObj rec')).
Proof.
  intros H Hown Hname k v. rewrite own_replace.
  destruct (name =? k)%string eqn:E; [|apply H].
  apply String.eqb_eq in E. subst k. rewrite Hown. intros [= <-].
  destruct (H name _ Hown) as (fields & [= <-] & Hn).
  exists rec'. split; [reflexivity|congruence].
Qed.

Lemma storable_own (props : list (string * value)) (k : string) (v : value) :
  storable (VObj props) = true -> own props k = Some v -> storable v = true.
Proof.
  rewrite storable_object. intros H. apply andb_true_iff in H as [_ H].
  now apply own_values.
Qed.

Lemma add_one_storable (x : jsval) (w w' : world) (v : value) :
  (forall v0, x = Data v0 -> storable v0 = true) ->
  add_one x w = (Ret v, w') -> w' = w /\ storable v = true.
Proof.
  intros Hx. unfold add_one, ret, throw, unmodelled.
  destruct x as [|v0|p]; try (intros [= <- <-]; now split);
    try discriminate.
  specialize (Hx v0 eq_refl).
  destruct v0 as [|b|[z|]|s|l|props]; try (intros [= <- <-]; now split).
  - destruct b; intros [= <- <-]; now split.
  - intros [= <- <-]. split; [reflexivity|].
    cbn [storable] in *. apply Z.leb_le in Hx. apply Z.leb_le.
    unfold succ_double. destruct (z =? MAX_SAFE) eqn:E.
    + unfold MAX_SAFE. lia.
    + apply Z.eqb_neq in E. unfold MAX_SAFE in *. lia.
  - destruct (to_string (VArr l)); intros [= <- <-]; now split.
  - destruct (to_string (VObj props)); intros [= <- <-]; now split.
Qed.

Lemma add_one_world (x : jsval) (w : world) : snd (add_one x w) = w.
Proof.
  unfold add_one, ret, throw, unmodelled.
  destruct x as [|[|b|[z|]|s|l|props]|p]; try reflexivity.
  - now destruct (to_string (VArr l)).
  - now destruct (to_string (VObj props)).
Qed.

Lemma record_visit_world (x : jsval) (clientIP now : string) (w : world) :
  snd (record_visit x clientIP now w) = w.
Proof.
  unfold record_visit, bind, ret, throw.
  destruct x as [|[|b|n|s|l|rec]|p]; try reflexivity.
  pose proof (add_one_world (get_prop rec "visits") w) as Hw.
  destruct (add_one (get_prop rec "visits") w) as [[v| |] w1];
    cbn [snd] in *; subst; try reflexivity.
  now destruct (get_prop (set_prop rec "visits" v) "visit_history")
    as [|[|b|n|s|l|o]|p].
Qed.

Lemma record_visit_result (x : jsval) (clientIP now : string) (w w' : world)
  (rec' : list (string * value)) :
  record_visit x clientIP now w = (Ret rec', w') ->
  exists rec,
    x = Data (VObj rec)
    /\ own rec' "name" = own rec "name"
    /\ (storable (VObj rec) = true -> storable (VObj rec') = true).
Proof.
  unfold record_visit, bind, ret, throw.
  destruct x as [|[|b|n|s|l|rec]|p]; try discriminate.
  destruct (add_one (get_prop rec "visits") w) as [[v| |] w1] eqn:Ea;
    try discriminate.
  destruct (get_prop (set_prop rec "visits" v) "visit_history")
    as [|[|b|n|s|history|o]|p] eqn:Eh; try discriminate.
  intros [= <- <-]. exists rec. split; [reflexivity|]. split.
  - rewrite !own_set_prop. reflexivity.
  - intros Hst.
    assert (Hv : storable v = true).
    { eapply add_one_storable; [|exact Ea].
      intros v0. unfold get_prop.
      destruct (own rec "visits") eqn:E;
        [intros [= <-]; eapply storable_own; eassumption|].
      destruct (inherited_prop "visits"); discriminate. }
    pose proof (storable_set rec "visits" v Hst Hv) as Hst1.
    apply storable_set; [exact Hst1|].
    assert (Hh : storable (VArr history) = true).
    { unfold get_prop in Eh.
      destruct (own (set_prop rec "visits" v) "visit_history") eqn:E.
      - injection Eh as ->. eapply storable_own; eassumption.
      - destruct (inherited_prop "visit_history"); discriminate. }
    cbn [storable] in *. rewrite forallb_app, Hh. reflexivity.
Qed.

Lemma writeDatabase_view (db : value) (w : world) :
  storable db = true ->
  view (snd (writeDatabase db w)) = view w
  \/ view (snd (writeDatabase db w)) = Some (scrub db).
Proof.
  intros H. unfold writeDatabase, fs_writeFile.
  destruct (writable w); cbn [snd].
  - right. now apply view_written.
  - left. reflexivity.
Qed.

Lemma writeDatabase_result (db : value) (w : world) :
  (exists w', writeDatabase db w = (Ret tt, w'))
  \/ (exists w', writeDatabase db w = (Throw E_IO, w')).
Proof.
  unfold writeDatabase, fs_writeFile. destruct (writable w); eauto.
Qed.

Lemma shorten_view (URL_parses : string -> bool) (url name : option string)
  (clientIP timestamp : string) (w w' : world) (r : result response) :
  shorten URL_parses url name clientIP timestamp w = (r, w') ->
  view w' = view w
  \/ exists props,
       view w = Some (VObj props)
       /\ view w'
          = Some (VObj (map scrub_prop
                          (set_prop props (text_of name)
                             (new_record (text_of name) (text_of url)
                                clientIP timestamp)))).
Proof.
  rewrite shorten_unfold. unfold try_catch.
  destruct (blank url || blank name); [intros [= <- <-]; now left|].
  destruct (negb (URL_parses (text_of url)));
    [intros [= <- <-]; now left|].
  destruct (negb (name_pattern (text_of name)));
    [intros [= <- <-]; now left|].
  unfold bind at 1.
  destruct (readDatabase w) as [r0 w1] eqn:Er.
  destruct (readDatabase_view _ _ _ Er) as [Hv Hdb].
  destruct r0 as [db| |]; try (intros [= <- <-]; left; exact Hv).
  destruct (Hdb db eq_refl) as [Hview Hok].
  destruct db as [|b|n|s|l|props];
    try (intros [= <- <-]; left; exact Hv).
  unfold bind at 1. cbn [index ret].
  destruct (truthy (get_prop props (text_of name)));
    [intros [= <- <-]; left; exact Hv|].
  unfold bind at 1. cbn [assign ret].
  set (db' := VObj (set_prop props (text_of name)
                      (new_record (text_of name) (text_of url)
                         clientIP timestamp))).
  assert (Hst : storable db' = true).
  { apply json_ok_storable. unfold db'. apply json_ok_set; auto. }
  unfold bind at 1.
  pose proof (writeDatabase_view db' w1 Hst) as Hw.
  destruct (writeDatabase_result db' w1) as [[w2 E]|[w2 E]];
    rewrite E in *; cbn [snd] in *; unfold bind;
    cbn [index ret server_error]; intros [= <- <-];
    (destruct Hw as [Hw|Hw]; [left; congruence|]);
    right; exists props; (split; [congruence|exact Hw]).
Qed.

Lemma redirect_view (name clientIP now : string) (w w' : world)
  (r : result response) :
  redirect name clientIP now w = (r, w') ->
  view w' = view w
  \/ exists props rec rec',
       view w = Some (VObj props)
       /\ own props name = Some (VObj rec)
       /\ own rec' "name" = own rec "name"
       /\ view w'
          = Some (VObj (map scrub_prop
                          (replace_prop props name (VObj rec')))).
Proof.
  unfold redirect, try_catch.
  unfold bind at 1.
  destruct (readDatabase w) as [r0 w1] eqn:Er.
  destruct (readDatabase_view _ _ _ Er) as [Hv Hdb].
  destruct r0 as [db| |]; try (intros [= <- <-]; left; exact Hv).
  destruct (Hdb db eq_refl) as [Hview Hok].
  destruct db as [|b|n|s|l|props];
    try (intros [= <- <-]; left; exact Hv).
  unfold bind at 1. cbn [index ret].
  destruct (negb (truthy (get_prop props name)));
    [intros [= <- <-]; left; exact Hv|].
  unfold bind at 1.
  pose proof (record_visit_world (get_prop props name) clientIP now w1)
    as Hsame.
  destruct (record_visit (get_prop props name) clientIP now w1)
    as [[rec'| |] w2] eqn:Erv; cbn [snd] in Hsame; subst w2;
    try (intros [= <- <-]; left; exact Hv).
  destruct (record_visit_result _ _ _ _ _ _ Erv)
    as (rec & Hget & Hname & Hst).
  assert (Hown : own props name = Some (VObj rec)).
  { unfold get_prop in Hget. destruct (own props name); [congruence|].
    destruct (inherited_prop name); discriminate. }
  cbn [update_in_place].
  set (db' := VObj (replace_prop props name (VObj rec'))).
  assert (Hst' : storable db' = true).
  { destruct (json_ok_storable _ Hok) as [Hs _].
    apply storable_replace; [exact Hs|].
    apply Hst. eapply storable_own; eassumption. }
  unfold bind at 1.
  pose proof (writeDatabase_view db' w1 Hst') as Hw.
  destruct (writeDatabase_result db' w1) as [[w2 E]|[w2 E]];
    rewrite E in *; cbn [snd ret server_error] in *;
    [pose proof (res_redirect_world (get_prop rec' "web_target") w2) as Hr;
     destruct (res_redirect (get_prop rec' "web_target") w2)
       as [[r1| |] w3];
     cbn [snd server_error ret] in Hr |- *; subst w3|];
    intros [= <- <-];
    (destruct Hw as [Hw|Hw]; [left; congruence|]);
    right; exists props, rec, rec'; repeat split; try assumption;
    congruence.
Qed.

Lemma stats_view (name : string) (w : world) :
  view (snd (stats name w)) = view w.
Proof.
  unfold stats, try_catch. unfold bind at 1.
  destruct (readDatabase w) as [r w1] eqn:Er.
  destruct (readDatabase_view _ _ _ Er) as [Hv Hdb].
  destruct r as [db| |]; try exact Hv.
  destruct db as [|b|n|s|l|props]; try exact Hv.
  unfold bind. cbn [index ret].
  now destruct (negb (truthy (get_prop props name))).
Qed.

(** ** Sample data *)

Lemma sample_world_holds : holds sample_world sample_store.
Proof. eexists. split; reflexivity. Qed.

(** The scenario of the specification, run on the model: create [ex1] on
    a missing file, visit it once, read its statistics. *)
Example scenario_create_visit_stats :
  let w0 := mkWorld Absent true [] in
  let created := new_record "ex1" "https://example.com" "203.0.113.7"
                   "2024-05-01T10:00:00.000Z" in
  let w1 := snd (shorten sample_URL_parses (Some "https://example.com")
                   (Some "ex1") "203.0.113.7" "2024-05-01T10:00:00.000Z"
                   w0) in
  let w2 := snd (redirect "ex1" "198.51.100.2" "2024-05-01T10:01:00.000Z"
                   w1) in
  fst (shorten sample_URL_parses (Some "https://example.com") (Some "ex1")
         "203.0.113.7" "2024-05-01T10:00:00.000Z" w0)
  = Ret (Created MSG_CREATED (Data created))
  /\ get_prop (match created with VObj fields => fields | _ => [] end)
       "web_url" = Data (VStr "shortmyurl.us.kg/ex1")
  /\ fst (redirect "ex1" "198.51.100.2" "2024-05-01T10:01:00.000Z" w1)
     = Ret (Redirect (Data (VStr "https://example.com")))
  /\ fst (stats "ex1" w2)
     = Ret (Stats (Data (VObj
         (visited (match created with VObj fields => fields | _ => [] end)
            0 [] "198.51.100.2" "2024-05-01T10:01:00.000Z"))))
  /\ writes w2
     = [ JSON_stringify
           (VObj [("ex1", VObj
              (visited
                 (match created with VObj fields => fields | _ => [] end)
                 0 [] "198.51.100.2" "2024-05-01T10:01:00.000Z"))]);
         JSON_stringify (VObj [("ex1", created)]);
         "{}" ].
Proof. vm_compute. repeat split. Qed.

(** On a body whose fields are missing or strings, the three operations
    keep the store invariant, whatever the request and its outcome. *)
Lemma names_match_preserved :
  forall (URL_parses : string -> bool) (w : world),
    store_invariant w ->
    (forall (url name : option string) (clientIP timestamp : string),
       store_invariant
         (snd (shorten URL_parses url name clientIP timestamp w)))
    /\ (forall name clientIP now : string,
          store_invariant (snd (redirect name clientIP now w)))
    /\ (forall name : string, store_invariant (snd (stats name w))).
Proof.
  intros URL_parses w Hinv. repeat split.
  - intros url name clientIP timestamp.
    destruct (shorten URL_parses url name clientIP timestamp w)
      as [r w'] eqn:E.
    destruct (shorten_view _ _ _ _ _ _ _ _ E)
      as [Hsame|(props & Hview & Hnew)];
      intros props' Hp; cbn [snd] in Hp.
    + apply Hinv. congruence.
    + rewrite Hnew in Hp. injection Hp as <-.
      apply names_match_scrub, names_match_create, Hinv, Hview.
  - intros name clientIP now.
    destruct (redirect name clientIP now w) as [r w'] eqn:E.
    destruct (redirect_view _ _ _ _ _ _ E)
      as [Hsame|(props & rec & rec' & Hview & Hown & Hname & Hnew)];
      intros props' Hp; cbn [snd] in Hp.
    + apply Hinv. congruence.
    + rewrite Hnew in Hp. injection Hp as <-.
      apply names_match_scrub.
      eapply names_match_update; eauto.
  - intros name props Hp. rewrite stats_view in Hp. now apply Hinv.
Qed.

(** * The claims *)

(** C1.  For a name present in the store, one [GET /:name] adds exactly 1
    to the record's [visits], appends the object [{ip: clientIP,
    timestamp: now}] to its [visit_history], writes the whole store back
    and answers with a redirect (status 302) to the record's
    [web_target]; every other record and every other field is kept.
    Consequently a sequence of requests for that name adds its length to
    [visits] and appends one such entry per request, in request order:
    starting from a fresh record ([visits] 0, empty history), [N]
    requests leave [visits = N] and a history of length [N].  The count
    is a binary64 number: the statement is for counts that stay within
    2^53. *)
Theorem C1_redirect_counts_each_visit :
  forall (w : world) (props rec : list (string * value))
    (name target : string) (count : Z) (history : list value),
    holds w props -> writable w = true ->
    own props name = Some (VObj rec) ->
    own rec "web_target" = Some (VStr target) ->
    own rec "visits" = Some (VNum (NInt count)) ->
    own rec "visit_history" = Some (VArr history) ->
    (forall clientIP now : string,
       count < MAX_SAFE ->
       let rec' := visited rec count history clientIP now in
       let props' := replace_prop props name (VObj rec') in
       redirect name clientIP now w
       = (Ret (Redirect (Data (VStr target))), wrote w (VObj props'))
       /\ status_of (Redirect (Data (VStr target))) = 302%nat
       /\ holds (wrote w (VObj props')) props'
       /\ own props' name = Some (VObj rec')
       /\ (forall k, k <> name -> own props' k = own props k)
       /\ own rec' "visits" = Some (VNum (NInt (count + 1)))
       /\ own rec' "visit_history"
          = Some (VArr (history
                        ++ [VObj [ ("ip", VStr clientIP);
                                   ("timestamp", VStr now) ]]))
       /\ (forall k, k <> "visits" -> k <> "visit_history" ->
                     own rec' k = own rec k))
    /\ (forall reqs : list (string * string),
          count + Z.of_nat (length reqs) <= MAX_SAFE ->
          let visits_of_reqs :=
            map (fun req => VObj [ ("ip", VStr (fst req));
                                   ("timestamp", VStr (snd req)) ]) reqs in
          fst (redirect_all name reqs w)
          = map (fun _ => Ret (Redirect (Data (VStr target)))) reqs
          /\ exists rec',
               stats name (snd (redirect_all name reqs w))
               = (Ret (Stats (Data (VObj rec'))),
                  snd (redirect_all name reqs w))
               /\ own rec' "visits"
                  = Some (VNum (NInt (count + Z.of_nat (length reqs))))
               /\ own rec' "visit_history"
                  = Some (VArr (history ++ visits_of_reqs))
               /\ (count = 0 -> history = [] ->
                   own rec' "visits"
                   = Some (VNum (NInt (Z.of_nat (length reqs))))
                   /\ own rec' "visit_history"
                      = Some (VArr visits_of_reqs)
                   /\ length visits_of_reqs = length reqs)).
Proof.
  intros w props rec name target count history Hw Hwr Hn Ht Hv Hh. split.
  - intros clientIP now Hc rec' props'.
    destruct (redirect_step w props rec name clientIP now count history
                target) as (Hrun & Hw' & Hn'); try assumption.
    destruct (visited_own rec count history clientIP now Hv Hh)
      as (Hv' & Hh' & Hother).
    repeat split; try assumption; try reflexivity.
    intros k Hk. unfold props'. rewrite own_replace.
    apply String.eqb_neq in Hk. now rewrite String.eqb_sym, Hk.
  - intros reqs Hc visits_of_reqs.
    destruct (redirect_all_counts reqs w props rec name count history
                target)
      as (props' & rec' & Hr & Hw' & _ & Hn' & _ & Hv' & Hh');
      try assumption.
    split; [exact Hr|]. exists rec'. repeat split; try assumption.
    + eapply stats_present; try eassumption. reflexivity.
    + subst count. now rewrite Hv'.
    + subst history. exact Hh'.
    + apply length_map.
Qed.

Lemma C1_witness :
  redirect "ex1" "198.51.100.2" "2024-05-01T10:01:00.000Z" sample_world
  = (Ret (Redirect (Data (VStr "https://example.com"))),
     wrote sample_world
       (VObj [ ("ex1",
                VObj [ ("name", VStr "ex1");
                       ("web_target", VStr "https://example.com");
                       ("web_url", VStr "shortmyurl.us.kg/ex1");
                       ("created_at", VStr "2024-05-01T10:00:00.000Z");
                       ("created_by_ip", VStr "203.0.113.7");
                       ("visits", VNum (NInt 1));
                       ("visit_history",
                        VArr [ VObj [ ("ip", VStr "198.51.100.2");
                                      ("timestamp",
                                       VStr "2024-05-01T10:01:00.000Z")
                                    ] ]) ]) ]))
  /\ exists rec',
       stats "ex1" (snd (redirect_all "ex1" sample_requests sample_world))
       = (Ret (Stats (Data (VObj rec'))),
          snd (redirect_all "ex1" sample_requests sample_world))
       /\ own rec' "visits" = Some (VNum (NInt 3))
       /\ own rec' "visit_history"
          = Some (VArr [ VObj [ ("ip", VStr "198.51.100.2");
                                ("timestamp",
                                 VStr "2024-05-01T10:01:00.000Z") ];
                         VObj [ ("ip", VStr "198.51.100.3");
                                ("timestamp",
                                 VStr "2024-05-01T10:02:00.000Z") ];
                         VObj [ ("ip", VStr "198.51.100.2");
                                ("timestamp",
                                 VStr "2024-05-01T10:03:00.000Z") ] ]).
Proof.
  destruct (C1_redirect_counts_each_visit sample_world sample_store
              sample_fields "ex1" "https://example.com" 0 []
              sample_world_holds eq_refl eq_refl eq_refl eq_refl eq_refl)
    as [Hone Hmany].
  split.
  - apply (Hone "198.51.100.2" "2024-05-01T10:01:00.000Z"). reflexivity.
  - destruct (Hmany sample_requests) as (_ & rec' & Hs & _ & _ & Hfresh).
    + vm_compute. discriminate.
    + destruct (Hfresh eq_refl eq_refl) as (Hv & Hh & _).
      exists rec'. repeat split; assumption.
Defined.

(** C2.  The claim: every valid request for a name that is not in the
    store creates the record.  The code decides "not in the store" by the
    truthiness of [db[name]], so the valid request below, for the unused
    name [constructor] on an empty store, is answered with the
    "name taken" error and nothing is created.  (For names that are not
    properties of [Object.prototype] the claim holds: [shorten_creates]
    and [shorten_creates_absent].) *)
Theorem C2_unused_name_reported_taken :
  let w := mkWorld (Content "{}") true [] in
  holds w []
  /\ own [] "constructor" = None
  /\ name_pattern "constructor" = true
  /\ sample_URL_parses "https://example.com" = true
  /\ shorten sample_URL_parses (Some "https://example.com")
       (Some "constructor") "203.0.113.7" "2024-05-01T10:00:00.000Z" w
     = (Ret (Failure 400 MSG_TAKEN), w).
Proof.
  cbv zeta. repeat split; try reflexivity.
  eexists. split; reflexivity.
Qed.



(** C4.  When the store has a record under [name], a create request for
    that name is refused with status 400 and the world is left as it was:
    no write, the file unchanged.  A request that is otherwise valid gets
    the conflict message.  Statistics fetched afterwards return the record
    that was stored, with its original target. *)
Theorem C4_conflict_keeps_store :
  forall (URL_parses : string -> bool) (url : option string)
    (name clientIP timestamp : string) (w : world)
    (props rec : list (string * value)),
    holds w props ->
    own props name = Some (VObj rec) ->
    let run := shorten URL_parses url (Some name) clientIP timestamp w in
    (exists message, run = (Ret (Failure 400 message), w))
    /\ (blank url = false -> URL_parses (text_of url) = true ->
        name_pattern name = true ->
        run = (Ret (Failure 400 MSG_TAKEN), w))
    /\ writes (snd run) = writes w
    /\ disk (snd run) = disk w
    /\ stats name (snd run) = (Ret (Stats (Data (VObj rec))), snd run).
Proof.
  intros URL_parses url name clientIP timestamp w props rec Hw Hown run.
  assert (Hrun : exists message, run = (Ret (Failure 400 message), w)).
  { unfold run.
    destruct (shorten_checks URL_parses url (Some name) clientIP
                timestamp w) as (H1 & H2 & H3 & H4).
    destruct (blank url) eqn:Hu; [eexists; apply H1; now left|].
    destruct (blank (Some name)) eqn:Hn; [eexists; apply H1; now right|].
    destruct (URL_parses (text_of url)) eqn:Hv; [|eexists; now apply H2].
    destruct (name_pattern (text_of (Some name))) eqn:Hp;
      [|eexists; now apply H3].
    eexists. eapply H4; eauto. cbn [text_of]. unfold get_prop.
    now rewrite Hown. }
  destruct Hrun as [message Hrun]. rewrite Hrun. cbn [snd].
  repeat split; eauto.
  - intros Hu Hv Hp.
    destruct (shorten_checks URL_parses url (Some name) clientIP
                timestamp w) as (_ & _ & _ & H4).
    fold run in H4. rewrite <- Hrun.
    eapply H4; eauto; [now apply name_pattern_nonempty|].
    cbn [text_of]. unfold get_prop. now rewrite Hown.
  - eapply stats_present; try eassumption. reflexivity.
Qed.

Lemma C4_witness :
  shorten sample_URL_parses (Some "https://other.example") (Some "ex1")
    "203.0.113.9" "2024-05-02T08:00:00.000Z" sample_world
  = (Ret (Failure 400 MSG_TAKEN), sample_world)
  /\ stats "ex1" sample_world
     = (Ret (Stats (Data (VObj sample_fields))), sample_world).
Proof.
  destruct (C4_conflict_keeps_store sample_URL_parses
              (Some "https://other.example") "ex1" "203.0.113.9"
              "2024-05-02T08:00:00.000Z" sample_world sample_store
              sample_fields sample_world_holds eq_refl)
    as (_ & Hconflict & _ & _ & Hstats).
  specialize (Hconflict eq_refl eq_refl eq_refl).
  rewrite Hconflict in Hstats. split; assumption.
Defined.

(** C5.  A create request with a non-empty well-formed [url] and a [name]
    that does not match [[a-zA-Z0-9-]+] is refused with a validation error
    of status 400 (the missing-field message when the name is empty, the
    invalid-name message otherwise) and the world is untouched: the store
    is not even read.  ["foo bar"], ["foo/bar"], ["foo.bar"] and the empty
    string do not match. *)
Theorem C5_invalid_name_rejected :
  forall (URL_parses : string -> bool) (url name clientIP timestamp : string)
    (w : world),
    url <> EmptyString -> URL_parses url = true ->
    name_pattern name = false ->
    shorten URL_parses (Some url) (Some name) clientIP timestamp w
    = (Ret (Failure 400 (match name with
                         | EmptyString => MSG_EMPTY
                         | String _ _ => MSG_NAME
                         end)), w)
    /\ name_pattern "foo bar" = false
    /\ name_pattern "foo/bar" = false
    /\ name_pattern "foo.bar" = false
    /\ name_pattern EmptyString = false.
Proof.
  intros URL_parses url name clientIP timestamp w Hu Hv Hp.
  repeat split.
  rewrite shorten_unfold. cbn [text_of].
  rewrite (blank_some url Hu). destruct name as [|c name]; [reflexivity|].
  cbn [blank orb]. now rewrite Hv, Hp.
Qed.

Lemma C5_witness :
  shorten sample_URL_parses (Some "https://example.com") (Some "foo bar")
    "203.0.113.7" "2024-05-01T10:00:00.000Z" sample_world
  = (Ret (Failure 400 MSG_NAME), sample_world).
Proof.
  apply (C5_invalid_name_rejected sample_URL_parses "https://example.com"
           "foo bar" "203.0.113.7" "2024-05-01T10:00:00.000Z" sample_world).
  - discriminate.
  - reflexivity.
  - reflexivity.
Defined.




(** C7.  Writing a well-formed store and reading it again gives the same
    store: [JSON.parse] inverts [JSON.stringify(_, null, 2)] on every value
    the parser can build. *)
Theorem C7_save_then_load :
  forall (w : world) (db : value),
    json_ok db = true -> writable w = true ->
    fst (writeDatabase db w) = Ret tt
    /\ readDatabase (snd (writeDatabase db w))
       = (Ret db, snd (writeDatabase db w))
    /\ JSON_parse (JSON_stringify db) = Parsed db.
Proof.
  intros w db Hok Hwr. rewrite writeDatabase_run by assumption.
  cbn [fst snd]. destruct (json_ok_storable db Hok) as [Hs Hc].
  repeat split.
  - rewrite readDatabase_written by assumption. now rewrite Hc.
  - rewrite JSON_parse_stringify by assumption. now rewrite Hc.
Qed.

Lemma C7_witness :
  readDatabase (snd (writeDatabase (VObj sample_store) sample_world))
  = (Ret (VObj sample_store),
     snd (writeDatabase (VObj sample_store) sample_world)).
Proof.
  apply (C7_save_then_load sample_world (VObj sample_store)); reflexivity.
Defined.

(** C8, as stated, fails: the empty text does not parse, yet
    [readDatabase] on an empty file returns the empty store. *)
Lemma C8_counterexample :
  ~ (forall (w : world) (text : string),
       disk w = Content text -> JSON_parse text = SyntaxError ->
       exists e, fst (readDatabase w) = Throw e).
Proof.
  intros H.
  destruct (H (mkWorld (Content EmptyString) true []) EmptyString
              eq_refl eq_refl) as [e He].
  discriminate He.
Qed.

(** C8, amended.  [readDatabase] returns the parsed content of the file.
    If the file is missing it creates it with the content [{}] and returns
    the empty store.  An empty file is read as the text [{}]: the empty
    store, without a write.  If reading fails otherwise, or the non-empty
    content does not parse, it throws; each handler that reaches it then
    answers with the generic 500 response, and nothing is written. *)
Theorem C8_load :
  forall (w : world),
    (forall text db,
       disk w = Content text -> JSON_parse text = Parsed db ->
       readDatabase w = (Ret db, w))
    /\ (disk w = Absent -> writable w = true ->
        readDatabase w
        = (Ret (VObj []), mkWorld (Content "{}") true ("{}" :: writes w)))
    /\ (disk w = Content EmptyString -> readDatabase w = (Ret (VObj []), w))
    /\ (disk w = Unreadable
        \/ (exists text, disk w = Content text /\ text <> EmptyString
                         /\ JSON_parse text = SyntaxError) ->
        (exists e, readDatabase w = (Throw e, w))
        /\ (forall name clientIP now,
              redirect name clientIP now w
              = (Ret (Failure 500 MSG_SERVER), w))
        /\ (forall name, stats name w = (Ret (Failure 500 MSG_SERVER), w))
        /\ (forall URL_parses url name clientIP timestamp,
              url <> EmptyString -> URL_parses url = true ->
              name_pattern name = true ->
              shorten URL_parses (Some url) (Some name) clientIP timestamp w
              = (Ret (Failure 500 MSG_SERVER), w))).
Proof.
  intros w. split; [|split; [|split]].
  - intros text db. apply readDatabase_content.
  - intros Hd Hwr.
    unfold readDatabase, try_catch, bind, fs_readFile. rewrite Hd.
    unfold fs_writeFile. now rewrite Hwr.
  - intros Hd. unfold readDatabase, try_catch, bind, fs_readFile.
    now rewrite Hd.
  - intros Hbad.
    assert (Hthrow : exists e, readDatabase w = (Throw e, w)).
    { unfold readDatabase, try_catch, bind, fs_readFile.
      destruct Hbad as [Hd|(text & Hd & Hne & Hp)]; rewrite Hd.
      - now exists E_IO.
      - exists E_Syntax. unfold JSON_parse_M.
        destruct text; [congruence|]. now rewrite Hp. }
    destruct Hthrow as [e He]. repeat split.
    + now exists e.
    + intros. unfold redirect, try_catch, bind. now rewrite He.
    + intros. unfold stats, try_catch, bind. now rewrite He.
    + intros. rewrite shorten_validated by assumption.
      unfold try_catch, bind. now rewrite He.
Qed.

Lemma C8_witness :
  readDatabase (mkWorld Absent true [])
  = (Ret (VObj []), mkWorld (Content "{}") true ["{}"])
  /\ stats "ex1" (mkWorld (Content "{oops") true [])
     = (Ret (Failure 500 MSG_SERVER), mkWorld (Content "{oops") true []).
Proof.
  split.
  - apply (C8_load (mkWorld Absent true [])); reflexivity.
  - apply (C8_load (mkWorld (Content "{oops") true [])).
    right. exists "{oops". split; [reflexivity|]. split; [discriminate|].
    reflexivity.
Defined.

(** C9.  The invariant "the record under a key has that key as its
    [name]" is not kept by [POST /shorten].  The handler uses [name] as a
    text where it tests the pattern, reads [db[name]] and assigns
    [db[name]], but it stores the value of the body in the field [name].
    With the array [["abc"]] as [name] and a well-formed [url], on the
    empty store, which has the invariant, the request passes the checks
    "only letters, digits and dash" and "name not used", is answered 200,
    and the file then holds under the key [abc] a record whose [name] is
    the array, not the key. *)
Theorem C9_array_name_breaks_invariant :
  let w := mkWorld (Content "{}") true [] in
  let run := post_shorten sample_URL_parses
               (Some (VStr "https://example.com"))
               (Some (VArr [VStr "abc"]))
               "203.0.113.7" "2024-05-01T10:00:00.000Z" w in
  let rec := VObj [ ("name", VArr [VStr "abc"]);
                    ("web_target", VStr "https://example.com");
                    ("web_url", VStr "shortmyurl.us.kg/abc");
                    ("created_at", VStr "2024-05-01T10:00:00.000Z");
                    ("created_by_ip", VStr "203.0.113.7");
                    ("visits", VNum (NInt 0));
                    ("visit_history", VArr []) ] in
  store_invariant w
  /\ fst run = Ret (Created MSG_CREATED (Data rec))
  /\ view (snd run) = Some (VObj [("abc", rec)])
  /\ own [("abc", rec)] "abc" = Some rec
  /\ get_prop [ ("name", VArr [VStr "abc"]);
                ("web_target", VStr "https://example.com");
                ("web_url", VStr "shortmyurl.us.kg/abc");
                ("created_at", VStr "2024-05-01T10:00:00.000Z");
                ("created_by_ip", VStr "203.0.113.7");
                ("visits", VNum (NInt 0));
                ("visit_history", VArr []) ] "name"
     = Data (VArr [VStr "abc"])
  /\ ~ store_invariant (snd run).
Proof.
  cbv zeta.
  assert (Hview : view (snd (post_shorten sample_URL_parses
                               (Some (VStr "https://example.com"))
                               (Some (VArr [VStr "abc"]))
                               "203.0.113.7" "2024-05-01T10:00:00.000Z"
                               (mkWorld (Content "{}") true [])))
                  = Some (VObj [("abc",
                                 record_of (VArr [VStr "abc"])
                                   (VStr "https://example.com") "abc"
                                   "203.0.113.7"
                                   "2024-05-01T10:00:00.000Z")]))
    by (vm_compute; reflexivity).
  split; [|split; [|split; [|split; [|split]]]].
  - intros props Hp.
    assert (Hv : view (mkWorld (Content "{}") true []) = Some (VObj []))
      by (vm_compute; reflexivity).
    rewrite Hv in Hp. injection Hp as <-. intros k v Hk. discriminate Hk.
  - vm_compute. reflexivity.
  - exact Hview.
  - reflexivity.
  - reflexivity.
  - intros Hinv. specialize (Hinv _ Hview).
    destruct (Hinv "abc" _ eq_refl) as (fields & Hrec & Hname).
    unfold record_of in Hrec. injection Hrec as <-.
    cbn [own String.eqb Ascii.eqb Bool.eqb] in Hname. discriminate Hname.
Qed.

(** C10.  Whether a name is taken is decided by the truthiness of
    [db[name]], and [db] inherits from [Object.prototype].  For a name
    that is a property of [Object.prototype] and not a key of the store,
    [db[name]] is the inherited value, which is truthy: a valid create
    request is refused with the "name taken" error (status 400), and
    [GET /:name] does not answer 404: updating the inherited value throws
    and the answer is the generic 500.  Nothing is written.
    [constructor], [toString], [hasOwnProperty] and [valueOf] are such
    names and match [[a-zA-Z0-9-]+]. *)
Theorem C10_inherited_names :
  forall (w : world) (props : list (string * value)) (name : string),
    holds w props -> own props name = None -> inherited_prop name = true ->
    get_prop props name = Inherited name
    /\ truthy (get_prop props name) = true
    /\ (forall clientIP now,
          record_visit (Inherited name) clientIP now w = (Throw E_Type, w)
          /\ redirect name clientIP now w
             = (Ret (Failure 500 MSG_SERVER), w))
    /\ (forall URL_parses url clientIP timestamp,
          url <> EmptyString -> URL_parses url = true ->
          name_pattern name = true ->
          shorten URL_parses (Some url) (Some name) clientIP timestamp w
          = (Ret (Failure 400 MSG_TAKEN), w))
    /\ Forall (fun n => inherited_prop n = true /\ name_pattern n = true)
         ["constructor"; "toString"; "hasOwnProperty"; "valueOf"].
Proof.
  intros w props name Hw Hown Hi.
  assert (Hget : get_prop props name = Inherited name)
    by (unfold get_prop; now rewrite Hown, Hi).
  split; [exact Hget|]. split; [now rewrite Hget|].
  split; [|split].
  - intros clientIP now. split; [reflexivity|].
    unfold redirect, try_catch, bind.
    rewrite (holds_read _ _ Hw). cbn [index ret]. now rewrite Hget.
  - intros URL_parses url clientIP timestamp Hu Hv Hp.
    eapply shorten_taken; try eassumption. now rewrite Hget.
  - repeat constructor.
Qed.

Lemma C10_witness :
  shorten sample_URL_parses (Some "https://example.com") (Some "toString")
    "203.0.113.7" "2024-05-01T10:00:00.000Z" sample_world
  = (Ret (Failure 400 MSG_TAKEN), sample_world)
  /\ redirect "constructor" "198.51.100.2" "2024-05-01T10:01:00.000Z"
       sample_world
     = (Ret (Failure 500 MSG_SERVER), sample_world).
Proof.
  split.
  - destruct (C10_inherited_names sample_world sample_store "toString"
                sample_world_holds eq_refl eq_refl)
      as (_ & _ & _ & Hcreate & _).
    apply Hcreate; [discriminate|reflexivity|reflexivity].
  - destruct (C10_inherited_names sample_world sample_store "constructor"
                sample_world_holds eq_refl eq_refl)
      as (_ & _ & Hget & _).
    apply Hget.
Defined.

(** * Further properties of the handlers *)

Lemma odd_world_holds : holds odd_world odd_store.
Proof. eexists. split; [reflexivity|]. vm_compute. reflexivity. Qed.

Lemma readDatabase_present (w : world) :
  disk w <> Absent -> snd (readDatabase w) = w.
Proof.
  intros Hd. unfold readDatabase, try_catch, bind, fs_readFile.
  destruct (disk w) as [| |text]; [congruence|reflexivity|].
  unfold JSON_parse_M.
  destruct (JSON_parse match text with
                       | EmptyString => "{}"
                       | String _ _ => text
                       end); reflexivity.
Qed.

Lemma readDatabase_absent (w : world) :
  disk w = Absent -> writable w = true ->
  readDatabase w = (Ret (VObj []), wrote w (VObj [])).
Proof.
  intros Hd Hwr. unfold readDatabase, try_catch, bind, fs_readFile.
  rewrite Hd. unfold fs_writeFile. now rewrite Hwr.
Qed.

Lemma stats_world (name : string) (w : world) :
  snd (stats name w) = snd (readDatabase w).
Proof.
  unfold stats, try_catch. unfold bind at 1.
  destruct (readDatabase w) as [[db| |] w1]; try reflexivity.
  destruct db as [|b|n|s|l|props]; try reflexivity.
  unfold bind. cbn [index ret].
  now destruct (negb (truthy (get_prop props name))).
Qed.

(** X1.  [GET /api/stats/:name] never updates the store: when the file
    exists the world after the request is the world before it, whatever
    the name and the content of the file.  Its only write is the creation
    of a missing file, with the content [{}]. *)
Theorem X1_stats_never_updates :
  forall (w : world) (name : string),
    (disk w <> Absent -> snd (stats name w) = w)
    /\ (disk w = Absent -> writable w = true ->
        snd (stats name w)
        = mkWorld (Content "{}") true ("{}" :: writes w)).
Proof.
  intros w name. rewrite stats_world. split.
  - apply readDatabase_present.
  - intros Hd Hwr. now rewrite readDatabase_absent.
Qed.

Lemma X1_witness :
  snd (stats "ex1" sample_world) = sample_world
  /\ snd (stats "ex1" (mkWorld Absent true []))
     = mkWorld (Content "{}") true ["{}"].
Proof.
  split.
  - apply (proj1 (X1_stats_never_updates sample_world "ex1")).
    discriminate.
  - apply (proj2 (X1_stats_never_updates (mkWorld Absent true []) "ex1"));
      reflexivity.
Defined.

Lemma stats_held (w : world) (props : list (string * value))
  (name : string) :
  holds w props ->
  stats name w
  = (Ret (if truthy (get_prop props name)
          then Stats (get_prop props name)
          else Failure 404 MSG_NOT_FOUND), w).
Proof.
  intros Hw. unfold stats, try_catch, bind.
  rewrite (holds_read _ _ Hw). cbn [index ret].
  now destruct (truthy (get_prop props name)).
Qed.

(** X2.  On a store that is an object, [GET /api/stats/:name] answers by
    the truthiness of [db[name]]: the stored value with status 200 when
    the key holds a truthy value; 404 when the key holds a falsy value
    ([null], [0], [false], the empty string), or when the name is neither
    a key nor a property of [Object.prototype]; and status 200 with the
    inherited value, not 404, for a property of [Object.prototype] that is
    not a key. *)
Theorem X2_stats_answers_by_truthiness :
  forall (w : world) (props : list (string * value)) (name : string),
    holds w props ->
    (forall v, own props name = Some v -> truthy_value v = true ->
               stats name w = (Ret (Stats (Data v)), w))
    /\ (forall v, own props name = Some v -> truthy_value v = false ->
                  stats name w = (Ret (Failure 404 MSG_NOT_FOUND), w))
    /\ (own props name = None -> inherited_prop name = false ->
        stats name w = (Ret (Failure 404 MSG_NOT_FOUND), w))
    /\ (own props name = None -> inherited_prop name = true ->
        stats name w = (Ret (Stats (Inherited name)), w)
        /\ status_of (Stats (Inherited name)) = 200%nat).
Proof.
  intros w props name Hw. rewrite (stats_held w props name Hw).
  unfold get_prop. split; [|split; [|split]].
  - intros v Hv Ht. rewrite Hv. cbn [truthy]. now rewrite Ht.
  - intros v Hv Ht. rewrite Hv. cbn [truthy]. now rewrite Ht.
  - intros Hv Hi. now rewrite Hv, Hi.
  - intros Hv Hi. rewrite Hv, Hi. now split.
Qed.

Lemma X2_witness :
  stats "plain" odd_world
  = (Ret (Stats (Data (VStr "https://example.com"))), odd_world)
  /\ stats "7" odd_world = (Ret (Failure 404 MSG_NOT_FOUND), odd_world)
  /\ stats "nothing" odd_world
     = (Ret (Failure 404 MSG_NOT_FOUND), odd_world)
  /\ stats "valueOf" odd_world
     = (Ret (Stats (Inherited "valueOf")), odd_world).
Proof.
  destruct (X2_stats_answers_by_truthiness odd_world odd_store "plain"
              odd_world_holds) as (H1 & _).
  destruct (X2_stats_answers_by_truthiness odd_world odd_store "7"
              odd_world_holds) as (_ & H2 & _).
  destruct (X2_stats_answers_by_truthiness odd_world odd_store "nothing"
              odd_world_holds) as (_ & _ & H3 & _).
  destruct (X2_stats_answers_by_truthiness odd_world odd_store "valueOf"
              odd_world_holds) as (_ & _ & _ & H4).
  split; [apply (H1 (VStr "https://example.com")); reflexivity|].
  split; [apply (H2 VNull); reflexivity|].
  split; [apply H3; reflexivity|].
  apply H4; reflexivity.
Defined.

Lemma get_prop_absent (props : list (string * value)) (name : string) :
  own props name = None -> inherited_prop name = false ->
  truthy (get_prop props name) = false.
Proof. intros H Hi. unfold get_prop. now rewrite H, Hi. Qed.

Lemma own_set_other (props : list (string * value)) (k k' : string)
  (v : value) :
  k' <> k -> own (set_prop props k v) k' = own props k'.
Proof.
  intros H. rewrite own_set_prop. apply String.eqb_neq in H.
  now rewrite String.eqb_sym, H.
Qed.

(** X3.  A valid create request ([url] non-empty and well-formed, [name]
    matching the pattern) for a name that is neither a key of the store
    nor a property of [Object.prototype] answers 200 with the new record
    ([visits] 0, empty [visit_history], [web_url] the base domain, a slash
    and the name), writes the store with that record added, and keeps
    every other key.  Statistics for the name then return the record. *)
Theorem X3_create_unused_name :
  forall (URL_parses : string -> bool) (w : world)
    (props : list (string * value)) (url name clientIP timestamp : string),
    holds w props -> writable w = true ->
    url <> EmptyString -> URL_parses url = true ->
    name_pattern name = true ->
    own props name = None -> inherited_prop name = false ->
    let rec := new_record name url clientIP timestamp in
    let w' := wrote w (VObj (set_prop props name rec)) in
    shorten URL_parses (Some url) (Some name) clientIP timestamp w
    = (Ret (Created MSG_CREATED (Data rec)), w')
    /\ holds w' (set_prop props name rec)
    /\ own (set_prop props name rec) name = Some rec
    /\ (forall k, k <> name -> own (set_prop props name rec) k = own props k)
    /\ stats name w' = (Ret (Stats (Data rec)), w')
    /\ rec = VObj [ ("name", VStr name);
                    ("web_target", VStr url);
                    ("web_url", VStr ("shortmyurl.us.kg/" ++ name));
                    ("created_at", VStr timestamp);
                    ("created_by_ip", VStr clientIP);
                    ("visits", VNum (NInt 0));
                    ("visit_history", VArr []) ].
Proof.
  intros URL_parses w props url name clientIP timestamp Hw Hwr Hu Hv Hp
    Hown Hi rec w'.
  destruct (shorten_creates URL_parses url name clientIP timestamp w props
              Hu Hv Hp Hw Hwr (get_prop_absent _ _ Hown Hi))
    as (Hrun & Hholds & Hnew & Hstats).
  split; [exact Hrun|]. split; [exact Hholds|]. split; [exact Hnew|].
  split; [intros k Hk; now apply own_set_other|].
  split; [exact Hstats|reflexivity].
Qed.

Lemma X3_witness :
  shorten sample_URL_parses (Some "https://example.org") (Some "ex-2")
    "203.0.113.7" "2024-05-01T11:00:00.000Z" sample_world
  = (Ret (Created MSG_CREATED
            (Data (new_record "ex-2" "https://example.org" "203.0.113.7"
                     "2024-05-01T11:00:00.000Z"))),
     wrote sample_world
       (VObj (set_prop sample_store "ex-2"
                (new_record "ex-2" "https://example.org" "203.0.113.7"
                   "2024-05-01T11:00:00.000Z")))).
Proof.
  apply (X3_create_unused_name sample_URL_parses sample_world sample_store
           "https://example.org" "ex-2" "203.0.113.7"
           "2024-05-01T11:00:00.000Z" sample_world_holds);
    try reflexivity. discriminate.
Defined.

Lemma set_prop_nil (k : string) (v : value) : set_prop [] k v = [(k, v)].
Proof. unfold set_prop. cbn [own]. now destruct (array_index k). Qed.

(** X4.  On a missing file a valid create request makes two writes: first
    [readDatabase] creates the file with the content [{}], then the
    handler writes the store that holds the one new record.  If the name
    is a property of [Object.prototype] the request is refused with the
    "name taken" error, and the file has been created all the same. *)
Theorem X4_create_on_missing_file :
  forall (URL_parses : string -> bool) (w : world)
    (url name clientIP timestamp : string),
    disk w = Absent -> writable w = true ->
    url <> EmptyString -> URL_parses url = true ->
    name_pattern name = true ->
    let rec := new_record name url clientIP timestamp in
    (inherited_prop name = false ->
     shorten URL_parses (Some url) (Some name) clientIP timestamp w
     = (Ret (Created MSG_CREATED (Data rec)),
        mkWorld (Content (JSON_stringify (VObj [(name, rec)]))) true
          (JSON_stringify (VObj [(name, rec)]) :: "{}" :: writes w))
     /\ JSON_parse (JSON_stringify (VObj [(name, rec)]))
        = Parsed (VObj [(name, rec)]))
    /\ (inherited_prop name = true ->
        shorten URL_parses (Some url) (Some name) clientIP timestamp w
        = (Ret (Failure 400 MSG_TAKEN),
           mkWorld (Content "{}") true ("{}" :: writes w))).
Proof.
  intros URL_parses w url name clientIP timestamp Hd Hwr Hu Hv Hp rec.
  split.
  - intros Hi. split.
    + rewrite (shorten_creates_absent URL_parses url name clientIP
                 timestamp w Hu Hv Hp Hd Hwr Hi).
      fold rec. rewrite set_prop_nil. reflexivity.
    + assert (Hok : json_ok (VObj [(name, rec)]) = true).
      { rewrite <- (set_prop_nil name rec). now apply json_ok_set. }
      destruct (json_ok_storable _ Hok) as [Hs Hc].
      rewrite JSON_parse_stringify by exact Hs. now rewrite Hc.
  - intros Hi. rewrite shorten_validated by assumption.
    unfold try_catch, bind. rewrite readDatabase_absent by assumption.
    cbn [index ret]. unfold get_prop. cbn [own]. now rewrite Hi.
Qed.

Lemma X4_witness :
  shorten sample_URL_parses (Some "https://example.com") (Some "ex1")
    "203.0.113.7" "2024-05-01T10:00:00.000Z" (mkWorld Absent true [])
  = (Ret (Created MSG_CREATED
            (Data (new_record "ex1" "https://example.com" "203.0.113.7"
                     "2024-05-01T10:00:00.000Z"))),
     mkWorld
       (Content (JSON_stringify
                   (VObj [("ex1", new_record "ex1" "https://example.com"
                                    "203.0.113.7"
                                    "2024-05-01T10:00:00.000Z")])))
       true
       [ JSON_stringify
           (VObj [("ex1", new_record "ex1" "https://example.com"
                            "203.0.113.7" "2024-05-01T10:00:00.000Z")]);
         "{}" ])
  /\ shorten sample_URL_parses (Some "https://example.com")
       (Some "toString") "203.0.113.7" "2024-05-01T10:00:00.000Z"
       (mkWorld Absent true [])
     = (Ret (Failure 400 MSG_TAKEN), mkWorld (Content "{}") true ["{}"]).
Proof.
  split.
  - apply (proj1 (X4_create_on_missing_file sample_URL_parses
                    (mkWorld Absent true []) "https://example.com" "ex1"
                    "203.0.113.7" "2024-05-01T10:00:00.000Z" eq_refl eq_refl
                    ltac:(discriminate) eq_refl eq_refl) eq_refl).
  - apply (proj2 (X4_create_on_missing_file sample_URL_parses
                    (mkWorld Absent true []) "https://example.com"
                    "toString" "203.0.113.7" "2024-05-01T10:00:00.000Z"
                    eq_refl eq_refl ltac:(discriminate) eq_refl eq_refl)
             eq_refl).
Defined.

(** X5.  The check before a create is the truthiness of [db[name]], not
    the presence of the key: when the key holds a falsy value ([null],
    [0], [false], the empty string), a valid create request for that name
    succeeds and the new record replaces the value, the key keeping its
    place among the keys. *)
Theorem X5_create_replaces_falsy_value :
  forall (URL_parses : string -> bool) (w : world)
    (props : list (string * value)) (url name clientIP timestamp : string)
    (old : value),
    holds w props -> writable w = true ->
    url <> EmptyString -> URL_parses url = true ->
    name_pattern name = true ->
    own props name = Some old -> truthy_value old = false ->
    let rec := new_record name url clientIP timestamp in
    shorten URL_parses (Some url) (Some name) clientIP timestamp w
    = (Ret (Created MSG_CREATED (Data rec)),
       wrote w (VObj (replace_prop props name rec)))
    /\ map fst (replace_prop props name rec) = map fst props
    /\ own (replace_prop props name rec) name = Some rec
    /\ holds (wrote w (VObj (replace_prop props name rec)))
         (replace_prop props name rec).
Proof.
  intros URL_parses w props url name clientIP timestamp old Hw Hwr Hu Hv Hp
    Hown Ht rec.
  assert (Hfalsy : truthy (get_prop props name) = false)
    by (unfold get_prop; now rewrite Hown).
  destruct (shorten_creates URL_parses url name clientIP timestamp w props
              Hu Hv Hp Hw Hwr Hfalsy) as (Hrun & Hholds & Hnew & _).
  fold rec in Hrun, Hholds, Hnew.
  rewrite (set_prop_existing props name old rec Hown) in Hrun, Hholds, Hnew.
  split; [exact Hrun|]. split; [apply replace_prop_keys|].
  split; assumption.
Qed.

Lemma X5_witness :
  shorten sample_URL_parses (Some "https://example.org") (Some "7")
    "203.0.113.7" "2024-05-01T11:00:00.000Z" odd_world
  = (Ret (Created MSG_CREATED
            (Data (new_record "7" "https://example.org" "203.0.113.7"
                     "2024-05-01T11:00:00.000Z"))),
     wrote odd_world
       (VObj (replace_prop odd_store "7"
                (new_record "7" "https://example.org" "203.0.113.7"
                   "2024-05-01T11:00:00.000Z")))).
Proof.
  apply (X5_create_replaces_falsy_value sample_URL_parses odd_world
           odd_store "https://example.org" "7" "203.0.113.7"
           "2024-05-01T11:00:00.000Z" VNull odd_world_holds);
    try reflexivity. discriminate.
Defined.

(** ** [GET /:name] on any record *)

Lemma visited_with_own (rec : list (string * value)) (visits : value)
  (history : list value) (clientIP now : string) (k : string) :
  own (visited_with rec visits history clientIP now) k
  = if ("visit_history" =? k)%string
    then Some (VArr (history ++ [visit_entry clientIP now]))
    else if ("visits" =? k)%string then Some visits
    else own rec k.
Proof. unfold visited_with. now rewrite !own_set_prop. Qed.

(** The request on a record that has a history, whatever its [visits]:
    the answer depends on whether the write succeeds. *)
Lemma redirect_run (w : world) (props rec : list (string * value))
  (name clientIP now : string) (visits : value) (history : list value) :
  holds w props ->
  own props name = Some (VObj rec) ->
  add_one (get_prop rec "visits") w = (Ret visits, w) ->
  own rec "visit_history" = Some (VArr history) ->
  let db' := VObj (replace_prop props name
                     (VObj (visited_with rec visits history clientIP now))) in
  redirect name clientIP now w
  = if writable w
    then try_catch (res_redirect (get_prop rec "web_target")) server_error
           (wrote w db')
    else (Ret (Failure 500 MSG_SERVER), write_failed w db').
Proof.
  intros Hw Hn Ha Hh db'. unfold redirect, try_catch, bind.
  rewrite (holds_read _ _ Hw). cbn [index ret].
  replace (get_prop props name) with (Data (VObj rec))
    by (unfold get_prop; now rewrite Hn).
  cbn [truthy truthy_value negb]. unfold record_visit, bind.
  rewrite Ha.
  replace (get_prop (set_prop rec "visits" visits) "visit_history")
    with (Data (VArr history))
    by (unfold get_prop; rewrite own_set_prop;
        cbn [String.eqb Ascii.eqb Bool.eqb]; now rewrite Hh).
  cbn [ret update_in_place].
  fold (visited_with rec visits history clientIP now). fold db'.
  unfold writeDatabase, fs_writeFile.
  destruct (writable w); [|reflexivity].
  replace (get_prop (visited_with rec visits history clientIP now)
             "web_target")
    with (get_prop rec "web_target"); [reflexivity|].
  unfold get_prop. rewrite visited_with_own.
  cbn [String.eqb Ascii.eqb Bool.eqb]. reflexivity.
Qed.

Lemma get_visits_not_inherited (rec : list (string * value)) :
  forall p, get_prop rec "visits" <> Inherited p.
Proof.
  intros p. unfold get_prop. destruct (own rec "visits"); discriminate.
Qed.

Lemma record_visit_no_history (v : value) (clientIP now : string)
  (w : world) :
  history_of v = None ->
  record_visit (Data v) clientIP now w = (Throw E_Type, w).
Proof.
  intros Hh. unfold record_visit, throw.
  destruct v as [|b|n|s|l|rec]; try reflexivity.
  unfold bind.
  pose proof (add_one_world (get_prop rec "visits") w) as Hw.
  destruct (add_one (get_prop rec "visits") w) as [[v'| |] w1] eqn:Ea;
    cbn [snd] in Hw; subst w1.
  - unfold get_prop. rewrite own_set_prop.
    cbn [String.eqb Ascii.eqb Bool.eqb].
    cbn [history_of] in Hh.
    destruct (own rec "visit_history") as [[|b|n|s|l|o]|];
      try reflexivity; discriminate.
  - unfold add_one, ret, throw, unmodelled in Ea.
    destruct (get_prop rec "visits") as [|[|b|[z|]|s|l|o]|p];
      try discriminate.
    + destruct (to_string (VArr l)); now inversion Ea.
    + destruct (to_string (VObj o)); now inversion Ea.
  - exfalso. unfold add_one, ret, throw, unmodelled in Ea.
    destruct (get_prop rec "visits") as [|[|b|[z|]|s|l|o]|p] eqn:Eg;
      try discriminate.
    + destruct (to_string (VArr l)); discriminate.
    + destruct (to_string (VObj o)); discriminate.
    + exact (get_visits_not_inherited rec p Eg).
Qed.

(** X6.  On a store that is an object, [GET /:name] answers 404 exactly
    when [db[name]] is falsy: then nothing is written; and when [db[name]]
    is truthy the answer is never 404. *)
Theorem X6_not_found_iff_falsy :
  forall (w : world) (props : list (string * value))
    (name clientIP now : string),
    holds w props ->
    (truthy (get_prop props name) = false ->
     redirect name clientIP now w = (Ret (Failure 404 MSG_NOT_FOUND), w))
    /\ (truthy (get_prop props name) = true ->
        forall message,
          fst (redirect name clientIP now w) <> Ret (Failure 404 message)).
Proof.
  intros w props name clientIP now Hw.
  unfold redirect, try_catch, bind.
  rewrite (holds_read _ _ Hw). cbn [index ret]. split.
  - intros Ht. now rewrite Ht.
  - intros Ht message. rewrite Ht. cbn [negb].
    pose proof (record_visit_world (get_prop props name) clientIP now w)
      as Hsame.
    destruct (record_visit (get_prop props name) clientIP now w)
      as [[rec'| |] w1]; cbn [snd] in Hsame; subst w1;
      try discriminate.
    destruct (writeDatabase_result
                (update_in_place (VObj props) name rec') w)
      as [[w2 E]|[w2 E]]; rewrite E; [|discriminate].
    destruct (res_redirect_answer (get_prop rec' "web_target") w2)
      as [E'|[E'|E']]; rewrite E'; discriminate.
Qed.

Lemma X6_witness :
  redirect "7" "198.51.100.2" "2024-05-01T10:01:00.000Z" odd_world
  = (Ret (Failure 404 MSG_NOT_FOUND), odd_world)
  /\ fst (redirect "ex1" "198.51.100.2" "2024-05-01T10:01:00.000Z"
            sample_world)
     <> Ret (Failure 404 MSG_NOT_FOUND).
Proof.
  split.
  - apply (proj1 (X6_not_found_iff_falsy odd_world odd_store "7"
                    "198.51.100.2" "2024-05-01T10:01:00.000Z"
                    odd_world_holds)). reflexivity.
  - apply (proj2 (X6_not_found_iff_falsy sample_world sample_store "ex1"
                    "198.51.100.2" "2024-05-01T10:01:00.000Z"
                    sample_world_holds)). reflexivity.
Defined.

(** X7.  When the key holds a truthy value that is not a record with an
    array under [visit_history] (a string, a number, an array, an object
    without that field or with another kind of value there), [GET /:name]
    answers with the generic 500 and the store is not written: the
    increment of [visits] made before the failing [push] is lost. *)
Theorem X7_no_history_is_server_error :
  forall (w : world) (props : list (string * value))
    (name clientIP now : string) (v : value),
    holds w props ->
    own props name = Some v -> truthy_value v = true ->
    history_of v = None ->
    redirect name clientIP now w = (Ret (Failure 500 MSG_SERVER), w).
Proof.
  intros w props name clientIP now v Hw Hn Ht Hh.
  unfold redirect, try_catch, bind.
  rewrite (holds_read _ _ Hw). cbn [index ret].
  replace (get_prop props name) with (Data v)
    by (unfold get_prop; now rewrite Hn).
  cbn [truthy]. rewrite Ht. cbn [negb].
  now rewrite record_visit_no_history.
Qed.

Lemma X7_witness :
  redirect "plain" "198.51.100.2" "2024-05-01T10:01:00.000Z" odd_world
  = (Ret (Failure 500 MSG_SERVER), odd_world).
Proof.
  apply (X7_no_history_is_server_error odd_world odd_store "plain"
           "198.51.100.2" "2024-05-01T10:01:00.000Z"
           (VStr "https://example.com") odd_world_holds);
    reflexivity.
Defined.

Lemma written_holds (w : world) (props : list (string * value)) :
  storable (VObj props) = true ->
  holds (wrote w (VObj props)) (map scrub_prop props).
Proof.
  intros H. exists (JSON_stringify (VObj props)). split; [reflexivity|].
  now rewrite JSON_parse_stringify.
Qed.

Lemma visited_with_storable (rec : list (string * value)) (visits : value)
  (history : list value) (clientIP now : string) :
  storable (VObj rec) = true -> storable visits = true ->
  storable (VArr history) = true ->
  storable (VObj (visited_with rec visits history clientIP now)) = true.
Proof.
  intros Hr Hv Hh. unfold visited_with.
  apply storable_set; [now apply storable_set|].
  cbn [storable] in *. rewrite forallb_app, Hh. reflexivity.
Qed.

Lemma visited_with_json_ok (rec : list (string * value)) (visits : value)
  (history : list value) (clientIP now : string) :
  json_ok (VObj rec) = true -> json_ok visits = true ->
  json_ok (VArr history) = true ->
  json_ok (VObj (visited_with rec visits history clientIP now)) = true.
Proof.
  intros Hr Hv Hh. unfold visited_with.
  apply json_ok_set; [now apply json_ok_set|].
  now apply json_ok_push.
Qed.

Lemma scrub_json_list (l : list value) :
  json_ok (VArr l) = true -> map scrub l = l.
Proof.
  intros H. destruct (json_ok_storable _ H) as [_ Hs].
  cbn [scrub] in Hs. congruence.
Qed.

(** X8.  [urlData.visits += 1] is the [+] of the language, not a counter:
    on a record with a history and a text as [web_target], a [visits]
    that is a text gets the character 1 appended, [null] and [false] give
    1, [true] gives 2; and a record without [visits] gets [NaN], which
    the file keeps as [null].  In each case the request redirects to the
    target and the entry [{ip, timestamp}] of the request is appended to
    the history and written. *)
Theorem X8_visits_plus_one :
  forall (w : world) (props rec : list (string * value))
    (name clientIP now target : string) (history : list value),
    holds w props -> writable w = true ->
    own props name = Some (VObj rec) ->
    own rec "web_target" = Some (VStr target) ->
    own rec "visit_history" = Some (VArr history) ->
    let entry := VObj [ ("ip", VStr clientIP); ("timestamp", VStr now) ] in
    let after visits :=
      wrote w (VObj (replace_prop props name
                       (VObj (set_prop (set_prop rec "visits" visits)
                                "visit_history"
                                (VArr (history ++ [entry])))))) in
    let redirected := Ret (Redirect (Data (VStr target))) in
    (forall s, own rec "visits" = Some (VStr s) ->
               redirect name clientIP now w
               = (redirected, after (VStr (s ++ "1"))))
    /\ (own rec "visits" = Some VNull ->
        redirect name clientIP now w = (redirected, after (VNum (NInt 1))))
    /\ (forall b, own rec "visits" = Some (VBool b) ->
                  redirect name clientIP now w
                  = (redirected,
                     after (VNum (NInt (if b then 2 else 1)))))
    /\ (own rec "visits" = None ->
        redirect name clientIP now w = (redirected, after (VNum NaN))
        /\ exists props1 rec1,
             holds (after (VNum NaN)) props1
             /\ own props1 name = Some (VObj rec1)
             /\ own rec1 "visits" = Some VNull
             /\ own rec1 "visit_history" = Some (VArr (history ++ [entry]))).
Proof.
  intros w props rec name clientIP now target history Hw Hwr Hn Ht Hh
    entry after redirected.
  assert (Hrun : forall x visits,
             get_prop rec "visits" = x ->
             add_one x w = (Ret visits, w) ->
             redirect name clientIP now w = (redirected, after visits)).
  { intros x visits Hx Ha. subst x.
    rewrite (redirect_run w props rec name clientIP now visits history)
      by assumption.
    rewrite Hwr. unfold get_prop. rewrite Ht. reflexivity. }
  split; [|split; [|split]].
  - intros s Hv. apply (Hrun (Data (VStr s))); [|reflexivity].
    unfold get_prop. now rewrite Hv.
  - intros Hv. apply (Hrun (Data VNull)); [|reflexivity].
    unfold get_prop. now rewrite Hv.
  - intros b Hv. apply (Hrun (Data (VBool b))); [|reflexivity].
    unfold get_prop. now rewrite Hv.
  - intros Hv. split.
    + apply (Hrun Undefined); [|reflexivity].
      unfold get_prop. now rewrite Hv.
    + pose proof (holds_json_ok _ _ Hw) as Hok.
      pose proof (json_ok_own _ _ _ Hok Hn) as Hrec.
      pose proof (json_ok_own _ _ _ Hrec Hh) as Hhist.
      destruct (json_ok_storable _ Hok) as [Hsp _].
      destruct (json_ok_storable _ Hrec) as [Hsr _].
      destruct (json_ok_storable _ Hhist) as [Hsh _].
      set (rec' := visited_with rec (VNum NaN) history clientIP now).
      exists (map scrub_prop (replace_prop props name (VObj rec'))),
        (map scrub_prop rec').
      split; [|split; [|split]].
      * apply (written_holds w), storable_replace; [exact Hsp|].
        now apply visited_with_storable.
      * rewrite own_scrub, own_replace, String.eqb_refl, Hn. reflexivity.
      * rewrite own_scrub. unfold rec'. rewrite visited_with_own.
        reflexivity.
      * rewrite own_scrub. unfold rec'. rewrite visited_with_own.
        cbn [String.eqb Ascii.eqb Bool.eqb option_map scrub].
        rewrite map_app, (scrub_json_list _ Hhist). reflexivity.
Qed.

Lemma X8_witness :
  redirect "text-count" "198.51.100.2" "2024-05-01T10:01:00.000Z" odd_world
  = (Ret (Redirect (Data (VStr "https://example.com"))),
     wrote odd_world
       (VObj (replace_prop odd_store "text-count"
                (VObj [ ("web_target", VStr "https://example.com");
                        ("visits", VStr "51");
                        ("visit_history",
                         VArr [ VObj [ ("ip", VStr "198.51.100.2");
                                       ("timestamp",
                                        VStr "2024-05-01T10:01:00.000Z")
                                     ] ]) ]))))
  /\ redirect "no-count" "198.51.100.2" "2024-05-01T10:01:00.000Z" odd_world
     = (Ret (Redirect (Data (VStr "https://example.com"))),
        wrote odd_world
          (VObj (replace_prop odd_store "no-count"
                   (VObj [ ("web_target", VStr "https://example.com");
                           ("visit_history",
                            VArr [ VObj [ ("ip", VStr "198.51.100.2");
                                          ("timestamp",
                                           VStr "2024-05-01T10:01:00.000Z")
                                        ] ]);
                           ("visits", VNum NaN) ])))).
Proof.
  split.
  - apply (proj1 (X8_visits_plus_one odd_world odd_store
                    [ ("web_target", VStr "https://example.com");
                      ("visits", VStr "5");
                      ("visit_history", VArr []) ]
                    "text-count" "198.51.100.2" "2024-05-01T10:01:00.000Z"
                    "https://example.com" [] odd_world_holds
                    eq_refl eq_refl eq_refl eq_refl) "5").
    reflexivity.
  - apply (proj2 (proj2 (proj2
             (X8_visits_plus_one odd_world odd_store
                [ ("web_target", VStr "https://example.com");
                  ("visit_history", VArr []) ]
                "no-count" "198.51.100.2" "2024-05-01T10:01:00.000Z"
                "https://example.com" [] odd_world_holds
                eq_refl eq_refl eq_refl eq_refl)))).
    reflexivity.
Defined.

(** X9.  At 2^53 the count stops: binary64 rounds 2^53 + 1 back to 2^53,
    so a request on a record whose [visits] is 9007199254740992 and whose
    [web_target] is a text redirects to it, appends the entry [{ip,
    timestamp}] of the request to the history and writes the same
    [visits] back. *)
Theorem X9_count_stops_at_two_to_53 :
  forall (w : world) (props rec : list (string * value))
    (name clientIP now target : string) (history : list value),
    holds w props -> writable w = true ->
    own props name = Some (VObj rec) ->
    own rec "web_target" = Some (VStr target) ->
    own rec "visits" = Some (VNum (NInt MAX_SAFE)) ->
    own rec "visit_history" = Some (VArr history) ->
    let entry := VObj [ ("ip", VStr clientIP); ("timestamp", VStr now) ] in
    let rec' := set_prop (set_prop rec "visits" (VNum (NInt MAX_SAFE)))
                  "visit_history" (VArr (history ++ [entry])) in
    let props' := replace_prop props name (VObj rec') in
    redirect name clientIP now w
    = (Ret (Redirect (Data (VStr target))), wrote w (VObj props'))
    /\ holds (wrote w (VObj props')) props'
    /\ own props' name = Some (VObj rec')
    /\ own rec' "visits" = Some (VNum (NInt 9007199254740992))
    /\ own rec' "visit_history" = Some (VArr (history ++ [entry])).
Proof.
  intros w props rec name clientIP now target history Hw Hwr Hn Ht Hv Hh
    entry rec' props'.
  pose proof (holds_json_ok _ _ Hw) as Hok.
  pose proof (json_ok_own _ _ _ Hok Hn) as Hrec.
  change rec' with (visited_with rec (VNum (NInt MAX_SAFE)) history
                      clientIP now) in *.
  split; [|split; [|split; [|split]]].
  - rewrite (redirect_run w props rec name clientIP now
               (VNum (NInt MAX_SAFE)) history); try assumption.
    + rewrite Hwr. unfold get_prop. rewrite Ht. reflexivity.
    + unfold get_prop. rewrite Hv. reflexivity.
  - apply wrote_holds, json_ok_replace; [exact Hok|].
    apply visited_with_json_ok; [exact Hrec|reflexivity|].
    eapply json_ok_own; eassumption.
  - unfold props'. now rewrite own_replace, String.eqb_refl, Hn.
  - now rewrite visited_with_own.
  - now rewrite visited_with_own.
Qed.

Lemma X9_witness :
  redirect "full" "198.51.100.2" "2024-05-01T10:01:00.000Z" odd_world
  = (Ret (Redirect (Data (VStr "https://example.com"))),
     wrote odd_world
       (VObj (replace_prop odd_store "full"
                (VObj [ ("web_target", VStr "https://example.com");
                        ("visits", VNum (NInt 9007199254740992));
                        ("visit_history",
                         VArr [ VObj [ ("ip", VStr "198.51.100.2");
                                       ("timestamp",
                                        VStr "2024-05-01T10:01:00.000Z")
                                     ] ]) ])))).
Proof.
  apply (proj1 (X9_count_stops_at_two_to_53 odd_world odd_store
                  [ ("web_target", VStr "https://example.com");
                    ("visits", VNum (NInt 9007199254740992));
                    ("visit_history", VArr []) ]
                  "full" "198.51.100.2" "2024-05-01T10:01:00.000Z"
                  "https://example.com" []
                  odd_world_holds eq_refl eq_refl eq_refl eq_refl eq_refl)).
Defined.

(** ** Requests in sequence *)

(** A created name is visited: the state after the create and the
    requests of [reqs] on the name. *)
Lemma create_then_visits (URL_parses : string -> bool) (w : world)
  (props : list (string * value)) (url name clientIP timestamp : string)
  (reqs : list (string * string)) :
  holds w props -> writable w = true ->
  url <> EmptyString -> URL_parses url = true -> name_pattern name = true ->
  truthy (get_prop props name) = false ->
  Z.of_nat (length reqs) <= MAX_SAFE ->
  let w1 := snd (shorten URL_parses (Some url) (Some name)
                   clientIP timestamp w) in
  exists props' rec',
    fst (redirect_all name reqs w1)
    = map (fun _ => Ret (Redirect (Data (VStr url)))) reqs
    /\ holds (snd (redirect_all name reqs w1)) props'
    /\ writable (snd (redirect_all name reqs w1)) = true
    /\ own props' name = Some (VObj rec')
    /\ own rec' "web_target" = Some (VStr url)
    /\ own rec' "visits" = Some (VNum (NInt (Z.of_nat (length reqs))))
    /\ own rec' "visit_history" = Some (VArr (entries reqs)).
Proof.
  intros Hw Hwr Hu Hv Hn Ht Hlen w1.
  destruct (shorten_creates URL_parses url name clientIP timestamp w props
              Hu Hv Hn Hw Hwr Ht) as (Hrun & Hw1 & Hown & _).
  unfold w1. rewrite Hrun. cbn [snd].
  apply (redirect_all_counts reqs
           (wrote w (VObj (set_prop props name
                             (new_record name url clientIP timestamp))))
           (set_prop props name (new_record name url clientIP timestamp))
           [ ("name", VStr name);
             ("web_target", VStr url);
             ("web_url", VStr (baseUrl ++ "/" ++ name));
             ("created_at", VStr timestamp);
             ("created_by_ip", VStr clientIP);
             ("visits", VNum (NInt 0));
             ("visit_history", VArr []) ]
           name 0 [] url); try reflexivity; assumption.
Qed.

(** X10.  Create, visit, ask: after a successful create of [name] for
    [url], any sequence of [GET /:name] requests is answered by redirects
    to [url], one for each request, and the statistics then show as many
    visits as requests and a history holding, for each request in order,
    the object [{ip, timestamp}] of that request. *)
Theorem X10_create_visit_stats :
  forall (URL_parses : string -> bool) (w : world)
    (props : list (string * value)) (url name clientIP timestamp : string)
    (reqs : list (string * string)),
    holds w props -> writable w = true ->
    url <> EmptyString -> URL_parses url = true ->
    name_pattern name = true ->
    truthy (get_prop props name) = false ->
    Z.of_nat (length reqs) <= MAX_SAFE ->
    let w1 := snd (shorten URL_parses (Some url) (Some name)
                     clientIP timestamp w) in
    let w2 := snd (redirect_all name reqs w1) in
    fst (redirect_all name reqs w1)
    = map (fun _ => Ret (Redirect (Data (VStr url)))) reqs
    /\ exists rec',
         stats name w2 = (Ret (Stats (Data (VObj rec'))), w2)
         /\ own rec' "web_target" = Some (VStr url)
         /\ own rec' "visits"
            = Some (VNum (NInt (Z.of_nat (length reqs))))
         /\ own rec' "visit_history"
            = Some (VArr (map (fun req =>
                                 VObj [ ("ip", VStr (fst req));
                                        ("timestamp", VStr (snd req)) ])
                            reqs)).
Proof.
  intros URL_parses w props url name clientIP timestamp reqs
    Hw Hwr Hu Hv Hn Ht Hlen w1 w2.
  destruct (create_then_visits URL_parses w props url name clientIP
              timestamp reqs Hw Hwr Hu Hv Hn Ht Hlen)
    as (props' & rec' & Hrs & Hw2 & _ & Hown & Htarget & Hvisits & Hhist).
  split; [exact Hrs|]. exists rec'. split; [|now repeat split].
  eapply stats_present; [exact Hw2|exact Hown|reflexivity].
Qed.

Lemma X10_witness :
  let w2 := snd (redirect_all "ex2" sample_requests
                   (snd (shorten sample_URL_parses
                           (Some "https://example.org") (Some "ex2")
                           "203.0.113.7" "2024-05-01T10:00:00.000Z"
                           sample_world))) in
  exists rec',
    stats "ex2" w2 = (Ret (Stats (Data (VObj rec'))), w2)
    /\ own rec' "web_target" = Some (VStr "https://example.org")
    /\ own rec' "visits" = Some (VNum (NInt 3))
    /\ own rec' "visit_history"
       = Some (VArr [ VObj [ ("ip", VStr "198.51.100.2");
                             ("timestamp",
                              VStr "2024-05-01T10:01:00.000Z") ];
                      VObj [ ("ip", VStr "198.51.100.3");
                             ("timestamp",
                              VStr "2024-05-01T10:02:00.000Z") ];
                      VObj [ ("ip", VStr "198.51.100.2");
                             ("timestamp",
                              VStr "2024-05-01T10:03:00.000Z") ] ]).
Proof.
  exact (proj2 (X10_create_visit_stats sample_URL_parses sample_world
                  sample_store "https://example.org" "ex2" "203.0.113.7"
                  "2024-05-01T10:00:00.000Z" sample_requests
                  sample_world_holds eq_refl
                  ltac:(discriminate) eq_refl eq_refl eq_refl
                  ltac:(vm_compute; discriminate))).
Defined.

(** X11.  A name is given once: after a successful create, and after any
    visits of the name, a second valid create request for the same name,
    whatever its URL, is refused with the "name taken" error and changes
    nothing. *)
Theorem X11_name_is_given_once :
  forall (URL_parses : string -> bool) (w : world)
    (props : list (string * value))
    (url name clientIP timestamp : string) (reqs : list (string * string))
    (url2 clientIP2 timestamp2 : string),
    holds w props -> writable w = true ->
    url <> EmptyString -> URL_parses url = true ->
    name_pattern name = true ->
    truthy (get_prop props name) = false ->
    Z.of_nat (length reqs) <= MAX_SAFE ->
    url2 <> EmptyString -> URL_parses url2 = true ->
    let w1 := snd (shorten URL_parses (Some url) (Some name)
                     clientIP timestamp w) in
    let w2 := snd (redirect_all name reqs w1) in
    shorten URL_parses (Some url2) (Some name) clientIP2 timestamp2 w2
    = (Ret (Failure 400 MSG_TAKEN), w2).
Proof.
  intros URL_parses w props url name clientIP timestamp reqs
    url2 clientIP2 timestamp2 Hw Hwr Hu Hv Hn Ht Hlen Hu2 Hv2 w1 w2.
  destruct (create_then_visits URL_parses w props url name clientIP
              timestamp reqs Hw Hwr Hu Hv Hn Ht Hlen)
    as (props' & rec' & _ & Hw2 & _ & Hown & _).
  eapply shorten_taken; try eassumption.
  unfold get_prop. now rewrite Hown.
Qed.

Lemma X11_witness :
  let w2 := snd (redirect_all "ex2" sample_requests
                   (snd (shorten sample_URL_parses
                           (Some "https://example.org") (Some "ex2")
                           "203.0.113.7" "2024-05-01T10:00:00.000Z"
                           sample_world))) in
  shorten sample_URL_parses (Some "https://example.net") (Some "ex2")
    "203.0.113.9" "2024-05-02T08:00:00.000Z" w2
  = (Ret (Failure 400 MSG_TAKEN), w2).
Proof.
  apply (X11_name_is_given_once sample_URL_parses sample_world
           sample_store "https://example.org" "ex2" "203.0.113.7"
           "2024-05-01T10:00:00.000Z" sample_requests
           "https://example.net" "203.0.113.9" "2024-05-02T08:00:00.000Z"
           sample_world_holds eq_refl
           ltac:(discriminate) eq_refl eq_refl eq_refl
           ltac:(vm_compute; discriminate)
           ltac:(discriminate) eq_refl).
Defined.

(** ** What a request leaves alone *)

Lemma holds_disk (w w' : world) (props : list (string * value)) :
  holds w props -> disk w' = disk w -> holds w' props.
Proof.
  intros (text & Hd & Hp) H. exists text. split; [congruence|exact Hp].
Qed.

Lemma own_scrub_ok (props : list (string * value)) (k : string) :
  json_ok (VObj props) = true -> own (map scrub_prop props) k = own props k.
Proof.
  intros H. rewrite own_scrub. destruct (own props k) as [v|] eqn:E;
    [|reflexivity].
  cbn [option_map]. f_equal.
  now apply json_ok_storable, (json_ok_own _ _ _ H E).
Qed.

Lemma extends_refl (key : option string) (props : list (string * value)) :
  extends key props props.
Proof. now split. Qed.

Lemma redirect_held (w : world) (props : list (string * value))
  (name clientIP now : string) :
  holds w props ->
  exists props',
    holds (snd (redirect name clientIP now w)) props'
    /\ extends (Some name) props props'.
Proof.
  intros Hw. pose proof (holds_json_ok _ _ Hw) as Hok.
  unfold redirect, try_catch, bind.
  rewrite (holds_read _ _ Hw). cbn [index ret].
  destruct (truthy (get_prop props name)) eqn:Ht; cbn [negb];
    [|exists props; split; [exact Hw|apply extends_refl]].
  pose proof (record_visit_world (get_prop props name) clientIP now w)
    as Hsame.
  destruct (record_visit (get_prop props name) clientIP now w)
    as [[rec'| |] w1] eqn:Erv; cbn [snd] in Hsame; subst w1;
    try (exists props; split; [exact Hw|apply extends_refl]).
  destruct (record_visit_result _ _ _ _ _ _ Erv) as (rec & Hget & _ & Hst).
  assert (Hown : own props name = Some (VObj rec)).
  { unfold get_prop in Hget. destruct (own props name); [congruence|].
    destruct (inherited_prop name); discriminate. }
  cbn [update_in_place]. unfold writeDatabase, fs_writeFile.
  destruct (writable w); cbn [snd ret server_error].
  - assert (Hafter : exists props',
               holds (wrote w (VObj (replace_prop props name (VObj rec'))))
                 props'
               /\ extends (Some name) props props');
      [|redirect_sent; exact Hafter].
    exists (map scrub_prop (replace_prop props name (VObj rec'))).
    split; [|split].
    + apply (written_holds w).
      destruct (json_ok_storable _ Hok) as [Hs _].
      apply storable_replace; [exact Hs|].
      apply Hst. eapply storable_own; eassumption.
    + intros k Hk. rewrite own_scrub, own_replace.
      destruct (name =? k)%string eqn:E.
      * apply String.eqb_eq in E. congruence.
      * rewrite <- own_scrub. now apply own_scrub_ok.
    + intros k Hk. rewrite own_scrub, own_replace.
      destruct (name =? k)%string eqn:E.
      * now rewrite Hown.
      * destruct (own props k); [discriminate|congruence].
  - exists props. split; [|apply extends_refl].
    eapply holds_disk; [exact Hw|reflexivity].
Qed.

Lemma shorten_held (URL_parses : string -> bool) (w : world)
  (props : list (string * value)) (url name : option string)
  (clientIP timestamp : string) :
  holds w props ->
  exists props',
    holds (snd (shorten URL_parses url name clientIP timestamp w)) props'
    /\ extends (Some (text_of name)) props props'.
Proof.
  intros Hw. pose proof (holds_json_ok _ _ Hw) as Hok.
  rewrite shorten_unfold. unfold try_catch.
  destruct (blank url || blank name);
    [exists props; split; [exact Hw|apply extends_refl]|].
  destruct (negb (URL_parses (text_of url)));
    [exists props; split; [exact Hw|apply extends_refl]|].
  destruct (negb (name_pattern (text_of name)));
    [exists props; split; [exact Hw|apply extends_refl]|].
  unfold bind. rewrite (holds_read _ _ Hw). cbn [index ret].
  destruct (truthy (get_prop props (text_of name)));
    [exists props; split; [exact Hw|apply extends_refl]|].
  cbn [assign ret]. unfold writeDatabase, fs_writeFile.
  destruct (writable w); cbn [snd ret server_error index].
  - exists (set_prop props (text_of name)
              (new_record (text_of name) (text_of url) clientIP timestamp)).
    split; [|split].
    + apply (wrote_holds w). now apply json_ok_set.
    + intros k Hk. apply own_set_other. congruence.
    + intros k Hk. rewrite own_set_prop.
      now destruct (text_of name =? k)%string.
  - exists props. split; [|apply extends_refl].
    eapply holds_disk; [exact Hw|reflexivity].
Qed.

Lemma serve_held (URL_parses : string -> bool) (q : request) (w : world)
  (props : list (string * value)) :
  holds w props ->
  exists props',
    holds (snd (serve URL_parses q w)) props'
    /\ extends (target_key q) props props'.
Proof.
  intros Hw. destruct q as [url name ip ts|name ip ts|name];
    cbn [serve target_key].
  - now apply shorten_held.
  - now apply redirect_held.
  - exists props. split; [|apply extends_refl].
    rewrite stats_world, readDatabase_present; [exact Hw|].
    destruct Hw as (text & Hd & _). congruence.
Qed.

Lemma serve_all_snd (URL_parses : string -> bool) (q : request)
  (qs : list request) (w : world) :
  snd (serve_all URL_parses (q :: qs) w)
  = snd (serve_all URL_parses qs (snd (serve URL_parses q w))).
Proof.
  cbn [serve_all]. destruct (serve URL_parses q w) as [r w1]. cbn [snd].
  now destruct (serve_all URL_parses qs w1).
Qed.

(** X12.  Whatever requests are served on a store that is an object, in
    whatever order and with whatever outcome: the file still holds an
    object afterwards; a name that no create and no visit request of the
    sequence was for has the value it had, so its statistics are answered
    as before; and no name of the store has been removed. *)
Theorem X12_requests_touch_only_their_name :
  forall (URL_parses : string -> bool) (qs : list request) (w : world)
    (props : list (string * value)),
    holds w props ->
    let w' := snd (serve_all URL_parses qs w) in
    exists props',
      holds w' props'
      /\ (forall k, (forall q, In q qs -> target_key q <> Some k) ->
                    own props' k = own props k
                    /\ fst (stats k w') = fst (stats k w))
      /\ (forall k, own props k <> None -> own props' k <> None).
Proof.
  intros URL_parses qs.
  induction qs as [|q qs IH]; intros w props Hw w'.
  - exists props. split; [exact Hw|]. split; [|auto].
    intros k _. now split.
  - unfold w'. rewrite serve_all_snd.
    destruct (serve_held URL_parses q w props Hw)
      as (props1 & Hw1 & Hother1 & Hkeys1).
    destruct (IH _ _ Hw1) as (props' & Hw2 & Hother & Hkeys).
    exists props'. split; [exact Hw2|]. split.
    + intros k Hk.
      destruct (Hother k) as [Ho Hs];
        [intros q' Hq'; apply Hk; now right|].
      assert (Hk1 : own props1 k = own props k)
        by (apply Hother1, Hk; now left).
      split; [congruence|].
      rewrite Hs, (stats_held _ _ k Hw1), (stats_held _ _ k Hw).
      unfold get_prop. now rewrite Hk1.
    + intros k Hk. now apply Hkeys, Hkeys1.
Qed.

Lemma X12_witness :
  let w' := snd (serve_all sample_URL_parses
                   [ GetName "text-count" "198.51.100.2"
                       "2024-05-01T10:01:00.000Z";
                     PostShorten (Some "https://example.org") (Some "ex2")
                       "203.0.113.7" "2024-05-01T10:02:00.000Z";
                     GetName "plain" "198.51.100.2"
                       "2024-05-01T10:03:00.000Z";
                     GetStats "full" ] odd_world) in
  exists props',
    holds w' props'
    /\ (forall k, (forall q,
                     In q [ GetName "text-count" "198.51.100.2"
                              "2024-05-01T10:01:00.000Z";
                            PostShorten (Some "https://example.org")
                              (Some "ex2") "203.0.113.7"
                              "2024-05-01T10:02:00.000Z";
                            GetName "plain" "198.51.100.2"
                              "2024-05-01T10:03:00.000Z";
                            GetStats "full" ] ->
                     target_key q <> Some k) ->
                  own props' k = own odd_store k
                  /\ fst (stats k w') = fst (stats k odd_world))
    /\ (forall k, own odd_store k <> None -> own props' k <> None).
Proof.
  exact (X12_requests_touch_only_their_name sample_URL_parses _
           odd_world odd_store odd_world_holds).
Defined.

(** ** A store that is [null], and writes that fail *)

(** X13.  A file that holds the JSON text [null] (with or without white
    space around it) is read without error, but every request that gets
    as far as [db[name]] then fails on it: the three routes answer with
    the generic 500 and write nothing. *)
Theorem X13_null_store_is_server_error :
  forall (URL_parses : string -> bool) (w : world) (text : string),
    disk w = Content text -> JSON_parse text = Parsed VNull ->
    readDatabase w = (Ret VNull, w)
    /\ (forall name clientIP now,
          redirect name clientIP now w = (Ret (Failure 500 MSG_SERVER), w))
    /\ (forall name, stats name w = (Ret (Failure 500 MSG_SERVER), w))
    /\ (forall url name clientIP timestamp,
          url <> EmptyString -> URL_parses url = true ->
          name_pattern name = true ->
          shorten URL_parses (Some url) (Some name) clientIP timestamp w
          = (Ret (Failure 500 MSG_SERVER), w)).
Proof.
  intros URL_parses w text Hd Hp.
  assert (Hr : readDatabase w = (Ret VNull, w))
    by (eapply readDatabase_content; eassumption).
  split; [exact Hr|]. split; [|split].
  - intros name clientIP now. unfold redirect, try_catch, bind.
    now rewrite Hr.
  - intros name. unfold stats, try_catch, bind. now rewrite Hr.
  - intros url name clientIP timestamp Hu Hv Hn.
    rewrite shorten_validated by assumption.
    unfold try_catch, bind. now rewrite Hr.
Qed.

Lemma X13_witness :
  stats "ex1" (mkWorld (Content " null ") true [])
  = (Ret (Failure 500 MSG_SERVER), mkWorld (Content " null ") true []).
Proof.
  apply (proj1 (proj2 (proj2
           (X13_null_store_is_server_error sample_URL_parses
              (mkWorld (Content " null ") true []) " null "
              eq_refl eq_refl)))).
Defined.

(** X14.  When the file can not be written, a request that has to write
    answers with the generic 500 and the store stays as it was: a valid
    create of a free name does not create it, a visit of a record is not
    counted and is not redirected although the target is known; and on a
    missing file every request fails, since [readDatabase] can not create
    it.  Each failed request made one attempt to write. *)
Theorem X14_failed_write_is_server_error :
  forall (URL_parses : string -> bool) (w : world),
    writable w = false ->
    (forall props url name clientIP timestamp,
       holds w props ->
       url <> EmptyString -> URL_parses url = true ->
       name_pattern name = true ->
       truthy (get_prop props name) = false ->
       let w' := write_failed w
                   (VObj (set_prop props name
                            (new_record name url clientIP timestamp))) in
       shorten URL_parses (Some url) (Some name) clientIP timestamp w
       = (Ret (Failure 500 MSG_SERVER), w')
       /\ holds w' props)
    /\ (forall props rec name clientIP now count history,
          holds w props ->
          own props name = Some (VObj rec) ->
          own rec "visits" = Some (VNum (NInt count)) ->
          own rec "visit_history" = Some (VArr history) ->
          let w' := write_failed w
                      (VObj (replace_prop props name
                               (VObj (visited_with rec
                                        (VNum (NInt (succ_double count)))
                                        history clientIP now)))) in
          redirect name clientIP now w = (Ret (Failure 500 MSG_SERVER), w')
          /\ holds w' props)
    /\ (disk w = Absent ->
        let w' := mkWorld Absent false ("{}" :: writes w) in
        (forall name clientIP now,
           redirect name clientIP now w
           = (Ret (Failure 500 MSG_SERVER), w'))
        /\ (forall name, stats name w = (Ret (Failure 500 MSG_SERVER), w'))
        /\ (forall url name clientIP timestamp,
              url <> EmptyString -> URL_parses url = true ->
              name_pattern name = true ->
              shorten URL_parses (Some url) (Some name) clientIP timestamp w
              = (Ret (Failure 500 MSG_SERVER), w'))).
Proof.
  intros URL_parses w Hwr. split; [|split].
  - intros props url name clientIP timestamp Hw Hu Hv Hn Ht w'.
    split; [|eapply holds_disk; [exact Hw|reflexivity]].
    rewrite shorten_validated by assumption.
    unfold try_catch, bind. rewrite (holds_read _ _ Hw). cbn [index ret].
    rewrite Ht. cbn [assign ret]. unfold writeDatabase, fs_writeFile.
    now rewrite Hwr.
  - intros props rec name clientIP now count history Hw Hn Hv Hh w'.
    split; [|eapply holds_disk; [exact Hw|reflexivity]].
    rewrite (redirect_run w props rec name clientIP now
               (VNum (NInt (succ_double count))) history);
      try assumption.
    + now rewrite Hwr.
    + unfold get_prop. now rewrite Hv.
  - intros Hd w'.
    assert (Hr : readDatabase w = (Throw E_IO, w')).
    { unfold readDatabase, try_catch, bind, fs_readFile, fs_writeFile.
      rewrite Hd, Hwr. unfold w'. now rewrite Hd. }
    split; [|split].
    + intros name clientIP now. unfold redirect, try_catch, bind.
      now rewrite Hr.
    + intros name. unfold stats, try_catch, bind. now rewrite Hr.
    + intros url name clientIP timestamp Hu Hv Hn.
      rewrite shorten_validated by assumption.
      unfold try_catch, bind. now rewrite Hr.
Qed.

Lemma X14_witness :
  let w := mkWorld (disk sample_world) false [] in
  redirect "ex1" "198.51.100.2" "2024-05-01T10:01:00.000Z" w
  = (Ret (Failure 500 MSG_SERVER),
     write_failed w
       (VObj (replace_prop sample_store "ex1"
                (VObj (visited_with sample_fields (VNum (NInt 1)) []
                         "198.51.100.2" "2024-05-01T10:01:00.000Z")))))
  /\ stats "ex1" (mkWorld Absent false [])
     = (Ret (Failure 500 MSG_SERVER), mkWorld Absent false ["{}"]).
Proof.
  split.
  - apply (proj1 (proj1 (proj2
             (X14_failed_write_is_server_error sample_URL_parses
                (mkWorld (disk sample_world) false []) eq_refl))
             sample_store sample_fields "ex1" "198.51.100.2"
             "2024-05-01T10:01:00.000Z" 0 []
             (holds_disk _ _ _ sample_world_holds eq_refl)
             eq_refl eq_refl eq_refl)).
  - apply (proj1 (proj2 (proj2 (proj2
             (X14_failed_write_is_server_error sample_URL_parses
                (mkWorld Absent false []) eq_refl)) eq_refl))).
Defined.

(** ** The answers of the routes *)

Lemma add_one_visits_modelled (rec : list (string * value)) (w : world) :
  fst (add_one (get_prop rec "visits") w) <> Unmodelled.
Proof.
  pose proof (get_visits_not_inherited rec) as Hi.
  unfold add_one, ret, throw, unmodelled.
  destruct (get_prop rec "visits") as [|[|b|[z|]|s|l|o]|p];
    cbn [fst]; try discriminate.
  - destruct (to_string (VArr l)); discriminate.
  - destruct (to_string (VObj o)); discriminate.
  - now destruct (Hi p).
Qed.

Lemma res_redirect_modelled (rec : list (string * value)) (w : world) :
  fst (res_redirect (get_prop rec "web_target") w) <> Unmodelled.
Proof.
  unfold res_redirect, get_prop, ret, throw.
  destruct (own rec "web_target") as [v|]; cbn [inherited_prop];
    [|discriminate].
  now destruct (to_string v).
Qed.

Lemma record_visit_modelled (x : jsval) (clientIP now : string) (w : world) :
  fst (record_visit x clientIP now w) <> Unmodelled.
Proof.
  unfold record_visit, throw.
  destruct x as [|[|b|n|s|l|rec]|p]; try discriminate.
  unfold bind.
  pose proof (add_one_visits_modelled rec w) as Ha.
  destruct (add_one (get_prop rec "visits") w) as [[v| |] w1];
    cbn [fst] in *; try discriminate; [|congruence].
  destruct (get_prop (set_prop rec "visits" v) "visit_history")
    as [|[|b|n|s|l|o]|p]; discriminate.
Qed.

Ltac answered E := cbn in E; injection E as <- <-; tauto.

(** X15.  No exception leaves a handler, and the answers of each route
    form a closed list: [POST /shorten] answers with one of its four 400
    messages, the generic 500, or 200 with exactly the record built from
    the request; [GET /:name] with a redirect, 404 or the generic 500;
    [GET /api/stats/:name] with 200 and a truthy value, 404 or the
    generic 500.  On a store that is an object every request is
    answered. *)
Theorem X15_answers_of_the_routes :
  forall (URL_parses : string -> bool) (w : world),
    (forall url name clientIP timestamp,
       let a := fst (shorten URL_parses url name clientIP timestamp w) in
       a = Unmodelled
       \/ a = Ret (Failure 400 MSG_EMPTY)
       \/ a = Ret (Failure 400 MSG_URL)
       \/ a = Ret (Failure 400 MSG_NAME)
       \/ a = Ret (Failure 400 MSG_TAKEN)
       \/ a = Ret (Failure 500 MSG_SERVER)
       \/ a = Ret (Created MSG_CREATED
                     (Data (new_record (text_of name) (text_of url)
                              clientIP timestamp))))
    /\ (forall name clientIP now,
          let a := fst (redirect name clientIP now w) in
          a = Unmodelled
          \/ a = Ret (Failure 404 MSG_NOT_FOUND)
          \/ a = Ret (Failure 500 MSG_SERVER)
          \/ exists target, a = Ret (Redirect target))
    /\ (forall name,
          let a := fst (stats name w) in
          a = Unmodelled
          \/ a = Ret (Failure 404 MSG_NOT_FOUND)
          \/ a = Ret (Failure 500 MSG_SERVER)
          \/ exists data, a = Ret (Stats data) /\ truthy data = true)
    /\ (forall props q,
          holds w props -> fst (serve URL_parses q w) <> Unmodelled).
Proof.
  intros URL_parses w. split; [|split; [|split]].
  - intros url name clientIP timestamp. cbv zeta.
    destruct (shorten URL_parses url name clientIP timestamp w)
      as [a w'] eqn:E. cbn [fst].
    rewrite shorten_unfold in E. unfold try_catch in E.
    destruct (blank url || blank name); [answered E|].
    destruct (negb (URL_parses (text_of url))); [answered E|].
    destruct (negb (name_pattern (text_of name))); [answered E|].
    unfold bind at 1 in E.
    destruct (readDatabase w) as [[db| |] w1]; try answered E.
    destruct db as [|b|n|s|l|props]; try answered E.
    unfold bind in E; cbn [index assign ret] in E.
    destruct (truthy (get_prop props (text_of name))); [answered E|].
    destruct (writeDatabase_result
                (VObj (set_prop props (text_of name)
                         (new_record (text_of name) (text_of url)
                            clientIP timestamp))) w1)
      as [[w2 E2]|[w2 E2]]; rewrite E2 in E; [|answered E].
    unfold get_prop in E. rewrite own_set_prop, String.eqb_refl in E.
    answered E.
  - intros name clientIP now. cbv zeta.
    destruct (redirect name clientIP now w) as [a w'] eqn:E. cbn [fst].
    unfold redirect, try_catch in E. unfold bind at 1 in E.
    destruct (readDatabase w) as [[db| |] w1]; try answered E.
    destruct db as [|b|n|s|l|props]; try answered E.
    unfold bind at 1 in E; cbn [index ret] in E.
    destruct (negb (truthy (get_prop props name))); [answered E|].
    unfold bind at 1 in E.
    destruct (record_visit (get_prop props name) clientIP now w1)
      as [[rec'| |] w2]; try answered E.
    unfold bind in E.
    destruct (writeDatabase_result
                (update_in_place (VObj props) name rec') w2)
      as [[w3 E3]|[w3 E3]]; rewrite E3 in E; [|answered E].
    redirect_sent_in E; injection E as <- <-; [|tauto|tauto].
    right. right. right. eauto.
  - intros name. cbv zeta.
    destruct (stats name w) as [a w'] eqn:E. cbn [fst].
    unfold stats, try_catch in E. unfold bind at 1 in E.
    destruct (readDatabase w) as [[db| |] w1]; try answered E.
    destruct db as [|b|n|s|l|props]; try answered E.
    unfold bind in E; cbn [index ret] in E.
    destruct (truthy (get_prop props name)) eqn:Ht; [|answered E].
    cbn in E. injection E as <- <-. right. right. right. eauto.
  - intros props q Hw.
    destruct q as [url name clientIP timestamp|name clientIP now|name];
      cbn [serve].
    + rewrite shorten_unfold. unfold try_catch.
      destruct (blank url || blank name); [discriminate|].
      destruct (negb (URL_parses (text_of url)));
        [discriminate|].
      destruct (negb (name_pattern (text_of name))); [discriminate|].
      unfold bind. rewrite (holds_read _ _ Hw). cbn [index ret].
      destruct (truthy (get_prop props (text_of name))); [discriminate|].
      cbn [assign ret].
      destruct (writeDatabase_result
                  (VObj (set_prop props (text_of name)
                           (new_record (text_of name) (text_of url)
                              clientIP timestamp))) w)
        as [[w2 E]|[w2 E]]; rewrite E; discriminate.
    + unfold redirect, try_catch, bind.
      rewrite (holds_read _ _ Hw). cbn [index ret].
      destruct (negb (truthy (get_prop props name))); [discriminate|].
      pose proof (record_visit_modelled (get_prop props name) clientIP now w)
        as Hm.
      destruct (record_visit (get_prop props name) clientIP now w)
        as [[rec'| |] w2]; cbn [fst] in Hm; try discriminate;
        [|congruence].
      destruct (writeDatabase_result
                  (update_in_place (VObj props) name rec') w2)
        as [[w3 E]|[w3 E]]; rewrite E; [|discriminate].
      pose proof (res_redirect_modelled rec' w3) as Hr.
      destruct (res_redirect (get_prop rec' "web_target") w3)
        as [[r1| |] w4]; cbn [fst] in Hr; try discriminate.
      congruence.
    + rewrite (stats_held _ _ _ Hw). discriminate.
Qed.

Lemma X15_witness :
  fst (serve sample_URL_parses
         (GetName "plain" "198.51.100.2" "2024-05-01T10:01:00.000Z")
         odd_world)
  <> Unmodelled.
Proof.
  apply (proj2 (proj2 (proj2
           (X15_answers_of_the_routes sample_URL_parses odd_world)))
           odd_store
           (GetName "plain" "198.51.100.2" "2024-05-01T10:01:00.000Z")
           odd_world_holds).
Defined.

(** ** What is written *)

Lemma loadable_empty_object : loadable "{}".
Proof. exists []. reflexivity. Qed.

Lemma loadable_stringify (props : list (string * value)) :
  storable (VObj props) = true -> loadable (JSON_stringify (VObj props)).
Proof.
  intros H. exists (map scrub_prop props). now rewrite JSON_parse_stringify.
Qed.

Lemma writeDatabase_writes (db : value) (w : world) :
  writes (snd (writeDatabase db w)) = JSON_stringify db :: writes w.
Proof. unfold writeDatabase, fs_writeFile. now destruct (writable w). Qed.

(** What [readDatabase] writes: nothing, or the text of the empty object
    on a missing file. *)
Lemma readDatabase_log (w w1 : world) (r : result value) :
  readDatabase w = (r, w1) ->
  (forall db, r = Ret db -> json_ok db = true)
  /\ exists pre,
       writes w1 = (pre ++ writes w)%list
       /\ (pre = [] \/ (pre = ["{}"] /\ disk w = Absent)).
Proof.
  intros E. split.
  - intros db ->. now destruct (readDatabase_view _ _ _ E) as [_ H];
      destruct (H db eq_refl).
  - destruct (disk w) as [| |text] eqn:Hd.
    + exists ["{}"]. split; [|now right].
      unfold readDatabase, try_catch, bind, fs_readFile, fs_writeFile in E.
      rewrite Hd in E. destruct (writable w); now injection E as <- <-.
    + exists []. split; [|now left].
      pose proof (readDatabase_present w) as Hp. rewrite E in Hp.
      cbn [snd] in Hp. rewrite Hp; [reflexivity|congruence].
    + exists []. split; [|now left].
      pose proof (readDatabase_present w) as Hp. rewrite E in Hp.
      cbn [snd] in Hp. rewrite Hp; [reflexivity|congruence].
Qed.

(** The texts of one request: those of [readDatabase], then at most one
    more. *)
Lemma log_bound (w : world) (pre ts : list string) :
  pre = [] \/ (pre = ["{}"] /\ disk w = Absent) ->
  (length ts <= 1)%nat -> Forall loadable ts ->
  (length (ts ++ pre) <= 2)%nat
  /\ (disk w <> Absent -> (length (ts ++ pre) <= 1)%nat)
  /\ Forall loadable (ts ++ pre)%list.
Proof.
  intros Hpre Hlen Hts. rewrite length_app.
  destruct Hpre as [->|[-> Hd]]; cbn [length].
  - rewrite app_nil_r. repeat split; try lia. exact Hts.
  - repeat split; try lia; [congruence|].
    apply Forall_app. split; [exact Hts|].
    constructor; [apply loadable_empty_object|constructor].
Qed.

Lemma shorten_log (URL_parses : string -> bool) (url name : option string)
  (clientIP timestamp : string) (w w' : world) (a : result response) :
  shorten URL_parses url name clientIP timestamp w = (a, w') ->
  exists new,
    writes w' = (new ++ writes w)%list
    /\ (length new <= 2)%nat
    /\ (disk w <> Absent -> (length new <= 1)%nat)
    /\ Forall loadable new.
Proof.
  intros E. rewrite shorten_unfold in E. unfold try_catch in E.
  assert (Hnone : forall pre,
             writes w' = (pre ++ writes w)%list ->
             pre = [] \/ (pre = ["{}"] /\ disk w = Absent) ->
             exists new,
               writes w' = (new ++ writes w)%list
               /\ (length new <= 2)%nat
               /\ (disk w <> Absent -> (length new <= 1)%nat)
               /\ Forall loadable new).
  { intros pre Hlog Hpre. exists ([] ++ pre)%list. split; [exact Hlog|].
    apply log_bound; [exact Hpre|cbn; lia|constructor]. }
  destruct (blank url || blank name);
    [injection E as <- <-; now apply (Hnone []); [|left]|].
  destruct (negb (URL_parses (text_of url)));
    [injection E as <- <-; now apply (Hnone []); [|left]|].
  destruct (negb (name_pattern (text_of name)));
    [injection E as <- <-; now apply (Hnone []); [|left]|].
  unfold bind at 1 in E.
  destruct (readDatabase w) as [r w1] eqn:Er.
  destruct (readDatabase_log _ _ _ Er) as (Hok & pre & Hlog & Hpre).
  destruct r as [db| |];
    try (cbn in E; injection E as <- <-; now apply (Hnone pre)).
  specialize (Hok db eq_refl).
  destruct db as [|b|n|s|l|props];
    try (cbn in E; injection E as <- <-; now apply (Hnone pre)).
  unfold bind at 1 in E. cbn [index ret] in E.
  destruct (truthy (get_prop props (text_of name)));
    [cbn in E; injection E as <- <-; now apply (Hnone pre)|].
  unfold bind at 1 in E. cbn [assign ret] in E.
  set (db' := VObj (set_prop props (text_of name)
                      (new_record (text_of name) (text_of url)
                         clientIP timestamp))) in E.
  assert (Hst : storable db' = true).
  { apply json_ok_storable. unfold db'. now apply json_ok_set. }
  pose proof (writeDatabase_writes db' w1) as Hwrite.
  unfold bind at 1 in E.
  assert (Hw' : writes w' = JSON_stringify db' :: writes w1).
  { destruct (writeDatabase_result db' w1) as [[w2 E2]|[w2 E2]];
      rewrite E2 in E, Hwrite; cbn [snd] in Hwrite;
      unfold bind in E; cbn [index ret server_error] in E;
      now injection E as <- <-. }
  exists ([JSON_stringify db'] ++ pre)%list. split.
  - rewrite Hw', Hlog. reflexivity.
  - apply log_bound; [exact Hpre|cbn; lia|].
    constructor; [now apply loadable_stringify|constructor].
Qed.

Lemma redirect_log (name clientIP now : string) (w w' : world)
  (a : result response) :
  redirect name clientIP now w = (a, w') ->
  exists new,
    writes w' = (new ++ writes w)%list
    /\ (length new <= 2)%nat
    /\ (disk w <> Absent -> (length new <= 1)%nat)
    /\ Forall loadable new.
Proof.
  intros E. unfold redirect, try_catch in E.
  unfold bind at 1 in E.
  destruct (readDatabase w) as [r w1] eqn:Er.
  destruct (readDatabase_log _ _ _ Er) as (Hok & pre & Hlog & Hpre).
  assert (Hnone : writes w' = writes w1 ->
             exists new,
               writes w' = (new ++ writes w)%list
               /\ (length new <= 2)%nat
               /\ (disk w <> Absent -> (length new <= 1)%nat)
               /\ Forall loadable new).
  { intros Hsame. exists ([] ++ pre)%list.
    split; [now rewrite Hsame, Hlog|].
    apply log_bound; [exact Hpre|cbn; lia|constructor]. }
  destruct r as [db| |];
    try (cbn in E; injection E as <- <-; now apply Hnone).
  specialize (Hok db eq_refl).
  destruct db as [|b|n|s|l|props];
    try (cbn in E; injection E as <- <-; now apply Hnone).
  unfold bind at 1 in E. cbn [index ret] in E.
  destruct (negb (truthy (get_prop props name)));
    [cbn in E; injection E as <- <-; now apply Hnone|].
  unfold bind at 1 in E.
  pose proof (record_visit_world (get_prop props name) clientIP now w1)
    as Hsame.
  destruct (record_visit (get_prop props name) clientIP now w1)
    as [[rec'| |] w2] eqn:Erv; cbn [snd] in Hsame; subst w2;
    try (cbn in E; injection E as <- <-; now apply Hnone).
  destruct (record_visit_result _ _ _ _ _ _ Erv) as (rec & Hget & _ & Hst).
  assert (Hown : own props name = Some (VObj rec)).
  { unfold get_prop in Hget. destruct (own props name); [congruence|].
    destruct (inherited_prop name); discriminate. }
  cbn [update_in_place] in E.
  set (db' := VObj (replace_prop props name (VObj rec'))) in E.
  assert (Hst' : storable db' = true).
  { destruct (json_ok_storable _ Hok) as [Hs _].
    apply storable_replace; [exact Hs|].
    apply Hst. eapply storable_own; eassumption. }
  pose proof (writeDatabase_writes db' w1) as Hwrite.
  unfold bind at 1 in E.
  assert (Hw' : writes w' = JSON_stringify db' :: writes w1).
  { destruct (writeDatabase_result db' w1) as [[w2 E2]|[w2 E2]];
      rewrite E2 in E, Hwrite; cbn [snd] in Hwrite;
      cbn [ret server_error] in E;
      [redirect_sent_in E|]; now injection E as <- <-. }
  exists ([JSON_stringify db'] ++ pre)%list. split.
  - rewrite Hw', Hlog. reflexivity.
  - apply log_bound; [exact Hpre|cbn; lia|].
    constructor; [now apply loadable_stringify|constructor].
Qed.

Lemma stats_log (name : string) (w : world) :
  exists new,
    writes (snd (stats name w)) = (new ++ writes w)%list
    /\ (length new <= 2)%nat
    /\ (disk w <> Absent -> (length new <= 1)%nat)
    /\ Forall loadable new.
Proof.
  rewrite stats_world.
  destruct (readDatabase w) as [r w1] eqn:Er.
  destruct (readDatabase_log _ _ _ Er) as (_ & pre & Hlog & Hpre).
  exists ([] ++ pre)%list. split; [exact Hlog|].
  apply log_bound; [exact Hpre|cbn; lia|constructor].
Qed.

(** What [readDatabase] returns when the file is missing, unreadable,
    empty, not a JSON text, or the text of [null] or of an object. *)
Lemma readDatabase_plain (w w1 : world) (r : result value) :
  disk w = Absent \/ disk w = Unreadable
  \/ (exists text,
        disk w = Content text
        /\ (text = EmptyString \/ JSON_parse text = SyntaxError
            \/ JSON_parse text = Parsed VNull \/ loadable text)) ->
  readDatabase w = (r, w1) ->
  r <> Unmodelled
  /\ (forall db, r = Ret db -> db = VNull \/ exists props, db = VObj props).
Proof.
  intros H E.
  assert (Hcontent : forall text db,
             disk w = Content text -> JSON_parse text = Parsed db ->
             db = VNull \/ (exists props, db = VObj props) ->
             r <> Unmodelled
             /\ (forall db', r = Ret db' ->
                             db' = VNull \/ exists props, db' = VObj props)).
  { intros text db Hd Hp Hdb.
    rewrite (readDatabase_content w text db Hd Hp) in E.
    injection E as <- <-. split; [discriminate|].
    now intros db' [= <-]. }
  destruct H as [Hd|[Hd|(text & Hd & Ht)]].
  - unfold readDatabase, try_catch, bind, fs_readFile, fs_writeFile in E.
    rewrite Hd in E. destruct (writable w); injection E as <- <-;
      (split; [discriminate|]); [|discriminate].
    intros db [= <-]. right. now exists [].
  - unfold readDatabase, try_catch, bind, fs_readFile in E.
    rewrite Hd in E. injection E as <- <-. now split.
  - assert (Hfail : text = EmptyString \/ JSON_parse text = SyntaxError ->
               r <> Unmodelled
               /\ (forall db, r = Ret db ->
                              db = VNull \/ exists props, db = VObj props)).
    { intros Hs.
      unfold readDatabase, try_catch, bind, fs_readFile, JSON_parse_M in E.
      rewrite Hd in E. destruct text as [|c t].
      - cbn in E. injection E as <- <-. split; [discriminate|].
        intros db [= <-]. right. now exists [].
      - destruct Hs as [Hs|Hs]; [discriminate Hs|].
        rewrite Hs in E. cbn in E. injection E as <- <-. now split. }
    destruct Ht as [Ht|[Ht|[Ht|(props & Ht)]]]; auto.
    + apply (Hcontent text VNull Hd Ht). now left.
    + apply (Hcontent text (VObj props) Hd Ht). right. now exists props.
Qed.

(** On such a file every request is answered. *)
Lemma serve_answered (URL_parses : string -> bool) (q : request)
  (w : world) :
  (forall r w1, readDatabase w = (r, w1) ->
     r <> Unmodelled
     /\ (forall db, r = Ret db -> db = VNull \/ exists props, db = VObj props))
  -> fst (serve URL_parses q w) <> Unmodelled.
Proof.
  intros Hread.
  destruct (readDatabase w) as [r w1] eqn:Er.
  destruct (Hread r w1 eq_refl) as [Hr Hdb].
  destruct q as [url name clientIP timestamp|name clientIP now|name];
    cbn [serve].
  - rewrite shorten_unfold. unfold try_catch.
    destruct (blank url || blank name); [discriminate|].
    destruct (negb (URL_parses (text_of url))); [discriminate|].
    destruct (negb (name_pattern (text_of name))); [discriminate|].
    unfold bind at 1. rewrite Er.
    destruct r as [db| |]; [|discriminate|congruence].
    destruct (Hdb db eq_refl) as [->|[props ->]]; [discriminate|].
    unfold bind. cbn [index ret].
    destruct (truthy (get_prop props (text_of name))); [discriminate|].
    cbn [assign ret].
    destruct (writeDatabase_result
                (VObj (set_prop props (text_of name)
                         (new_record (text_of name) (text_of url)
                            clientIP timestamp))) w1)
      as [[w2 E]|[w2 E]]; rewrite E; discriminate.
  - unfold redirect, try_catch. unfold bind at 1. rewrite Er.
    destruct r as [db| |]; [|discriminate|congruence].
    destruct (Hdb db eq_refl) as [->|[props ->]]; [discriminate|].
    unfold bind. cbn [index ret].
    destruct (negb (truthy (get_prop props name))); [discriminate|].
    pose proof (record_visit_modelled (get_prop props name) clientIP now w1)
      as Hm.
    destruct (record_visit (get_prop props name) clientIP now w1)
      as [[rec'| |] w2]; cbn [fst] in Hm; try discriminate;
      [|congruence].
    destruct (writeDatabase_result
                (update_in_place (VObj props) name rec') w2)
      as [[w3 E]|[w3 E]]; rewrite E; [|discriminate].
    pose proof (res_redirect_modelled rec' w3) as Hs.
    destruct (res_redirect (get_prop rec' "web_target") w3)
      as [[r1| |] w4]; cbn [fst] in Hs; try discriminate.
    congruence.
  - unfold stats, try_catch. unfold bind at 1. rewrite Er.
    destruct r as [db| |]; [|discriminate|congruence].
    destruct (Hdb db eq_refl) as [->|[props ->]]; [discriminate|].
    unfold bind. cbn [index ret].
    destruct (negb (truthy (get_prop props name))); discriminate.
Qed.

(** X16.  What the requests write can be read.  When the file is
    missing, unreadable, empty, not a JSON text, or the text of [null] or
    of an object, every request is answered, and every text it writes, or
    tries to write, to the file is the text of an object that
    [JSON.parse] accepts; a request writes at most once when the file
    exists, at most twice when it is missing. *)
Theorem X16_written_texts_are_loadable :
  forall (URL_parses : string -> bool) (q : request) (w : world),
    disk w = Absent \/ disk w = Unreadable
    \/ (exists text,
          disk w = Content text
          /\ (text = EmptyString \/ JSON_parse text = SyntaxError
              \/ JSON_parse text = Parsed VNull
              \/ exists props, JSON_parse text = Parsed (VObj props))) ->
    fst (serve URL_parses q w) <> Unmodelled
    /\ exists new,
         writes (snd (serve URL_parses q w)) = (new ++ writes w)%list
         /\ (length new <= 2)%nat
         /\ (disk w <> Absent -> (length new <= 1)%nat)
         /\ Forall (fun text =>
                      exists props, JSON_parse text = Parsed (VObj props))
              new.
Proof.
  intros URL_parses q w Hfile. split.
  - apply serve_answered. intros r w1 E.
    now apply (readDatabase_plain w w1 r Hfile).
  - destruct q as [url name clientIP timestamp|name clientIP now|name];
      cbn [serve].
    + destruct (shorten URL_parses url name clientIP timestamp w)
        as [a w'] eqn:E. eapply shorten_log; eassumption.
    + destruct (redirect name clientIP now w) as [a w'] eqn:E.
      eapply redirect_log; eassumption.
    + apply stats_log.
Qed.

Lemma X16_witness :
  fst (serve sample_URL_parses
         (GetName "no-count" "198.51.100.2" "2024-05-01T10:01:00.000Z")
         odd_world)
  <> Unmodelled
  /\ exists new,
       writes (snd (serve sample_URL_parses
                      (GetName "no-count" "198.51.100.2"
                         "2024-05-01T10:01:00.000Z") odd_world))
       = (new ++ writes odd_world)%list
       /\ (length new <= 2)%nat
       /\ (disk odd_world <> Absent -> (length new <= 1)%nat)
       /\ Forall (fun text =>
                    exists props, JSON_parse text = Parsed (VObj props))
            new.
Proof.
  apply (X16_written_texts_are_loadable sample_URL_parses
           (GetName "no-count" "198.51.100.2" "2024-05-01T10:01:00.000Z")
           odd_world).
  right. right. exists (JSON_stringify (VObj odd_store)).
  split; [reflexivity|]. right. right. right.
  exists odd_store. vm_compute. reflexivity.
Defined.

(** ** Names *)

Lemma inherited_cases (name : string) :
  inherited_prop name = true -> In name Object_prototype_props.
Proof.
  unfold inherited_prop. intros H. apply existsb_exists in H.
  destruct H as (x & Hin & Hx). apply String.eqb_eq in Hx. now subst x.
Qed.

Lemma reserved_iff (name : string) :
  name_pattern name = true ->
  inherited_prop name = true <-> In name reserved_names.
Proof.
  intros Hp. split.
  - intros H. apply inherited_cases in H.
    unfold Object_prototype_props in H. cbn [In] in H.
    unfold reserved_names. cbn [In].
    repeat (destruct H as [H|H];
            [subst name; first [discriminate Hp|tauto]|]).
    destruct H.
  - unfold reserved_names. cbn [In]. intros H.
    repeat (destruct H as [H|H]; [now subst name|]).
    destruct H.
Qed.

(** X17.  Among the names that match the pattern, exactly seven can not
    be created on a store that does not have them: [constructor],
    [hasOwnProperty], [isPrototypeOf], [propertyIsEnumerable],
    [toString], [valueOf] and [toLocaleString], which every object
    inherits.  For these a valid create request is refused as "name
    taken" and a visit fails with the generic 500; every other name that
    is not a key is created. *)
Theorem X17_seven_names_are_never_free :
  forall (URL_parses : string -> bool) (w : world)
    (props : list (string * value)) (url name clientIP timestamp : string),
    holds w props -> writable w = true ->
    url <> EmptyString -> URL_parses url = true ->
    name_pattern name = true ->
    own props name = None ->
    (In name reserved_names ->
     shorten URL_parses (Some url) (Some name) clientIP timestamp w
     = (Ret (Failure 400 MSG_TAKEN), w)
     /\ redirect name clientIP timestamp w
        = (Ret (Failure 500 MSG_SERVER), w))
    /\ (~ In name reserved_names ->
        fst (shorten URL_parses (Some url) (Some name) clientIP timestamp w)
        = Ret (Created MSG_CREATED
                 (Data (new_record name url clientIP timestamp)))
        /\ redirect name clientIP timestamp w
           = (Ret (Failure 404 MSG_NOT_FOUND), w)).
Proof.
  intros URL_parses w props url name clientIP timestamp
    Hw Hwr Hu Hv Hp Hown.
  pose proof (reserved_iff name Hp) as Hiff. split.
  - intros Hin. apply Hiff in Hin.
    assert (Hget : get_prop props name = Inherited name)
      by (unfold get_prop; now rewrite Hown, Hin).
    split.
    + eapply shorten_taken; try eassumption. now rewrite Hget.
    + unfold redirect, try_catch, bind.
      rewrite (holds_read _ _ Hw). cbn [index ret]. now rewrite Hget.
  - intros Hout.
    assert (Hi : inherited_prop name = false).
    { destruct (inherited_prop name); [|reflexivity].
      exfalso. now apply Hout, Hiff. }
    pose proof (get_prop_absent _ _ Hown Hi) as Ht.
    split.
    + destruct (shorten_creates URL_parses url name clientIP timestamp
                  w props Hu Hv Hp Hw Hwr Ht) as (Hrun & _).
      now rewrite Hrun.
    + unfold redirect, try_catch, bind.
      rewrite (holds_read _ _ Hw). cbn [index ret]. now rewrite Ht.
Qed.

Lemma X17_witness :
  shorten sample_URL_parses (Some "https://example.org")
    (Some "toLocaleString") "203.0.113.7" "2024-05-01T11:00:00.000Z"
    sample_world
  = (Ret (Failure 400 MSG_TAKEN), sample_world)
  /\ fst (shorten sample_URL_parses (Some "https://example.org")
            (Some "tostring") "203.0.113.7" "2024-05-01T11:00:00.000Z"
            sample_world)
     = Ret (Created MSG_CREATED
              (Data (new_record "tostring" "https://example.org"
                       "203.0.113.7" "2024-05-01T11:00:00.000Z"))).
Proof.
  split.
  - apply (proj1 (proj1
             (X17_seven_names_are_never_free sample_URL_parses
                sample_world sample_store "https://example.org"
                "toLocaleString" "203.0.113.7" "2024-05-01T11:00:00.000Z"
                sample_world_holds eq_refl ltac:(discriminate)
                eq_refl eq_refl eq_refl)
             ltac:(cbn; tauto))).
  - apply (proj1 (proj2
             (X17_seven_names_are_never_free sample_URL_parses
                sample_world sample_store "https://example.org"
                "tostring" "203.0.113.7" "2024-05-01T11:00:00.000Z"
                sample_world_holds eq_refl ltac:(discriminate)
                eq_refl eq_refl eq_refl)
             ltac:(cbn; intuition discriminate))).
Defined.

Lemma index_not_inherited (name : string) (i : N) :
  array_index name = Some i -> inherited_prop name = false.
Proof.
  intros H. destruct (inherited_prop name) eqn:E; [|reflexivity].
  apply inherited_cases in E. unfold Object_prototype_props in E.
  cbn [In] in E.
  repeat (destruct E as [E|E]; [subst name; discriminate H|]).
  destruct E.
Qed.

Lemma insert_index_first (props : list (string * value)) (i : N)
  (k : string) (v : value) :
  forallb (fun k' => negb (is_index k')) (map fst props) = true ->
  insert_index props i k v = (k, v) :: props.
Proof.
  destruct props as [|[k' v'] rest]; [reflexivity|].
  cbn [map fst forallb insert_index]. unfold is_index.
  destruct (array_index k'); [discriminate|reflexivity].
Qed.

(** X18.  The file does not keep the names in the order of their
    creation.  A new name that is a canonical array index (digits without
    a leading zero, at most 4294967294), which the pattern allows, is
    written before the names that are not: on a store with no such name
    it becomes the first key.  Any other new name becomes the last
    key. *)
Theorem X18_numeric_names_come_first :
  forall (URL_parses : string -> bool) (w : world)
    (props : list (string * value)) (url name clientIP timestamp : string),
    holds w props -> writable w = true ->
    url <> EmptyString -> URL_parses url = true ->
    name_pattern name = true ->
    own props name = None ->
    let rec := new_record name url clientIP timestamp in
    let w' := snd (shorten URL_parses (Some url) (Some name)
                     clientIP timestamp w) in
    (forall i, array_index name = Some i ->
               forallb (fun k => negb (is_index k)) (map fst props) = true ->
               w' = wrote w (VObj ((name, rec) :: props))
               /\ holds w' ((name, rec) :: props))
    /\ (array_index name = None -> inherited_prop name = false ->
        w' = wrote w (VObj (props ++ [(name, rec)]))
        /\ holds w' (props ++ [(name, rec)])).
Proof.
  intros URL_parses w props url name clientIP timestamp
    Hw Hwr Hu Hv Hp Hown rec w'.
  assert (Hrun : inherited_prop name = false ->
             w' = wrote w (VObj (set_prop props name rec))
             /\ holds w' (set_prop props name rec)).
  { intros Hi. unfold w'.
    destruct (shorten_creates URL_parses url name clientIP timestamp
                w props Hu Hv Hp Hw Hwr (get_prop_absent _ _ Hown Hi))
      as (Hrun & Hholds & _).
    rewrite Hrun. now split. }
  split.
  - intros i Hi Hnames.
    replace ((name, rec) :: props) with (set_prop props name rec).
    + apply Hrun. eapply index_not_inherited; eassumption.
    + unfold set_prop. rewrite Hown, Hi. now apply insert_index_first.
  - intros Hi Hinh.
    replace (props ++ [(name, rec)])%list with (set_prop props name rec).
    + now apply Hrun.
    + unfold set_prop. now rewrite Hown, Hi.
Qed.

Lemma X18_witness :
  snd (shorten sample_URL_parses (Some "https://example.org") (Some "7")
         "203.0.113.7" "2024-05-01T11:00:00.000Z" sample_world)
  = wrote sample_world
      (VObj (("7", new_record "7" "https://example.org" "203.0.113.7"
                     "2024-05-01T11:00:00.000Z") :: sample_store))
  /\ snd (shorten sample_URL_parses (Some "https://example.org")
            (Some "007") "203.0.113.7" "2024-05-01T11:00:00.000Z"
            sample_world)
     = wrote sample_world
         (VObj (sample_store
                ++ [("007", new_record "007" "https://example.org"
                              "203.0.113.7" "2024-05-01T11:00:00.000Z")])).
Proof.
  split.
  - apply (proj1 (proj1
             (X18_numeric_names_come_first sample_URL_parses sample_world
                sample_store "https://example.org" "7" "203.0.113.7"
                "2024-05-01T11:00:00.000Z" sample_world_holds eq_refl
                ltac:(discriminate) eq_refl eq_refl eq_refl)
             7%N eq_refl eq_refl)).
  - apply (proj1 (proj2
             (X18_numeric_names_come_first sample_URL_parses sample_world
                sample_store "https://example.org" "007" "203.0.113.7"
                "2024-05-01T11:00:00.000Z" sample_world_holds eq_refl
                ltac:(discriminate) eq_refl eq_refl eq_refl)
             eq_refl eq_refl)).
Defined.

(** ** Values that are not texts *)

Lemma stuck_world_holds : holds stuck_world stuck_store.
Proof. eexists. split; [reflexivity|]. vm_compute. reflexivity. Qed.

(** X19.  The visit is written before the redirect is sent.  When the
    [web_target] of a record is an object with an own [toString] (which a
    parsed object can not call), [res.redirect] throws while it converts
    the target: the request is answered with the generic 500, and yet
    the store was written with [visits] one higher and the entry [{ip,
    timestamp}] of the request appended to the history. *)
Theorem X19_visit_is_written_before_the_redirect :
  forall (w : world) (props rec target : list (string * value))
    (name clientIP now : string) (count : Z) (history : list value),
    holds w props -> writable w = true ->
    own props name = Some (VObj rec) ->
    own rec "web_target" = Some (VObj target) ->
    own target "toString" <> None ->
    own rec "visits" = Some (VNum (NInt count)) -> count < MAX_SAFE ->
    own rec "visit_history" = Some (VArr history) ->
    let entry := VObj [ ("ip", VStr clientIP); ("timestamp", VStr now) ] in
    let rec' := set_prop (set_prop rec "visits" (VNum (NInt (count + 1))))
                  "visit_history" (VArr (history ++ [entry])) in
    let props' := replace_prop props name (VObj rec') in
    redirect name clientIP now w
    = (Ret (Failure 500 MSG_SERVER), wrote w (VObj props'))
    /\ holds (wrote w (VObj props')) props'
    /\ own props' name = Some (VObj rec')
    /\ own rec' "visits" = Some (VNum (NInt (count + 1)))
    /\ own rec' "visit_history" = Some (VArr (history ++ [entry])).
Proof.
  intros w props rec target name clientIP now count history
    Hw Hwr Hn Ht Hts Hv Hc Hh entry rec' props'.
  pose proof (holds_json_ok _ _ Hw) as Hok.
  pose proof (json_ok_own _ _ _ Hok Hn) as Hrec.
  pose proof (json_ok_own _ _ _ Hrec Hv) as Hcount.
  cbn [json_ok] in Hcount. apply Z.leb_le in Hcount.
  change rec' with (visited_with rec (VNum (NInt (count + 1))) history
                      clientIP now) in *.
  split; [|split; [|split; [|split]]].
  - rewrite (redirect_run w props rec name clientIP now
               (VNum (NInt (count + 1))) history); try assumption.
    + rewrite Hwr. unfold get_prop. rewrite Ht.
      unfold try_catch, res_redirect. cbn [to_string].
      destruct (own target "toString"); [reflexivity|congruence].
    + unfold get_prop. rewrite Hv. cbn [add_one ret].
      now rewrite succ_double_safe.
  - apply wrote_holds, json_ok_replace; [exact Hok|].
    apply visited_with_json_ok; [exact Hrec| |].
    + cbn [json_ok]. apply Z.leb_le. unfold MAX_SAFE in *. lia.
    + eapply json_ok_own; eassumption.
  - unfold props'. now rewrite own_replace, String.eqb_refl, Hn.
  - now rewrite visited_with_own.
  - now rewrite visited_with_own.
Qed.

Lemma X19_witness :
  redirect "loop" "198.51.100.2" "2024-05-01T10:01:00.000Z" stuck_world
  = (Ret (Failure 500 MSG_SERVER),
     wrote stuck_world
       (VObj [ ("loop",
                VObj [ ("web_target", VObj [ ("toString", VNum (NInt 1)) ]);
                       ("visits", VNum (NInt 1));
                       ("visit_history",
                        VArr [ VObj [ ("ip", VStr "198.51.100.2");
                                      ("timestamp",
                                       VStr "2024-05-01T10:01:00.000Z")
                                    ] ]) ]) ])).
Proof.
  apply (proj1 (X19_visit_is_written_before_the_redirect stuck_world
                  stuck_store
                  [ ("web_target", VObj [ ("toString", VNum (NInt 1)) ]);
                    ("visits", VNum (NInt 0));
                    ("visit_history", VArr []) ]
                  [ ("toString", VNum (NInt 1)) ]
                  "loop" "198.51.100.2" "2024-05-01T10:01:00.000Z" 0 []
                  stuck_world_holds eq_refl eq_refl eq_refl
                  ltac:(discriminate) eq_refl ltac:(reflexivity) eq_refl)).
Defined.

(** X20.  [POST /shorten] does not ask that [url] and [name] are texts:
    it converts them where it needs a text.  For truthy body values: a
    [url] whose conversion throws is refused as an invalid URL (the
    conversion happens inside [isValidUrl], which catches); a [name]
    whose conversion throws gives the generic 500 (the pattern test is
    not guarded); and a [name] whose text matches the pattern and is
    free is created under that text, with the values of the body, as
    they came, in the fields [name] and [web_target]. *)
Theorem X20_body_values_are_converted :
  forall (URL_parses : string -> bool) (w : world) (u n : value)
    (clientIP timestamp : string),
    truthy_value u = true -> truthy_value n = true ->
    (to_string u = None ->
     post_shorten URL_parses (Some u) (Some n) clientIP timestamp w
     = (Ret (Failure 400 MSG_URL), w))
    /\ (forall s, to_string u = Some s -> URL_parses s = true ->
                  to_string n = None ->
                  post_shorten URL_parses (Some u) (Some n)
                    clientIP timestamp w
                  = (Ret (Failure 500 MSG_SERVER), w))
    /\ (forall s key props,
          to_string u = Some s -> URL_parses s = true ->
          to_string n = Some key -> name_pattern key = true ->
          json_ok u = true -> json_ok n = true ->
          holds w props -> writable w = true ->
          truthy (get_prop props key) = false ->
          let rec := VObj [ ("name", n);
                            ("web_target", u);
                            ("web_url", VStr ("shortmyurl.us.kg/" ++ key));
                            ("created_at", VStr timestamp);
                            ("created_by_ip", VStr clientIP);
                            ("visits", VNum (NInt 0));
                            ("visit_history", VArr []) ] in
          let w' := wrote w (VObj (set_prop props key rec)) in
          post_shorten URL_parses (Some u) (Some n) clientIP timestamp w
          = (Ret (Created MSG_CREATED (Data rec)), w')
          /\ holds w' (set_prop props key rec)
          /\ stats key w' = (Ret (Stats (Data rec)), w')).
Proof.
  intros URL_parses w u n clientIP timestamp Hu Hn.
  split; [|split].
  - intros Hc. unfold post_shorten, isValidUrl, try_catch.
    now rewrite Hu, Hn, Hc.
  - intros s Hs Hv Hc. unfold post_shorten, isValidUrl, try_catch.
    now rewrite Hu, Hn, Hs, Hv, Hc.
  - intros s key props Hs Hv Hk Hp Hju Hjn Hw Hwr Ht rec w'.
    assert (Hrec : json_ok rec = true).
    { unfold rec. cbn [json_ok forallb snd]. rewrite Hju, Hjn.
      reflexivity. }
    assert (Hw' : holds w' (set_prop props key rec)).
    { apply wrote_holds, json_ok_set; [|exact Hrec].
      eapply holds_json_ok; eassumption. }
    assert (Hown : own (set_prop props key rec) key = Some rec)
      by now rewrite own_set_prop, String.eqb_refl.
    split; [|split; [exact Hw'|]].
    + unfold post_shorten, isValidUrl, try_catch.
      rewrite Hu, Hn, Hs, Hv, Hk, Hp. cbn [negb orb]. unfold bind.
      rewrite (holds_read _ _ Hw). cbn [index ret]. rewrite Ht.
      cbn [assign ret].
      change (record_of n u key clientIP timestamp) with rec.
      rewrite writeDatabase_run by assumption. cbn [index ret].
      unfold get_prop. now rewrite Hown.
    + eapply stats_present; [exact Hw'|exact Hown|reflexivity].
Qed.

Lemma X20_witness :
  post_shorten sample_URL_parses (Some (VObj [ ("toString", VNull) ]))
    (Some (VStr "ex2")) "203.0.113.7" "2024-05-01T11:00:00.000Z"
    sample_world
  = (Ret (Failure 400 MSG_URL), sample_world)
  /\ post_shorten sample_URL_parses (Some (VStr "https://example.org"))
       (Some (VObj [ ("toString", VNull) ])) "203.0.113.7"
       "2024-05-01T11:00:00.000Z" sample_world
     = (Ret (Failure 500 MSG_SERVER), sample_world)
  /\ fst (post_shorten sample_URL_parses
            (Some (VArr [VStr "https://example.org"]))
            (Some (VNum (NInt 42))) "203.0.113.7"
            "2024-05-01T11:00:00.000Z" sample_world)
     = Ret (Created MSG_CREATED
              (Data (VObj [ ("name", VNum (NInt 42));
                            ("web_target",
                             VArr [VStr "https://example.org"]);
                            ("web_url", VStr "shortmyurl.us.kg/42");
                            ("created_at",
                             VStr "2024-05-01T11:00:00.000Z");
                            ("created_by_ip", VStr "203.0.113.7");
                            ("visits", VNum (NInt 0));
                            ("visit_history", VArr []) ]))).
Proof.
  split; [|split].
  - apply (proj1 (X20_body_values_are_converted sample_URL_parses
                    sample_world (VObj [ ("toString", VNull) ])
                    (VStr "ex2") "203.0.113.7" "2024-05-01T11:00:00.000Z"
                    eq_refl eq_refl)).
    reflexivity.
  - apply (proj1 (proj2
             (X20_body_values_are_converted sample_URL_parses
                sample_world (VStr "https://example.org")
                (VObj [ ("toString", VNull) ]) "203.0.113.7"
                "2024-05-01T11:00:00.000Z" eq_refl eq_refl))
             "https://example.org"); reflexivity.
  - destruct (proj2 (proj2
               (X20_body_values_are_converted sample_URL_parses
                  sample_world (VArr [VStr "https://example.org"])
                  (VNum (NInt 42)) "203.0.113.7"
                  "2024-05-01T11:00:00.000Z" eq_refl eq_refl))
               "https://example.org" "42" sample_store
               eq_refl eq_refl eq_refl eq_refl eq_refl eq_refl
               sample_world_holds eq_refl eq_refl) as (Hrun & _).
    now rewrite Hrun.
Defined.
